(** * death-poc: ESP32-C3 Matter node, UART link and mode arbiter

    Shallow embedding of [firmware/main/app_main.cpp]: the CRC-8 routine,
    the frame encoder [uart_send_frame], the byte-at-a-time receiver of
    [uart_rx_task] with its command handlers, the attribute callback
    [app_attribute_update_cb] and the debounce loop [mode_sync_task].

    Bytes and the other fixed-width integers are [Z] with the wrap-around
    written out ([u8]); arrays are lists indexed with stdpp's lookup and
    insert behind an explicit bounds check, so that an access outside the
    array makes the computation fail ([None]) instead of being ignored. *)

From Stdlib Require Import ZArith Lia Bool String.
From stdpp Require Import base option list.

Open Scope Z_scope.

(** ** Constants of the source *)

Definition PULSE_DURATION_MS : Z := 500.
Definition SIGNAL_GPIO : Z := 4.
Definition LED_GPIO : Z := 8.

Definition FRAME_START : Z := 0xA5.
Definition CRC_POLY : Z := 0x31.

Definition CMD_HELLO : Z := 0x01.
Definition CMD_SET_MODE : Z := 0x02.
Definition CMD_TRIGGER : Z := 0x03.
Definition CMD_PING : Z := 0x04.

Definition CMD_STATUS_PAIRED : Z := 0x10.
Definition CMD_STATUS_UNPAIRED : Z := 0x11.

Definition RSP_ACK : Z := 0x80.
Definition RSP_ERR : Z := 0x81.
Definition RSP_BUSY : Z := 0x82.
Definition RSP_DONE : Z := 0x83.

(** Identifiers of the On/Off cluster and of its OnOff attribute.  They come
    from the Matter SDK headers ([chip::app::Clusters::OnOff]), not from
    this repository; no result below depends on their values. *)
Definition OnOff_Id : Z := 0x0006.
Definition OnOff_Attributes_OnOff_Id : Z := 0x0000.

(** ** Fixed-width arithmetic *)

(** Conversion to [uint8_t]. *)
Definition u8 (x : Z) : Z := x mod 256.

Definition is_byte (b : Z) : Prop := 0 <= b < 256.

Definition is_byteb (b : Z) : bool := (0 <=? b) && (b <? 256).

(** ** CRC-8 *)

(** One turn of the inner [for (j ...)] loop of [crc8]. *)
Definition crc8_shift (crc : Z) : Z :=
  if negb (Z.land crc 0x80 =? 0)
  then u8 (Z.lxor (Z.shiftl crc 1) CRC_POLY)
  else u8 (Z.shiftl crc 1).

(** One turn of the outer loop: [crc ^= data[i]] and the eight shifts. *)
Definition crc8_byte (crc b : Z) : Z :=
  Nat.iter 8 crc8_shift (u8 (Z.lxor crc b)).

(** [crc8(data, len)]: [data] is the memory from the pointer on. *)
Definition crc8 (data : list Z) (len : Z) : Z :=
  fold_left crc8_byte (take (Z.to_nat len) data) 0x00.

(** ** Arrays with checked indices *)

(** [a[i] = v]. *)
Definition store (a : list Z) (i v : Z) : option (list Z) :=
  if (0 <=? i) && (i <? Z.of_nat (length a))
  then Some (<[Z.to_nat i := v]> a)
  else None.

(** [memcpy(&dst[off], src, n)]. *)
Definition memcpy (dst : list Z) (off : Z) (src : list Z) (n : Z)
  : option (list Z) :=
  if (0 <=? off) && (0 <=? n) && (off + n <=? Z.of_nat (length dst))
     && (n <=? Z.of_nat (length src))
  then Some (take (Z.to_nat off) dst ++ take (Z.to_nat n) src
               ++ drop (Z.to_nat (off + n)) dst)
  else None.

(** ** Frame encoder *)

(** The body of [uart_send_frame] up to the call of [uart_write_bytes]:
    the bytes [frame[0 .. idx)] handed to the driver.  A null [payload] is
    [None]. *)
Definition uart_frame_bytes (cmd : Z) (payload : option (list Z))
    (payload_len : Z) : option (list Z) :=
  let frame := replicate 64 0 in  (* uint8_t frame[64], not initialised *)
  let idx := 0 in
  frame ← store frame idx FRAME_START;
  let idx := u8 (idx + 1) in
  let len := u8 (1 + payload_len) in
  frame ← store frame idx len;
  let idx := u8 (idx + 1) in
  frame ← store frame idx cmd;
  let idx := u8 (idx + 1) in
  '(frame, idx) ←
    match payload with
    | Some p =>
        if payload_len >? 0
        then frame' ← memcpy frame idx p payload_len;
             Some (frame', u8 (idx + payload_len))
        else Some (frame, idx)
    | None => Some (frame, idx)
    end;
  let crc := crc8 (drop 1 frame) (idx - 1) in
  frame ← store frame idx crc;
  let idx := u8 (idx + 1) in
  Some (take (Z.to_nat idx) frame).


(** ** Observable actions *)

(** The [ESP_LOGx] lines of the embedded functions, by their message. *)
Inductive log_msg : Type :=
| LogUartTx (idx cmd : Z)
| LogCmdHello
| LogCmdPing
| LogCmdTrigger
| LogSkitBusy
| LogTriggerAck
| LogSetModeMissing
| LogSetModeInvalid (mode : Z)
| LogSetMode (mode : Z)
| LogUartRxStarted
| LogDebounceComplete (target : Z) (name : string)
| LogSettingMode (mode : Z)
| LogModeOff (i : Z)
| LogModeOn (mode : Z)
| LogModeChangeComplete (name : string)
| LogSafetyCleanup (mode : Z) (name : string)
| LogCleanupSetting (mode : Z)
| LogCleanupOff (i : Z)
| LogCleanupOn (mode : Z)
| LogCleanupComplete
| LogCleanupFlagReset
| LogInvalidLength (len : Z)
| LogResponse (cmd : Z)
| LogUnknownCommand (cmd : Z)
| LogCrcError (calc received : Z)
| LogPulseAlreadyActive
| LogPulseStarted
| LogPulseStopped
| LogPulseEnded
| LogAttrOffUpdated
| LogOnOffCommand (endpoint : Z) (on : bool)
| LogHomeKitTrigger
| LogIgnoringSync (mode : Z)
| LogUserTapped (mode : Z)
| LogModeTurnedOff (mode : Z)
| LogPostUpdate (on : bool).

(** Calls into the drivers and into the Matter data model.  A report or an
    update is put on record; the data model's own reaction to it is not
    part of this program. *)
Inductive event : Type :=
| EvLog (m : log_msg)
| EvGpio (pin level : Z)               (* gpio_set_level *)
| EvUartTx (bytes : list Z)            (* uart_write_bytes *)
| EvReport (endpoint : Z) (on : bool)  (* attribute::report, OnOff *)
| EvUpdate (endpoint : Z) (on : bool)  (* attribute::update, OnOff *)
| EvTimerStartOnce (us : Z).           (* esp_timer_create + start_once *)

(** ** Program state *)

(** [uint16_t g_mode_plugin_ids[4]]. *)
Record plugin_ids : Type := mkIds { id0 : Z; id1 : Z; id2 : Z; id3 : Z }.

Definition plugin_id (a : plugin_ids) (i : Z) : option Z :=
  if i =? 0 then Some (id0 a)
  else if i =? 1 then Some (id1 a)
  else if i =? 2 then Some (id2 a)
  else if i =? 3 then Some (id3 a)
  else None.

(** The file-scope variables, and the function-static [cleanup_done] of
    [mode_sync_task]. *)
Record globals : Type := mkGlobals {
  g_switch_endpoint_id : Z;
  g_mode_plugin_ids : plugin_ids;
  g_pulse_active : bool;
  g_target_mode : Z;
  g_last_tap_time : Z;
  g_last_execution_time : Z;
  g_syncing_modes : bool;
  g_current_mode : Z;
  cleanup_done : bool
}.

Definition set_pulse_active (v : bool) (g : globals) : globals :=
  mkGlobals (g_switch_endpoint_id g) (g_mode_plugin_ids g) v
    (g_target_mode g) (g_last_tap_time g) (g_last_execution_time g)
    (g_syncing_modes g) (g_current_mode g) (cleanup_done g).

Definition set_target_mode (v : Z) (g : globals) : globals :=
  mkGlobals (g_switch_endpoint_id g) (g_mode_plugin_ids g) (g_pulse_active g)
    v (g_last_tap_time g) (g_last_execution_time g)
    (g_syncing_modes g) (g_current_mode g) (cleanup_done g).

Definition set_last_tap_time (v : Z) (g : globals) : globals :=
  mkGlobals (g_switch_endpoint_id g) (g_mode_plugin_ids g) (g_pulse_active g)
    (g_target_mode g) v (g_last_execution_time g)
    (g_syncing_modes g) (g_current_mode g) (cleanup_done g).

Definition set_last_execution_time (v : Z) (g : globals) : globals :=
  mkGlobals (g_switch_endpoint_id g) (g_mode_plugin_ids g) (g_pulse_active g)
    (g_target_mode g) (g_last_tap_time g) v
    (g_syncing_modes g) (g_current_mode g) (cleanup_done g).

Definition set_syncing_modes (v : bool) (g : globals) : globals :=
  mkGlobals (g_switch_endpoint_id g) (g_mode_plugin_ids g) (g_pulse_active g)
    (g_target_mode g) (g_last_tap_time g) (g_last_execution_time g)
    v (g_current_mode g) (cleanup_done g).

Definition set_current_mode (v : Z) (g : globals) : globals :=
  mkGlobals (g_switch_endpoint_id g) (g_mode_plugin_ids g) (g_pulse_active g)
    (g_target_mode g) (g_last_tap_time g) (g_last_execution_time g)
    (g_syncing_modes g) v (cleanup_done g).

Definition set_cleanup_done (v : bool) (g : globals) : globals :=
  mkGlobals (g_switch_endpoint_id g) (g_mode_plugin_ids g) (g_pulse_active g)
    (g_target_mode g) (g_last_tap_time g) (g_last_execution_time g)
    (g_syncing_modes g) (g_current_mode g) v.

(** Arguments of one call of the attribute callback. *)
Inductive callback_type : Type := PRE_UPDATE | POST_UPDATE | READ | WRITE.

Record attr_update : Type := mkAttrUpdate {
  cb_type : callback_type;
  cb_endpoint_id : Z;
  cb_cluster_id : Z;
  cb_attribute_id : Z;
  cb_val_b : bool
}.

(** The program together with its surroundings: the value of
    [esp_timer_get_time] in microseconds, the attribute callbacks the Matter
    task is still going to deliver (with their times, earliest first), and
    the actions performed so far, oldest first, each with its time.

    The task at hand runs without interruption up to its next [vTaskDelay];
    the callbacks that have fallen due run while it sleeps.  Computing takes
    no time. *)
Record world : Type := mkWorld {
  w_globals : globals;
  w_clock : Z;
  w_pending : list (Z * attr_update);
  w_trace : list (Z * event)
}.

(** ** State-and-failure monad *)

Definition M (A : Type) : Type := world -> option (A * world).

Definition ret {A} (a : A) : M A := fun w => Some (a, w).

Definition bind {A B} (m : M A) (k : A -> M B) : M B :=
  fun w => match m w with
           | Some (a, w') => k a w'
           | None => None
           end.

Definition fail {A} : M A := fun _ => None.

Declare Scope m_scope.
Delimit Scope m_scope with M.
Notation "x <- m ;; k" := (bind m (fun x => k))
  (at level 100, m at next level, right associativity) : m_scope.
Notation "m ;; k" := (bind m (fun _ => k))
  (at level 100, right associativity) : m_scope.
Open Scope m_scope.

Definition lift {A} (o : option A) : M A :=
  match o with Some a => ret a | None => fail end.

Definition get_globals : M globals := fun w => Some (w_globals w, w).

Definition modify (f : globals -> globals) : M unit :=
  fun w => Some (tt, mkWorld (f (w_globals w)) (w_clock w) (w_pending w)
                       (w_trace w)).

Definition esp_timer_get_time : M Z := fun w => Some (w_clock w, w).

Definition emit (e : event) : M unit :=
  fun w => Some (tt, mkWorld (w_globals w) (w_clock w) (w_pending w)
                       (w_trace w ++ [(w_clock w, e)])).

Definition log (m : log_msg) : M unit := emit (EvLog m).

Definition when (b : bool) (m : M unit) : M unit := if b then m else ret tt.

(** ** Sending a frame *)

(** [uart_write_bytes] takes every byte, so [written == idx]. *)
Definition uart_send_frame (cmd : Z) (payload : option (list Z))
    (payload_len : Z) : M bool :=
  bytes <- lift (uart_frame_bytes cmd payload payload_len);;
  emit (EvUartTx bytes);;
  log (LogUartTx (Z.of_nat (length bytes)) cmd);;
  ret true.

Definition uart_send_response (response_cmd : Z) (payload : option (list Z))
    (payload_len : Z) : M bool :=
  uart_send_frame response_cmd payload payload_len.

(** ** The pulse on the signal pin *)

Definition start_pulse : M unit :=
  g <- get_globals;;
  if g_pulse_active g then log LogPulseAlreadyActive
  else
    modify (set_pulse_active true);;
    emit (EvGpio SIGNAL_GPIO 1);;
    log LogPulseStarted;;
    emit (EvTimerStartOnce (PULSE_DURATION_MS * 1000)).

Definition stop_pulse : M unit :=
  emit (EvGpio SIGNAL_GPIO 0);;
  modify (set_pulse_active false);;
  log LogPulseStopped.

(** ** The attribute callback *)

(** The [for (int mode = 0; mode < 4; mode++)] loop of the callback, with
    [modes] the values of [mode] still to try. *)
Fixpoint mode_plugin_scan (a : attr_update) (modes : list Z) : M unit :=
  match modes with
  | [] => ret tt
  | mode :: rest =>
      g <- get_globals;;
      id <- lift (plugin_id (g_mode_plugin_ids g) mode);;
      if (cb_endpoint_id a =? id) && (cb_cluster_id a =? OnOff_Id)
         && (cb_attribute_id a =? OnOff_Attributes_OnOff_Id)
      then
        if cb_val_b a then
          if g_syncing_modes g then log (LogIgnoringSync mode)
          else
            modify (set_target_mode mode);;
            now <- esp_timer_get_time;;
            modify (set_last_tap_time now);;
            log (LogUserTapped mode)
        else
          when (negb (g_syncing_modes g)) (log (LogModeTurnedOff mode))
      else mode_plugin_scan a rest
  end.

Definition ESP_OK : Z := 0.

Definition app_attribute_update_cb (a : attr_update) : M Z :=
  match cb_type a with
  | PRE_UPDATE =>
      when ((cb_cluster_id a =? OnOff_Id)
            && (cb_attribute_id a =? OnOff_Attributes_OnOff_Id))
        (let new_state := cb_val_b a in
         log (LogOnOffCommand (cb_endpoint_id a) new_state);;
         g <- get_globals;;
         when ((cb_endpoint_id a =? g_switch_endpoint_id g) && new_state)
           (log LogHomeKitTrigger;;
            _ <- uart_send_frame CMD_TRIGGER None 0;;
            ret tt);;
         if new_state then start_pulse else stop_pulse);;
      mode_plugin_scan a [0; 1; 2; 3]
  | POST_UPDATE =>
      when ((cb_cluster_id a =? OnOff_Id)
            && (cb_attribute_id a =? OnOff_Attributes_OnOff_Id))
        (log (LogPostUpdate (cb_val_b a)))
  | _ => ret tt
  end;;
  ret ESP_OK.

(** ** Time *)

(** The callbacks of [q] that are due by [until] run, in order, each at its
    own time (or at once when it is overdue). *)
Fixpoint deliver (until : Z) (q : list (Z * attr_update)) : M unit :=
  match q with
  | [] => fun w => Some (tt, mkWorld (w_globals w) (w_clock w) [] (w_trace w))
  | (t, a) :: q' =>
      if t <=? until then
        fun w =>
          bind (app_attribute_update_cb a) (fun _ => deliver until q')
            (mkWorld (w_globals w) (Z.max (w_clock w) t) q' (w_trace w))
      else
        fun w => Some (tt, mkWorld (w_globals w) (w_clock w) q (w_trace w))
  end.

Definition set_clock (t : Z) : M unit :=
  fun w => Some (tt, mkWorld (w_globals w) t (w_pending w) (w_trace w)).

(** [vTaskDelay(pdMS_TO_TICKS(ms))]: the calling task sleeps, the Matter
    task delivers what falls due meanwhile.  Rounding to scheduler ticks is
    not modelled. *)
Definition vTaskDelay (ms : Z) : M unit :=
  fun w =>
    let until := w_clock w + ms * 1000 in
    bind (deliver until (w_pending w)) (fun _ => set_clock until) w.

(** The callback of the timer that [start_pulse] arms: the end of the pulse.
    [attribute::update] is taken to succeed.  The expiry of that timer is
    not scheduled in [world]: the arming is on record in the trace. *)
Definition pulse_timer_callback : M unit :=
  emit (EvGpio SIGNAL_GPIO 0);;
  modify (set_pulse_active false);;
  log LogPulseEnded;;
  vTaskDelay 10;;
  g <- get_globals;;
  emit (EvUpdate (g_switch_endpoint_id g) false);;
  log LogAttrOffUpdated.

(** ** LED patterns *)

Definition led_on : M unit := emit (EvGpio LED_GPIO 0).
Definition led_off : M unit := emit (EvGpio LED_GPIO 1).

(** The loop of [led_blink], [n] turns left, loop variable [i]. *)
Fixpoint led_blink_loop (n : nat) (i count on_ms off_ms : Z) : M unit :=
  match n with
  | O => ret tt
  | S n' =>
      led_on;;
      vTaskDelay on_ms;;
      led_off;;
      when (i <? count - 1) (vTaskDelay off_ms);;
      led_blink_loop n' (i + 1) count on_ms off_ms
  end.

Definition led_blink (count on_ms off_ms : Z) : M unit :=
  led_blink_loop (Z.to_nat count) 0 count on_ms off_ms.

Definition led_ack : M unit := led_blink 2 100 100.
Definition led_command_sent : M unit := led_blink 1 500 0.
Definition led_error : M unit := led_blink 5 50 50.
Definition led_hello : M unit := led_blink 3 300 300.

(** ** Command handlers *)

Definition handle_cmd_hello (payload : option (list Z)) (len : Z) : M unit :=
  log LogCmdHello;;
  _ <- uart_send_response RSP_ACK None 0;;
  led_hello.

Definition handle_cmd_ping (payload : option (list Z)) (len : Z) : M unit :=
  log LogCmdPing;;
  _ <- uart_send_response RSP_ACK None 0;;
  led_ack.

Definition handle_cmd_trigger (payload : option (list Z)) (len : Z)
  : M unit :=
  log LogCmdTrigger;;
  g <- get_globals;;
  if g_pulse_active g then
    log LogSkitBusy;;
    _ <- uart_send_response RSP_BUSY None 0;;
    ret tt
  else
    _ <- uart_send_response RSP_ACK None 0;;
    led_command_sent;;
    log LogTriggerAck.

(** [payload[i]] through a pointer that may be null. *)
Definition deref (payload : option (list Z)) (i : nat) : option Z :=
  p ← payload; p !! i.

Definition handle_cmd_set_mode (payload : option (list Z)) (len : Z)
  : M unit :=
  if len <? 1 then
    log LogSetModeMissing;;
    _ <- uart_send_response RSP_ERR None 0;;
    led_error
  else
    mode <- lift (deref payload 0);;
    if mode >? 3 then
      log (LogSetModeInvalid mode);;
      _ <- uart_send_response RSP_ERR None 0;;
      led_error
    else
      modify (set_current_mode mode);;
      log (LogSetMode mode);;
      _ <- uart_send_response RSP_ACK None 0;;
      led_blink (mode + 1) 200 200.

(** ** Receiver *)

(** The locals of [uart_rx_task] that live across bytes. *)
Record rx_locals : Type := mkRx {
  frame_buf : list Z;
  buf_idx : Z;
  state : Z;
  frame_len : Z;
  bytes_to_read : Z;
  cmd : Z
}.

(** The branch taken when the CRC matches: [cmd], the payload pointer
    (null for an empty payload, else the [payload_len] bytes from
    [frame_buf[3]] on) and [payload_len]. *)
Definition dispatch_frame (cmd : Z) (payload : option (list Z))
    (payload_len : Z) : M unit :=
  if cmd >=? 0x80 then log (LogResponse cmd)
  else if cmd =? CMD_HELLO then handle_cmd_hello payload payload_len
  else if cmd =? CMD_PING then handle_cmd_ping payload payload_len
  else if cmd =? CMD_TRIGGER then handle_cmd_trigger payload payload_len
  else if cmd =? CMD_SET_MODE then handle_cmd_set_mode payload payload_len
  else
    log (LogUnknownCommand cmd);;
    _ <- uart_send_response RSP_ERR None 0;;
    led_error.

(** The payload pointer computed by the receiver. *)
Definition payload_ptr (frame_buf : list Z) (payload_len : Z)
  : option (list Z) :=
  if payload_len >? 0
  then Some (take (Z.to_nat payload_len) (drop 3 frame_buf))
  else None.

(** The body of the [for] loop of [uart_rx_task] for one received byte. *)
Definition uart_rx_byte (rx : rx_locals) (b : Z) : M rx_locals :=
  if state rx =? 0 then
    if b =? FRAME_START then
      buf <- lift (store (frame_buf rx) (buf_idx rx) b);;
      ret (mkRx buf (u8 (buf_idx rx + 1)) 1 (frame_len rx)
             (bytes_to_read rx) (cmd rx))
    else ret rx
  else if state rx =? 1 then
    buf <- lift (store (frame_buf rx) (buf_idx rx) b);;
    let idx := u8 (buf_idx rx + 1) in
    let frame_len := b in
    if (frame_len =? 0) || (frame_len >? 60) then
      log (LogInvalidLength frame_len);;
      ret (mkRx buf 0 0 frame_len (bytes_to_read rx) (cmd rx))
    else
      ret (mkRx buf idx 2 frame_len frame_len (cmd rx))
  else if state rx =? 2 then
    buf <- lift (store (frame_buf rx) (buf_idx rx) b);;
    let idx := u8 (buf_idx rx + 1) in
    let cmd := if idx =? 3 then b else cmd rx in
    let bytes_to_read := u8 (bytes_to_read rx - 1) in
    ret (mkRx buf idx (if bytes_to_read =? 0 then 3 else 2) (frame_len rx)
           bytes_to_read cmd)
  else if state rx =? 3 then
    buf <- lift (store (frame_buf rx) (buf_idx rx) b);;
    let idx := u8 (buf_idx rx + 1) in
    let received_crc := b in
    let calc_crc := crc8 (drop 1 buf) (idx - 2) in
    (if calc_crc =? received_crc then
       let payload_len := u8 (frame_len rx - 1) in
       dispatch_frame (cmd rx) (payload_ptr buf payload_len) payload_len
     else
       log (LogCrcError calc_crc received_crc);;
       led_error);;
    ret (mkRx buf 0 0 (frame_len rx) (bytes_to_read rx) (cmd rx))
  else ret rx.

(** The bytes returned by [uart_read_bytes], one after the other. *)
Fixpoint uart_rx_bytes (rx : rx_locals) (data : list Z) : M rx_locals :=
  match data with
  | [] => ret rx
  | b :: data' => rx' <- uart_rx_byte rx b;; uart_rx_bytes rx' data'
  end.

(** The locals as [uart_rx_task] declares them; the uninitialised
    [frame_buf] is read only where it has been written. *)
Definition rx_init : rx_locals := mkRx (replicate 64 0) 0 0 0 0 0.

(** The [while (1)] loop of [uart_rx_task] over the successive results of
    [uart_read_bytes] (an empty one for a timeout). *)
Fixpoint uart_rx_loop (rx : rx_locals) (reads : list (list Z))
  : M rx_locals :=
  match reads with
  | [] => ret rx
  | data :: reads' => rx' <- uart_rx_bytes rx data;; uart_rx_loop rx' reads'
  end.

Definition uart_rx_task (reads : list (list Z)) : M rx_locals :=
  log LogUartRxStarted;;
  uart_rx_loop rx_init reads.

(** ** Mode arbiter *)

(** [mode_names[i]]. *)
Definition mode_names (i : Z) : option string :=
  if i =? 0 then Some "Little Kid"%string
  else if i =? 1 then Some "Big Kid"%string
  else if i =? 2 then Some "Take One"%string
  else if i =? 3 then Some "Closed"%string
  else None.

(** The loop that turns off every mode plugin except the current one; [todo]
    holds the values of [i] still to visit.  The loop occurs twice in the
    source, with different log lines only ([off_msg]). *)
Fixpoint report_others_off (off_msg : Z -> log_msg) (todo : list Z)
  : M unit :=
  match todo with
  | [] => ret tt
  | i :: rest =>
      g <- get_globals;;
      when (negb (i =? g_current_mode g))
        (id <- lift (plugin_id (g_mode_plugin_ids g) i);;
         emit (EvReport id false);;
         log (off_msg i);;
         vTaskDelay 10);;
      report_others_off off_msg rest
  end.

(** The block under "PRIMARY EXECUTION". *)
Definition primary_execution (now : Z) : M unit :=
  g <- get_globals;;
  name <- lift (mode_names (g_target_mode g));;
  log (LogDebounceComplete (g_target_mode g) name);;
  modify (set_current_mode (u8 (g_target_mode g)));;
  modify (set_target_mode (-1));;
  g <- get_globals;;
  _ <- uart_send_frame CMD_SET_MODE (Some [u8 (g_current_mode g)]) 1;;
  modify (set_syncing_modes true);;
  log (LogSettingMode (g_current_mode g));;
  report_others_off LogModeOff [0; 1; 2; 3];;
  vTaskDelay 50;;
  g <- get_globals;;
  id <- lift (plugin_id (g_mode_plugin_ids g) (g_current_mode g));;
  emit (EvReport id true);;
  log (LogModeOn (g_current_mode g));;
  modify (set_syncing_modes false);;
  modify (set_last_execution_time now);;
  g <- get_globals;;
  name <- lift (mode_names (g_current_mode g));;
  log (LogModeChangeComplete name).

(** The block under "SAFETY CLEANUP". *)
Definition safety_cleanup : M unit :=
  g <- get_globals;;
  name <- lift (mode_names (g_current_mode g));;
  log (LogSafetyCleanup (g_current_mode g) name);;
  modify (set_syncing_modes true);;
  log (LogCleanupSetting (g_current_mode g));;
  report_others_off LogCleanupOff [0; 1; 2; 3];;
  vTaskDelay 50;;
  g <- get_globals;;
  id <- lift (plugin_id (g_mode_plugin_ids g) (g_current_mode g));;
  emit (EvReport id true);;
  log (LogCleanupOn (g_current_mode g));;
  modify (set_syncing_modes false);;
  modify (set_cleanup_done true);;
  log LogCleanupComplete.

(** One turn of the [while (1)] loop of [mode_sync_task]. *)
Definition mode_sync_iteration : M unit :=
  now <- esp_timer_get_time;;
  g <- get_globals;;
  let time_since_tap_ms := Z.quot (now - g_last_tap_time g) 1000 in
  let time_since_exec_ms := Z.quot (now - g_last_execution_time g) 1000 in
  when ((g_target_mode g >=? 0)
        && negb (g_target_mode g =? g_current_mode g)
        && (time_since_tap_ms >=? 200))
    (primary_execution now);;
  g <- get_globals;;
  when ((time_since_exec_ms >=? 5000) && (time_since_tap_ms >=? 5000)
        && negb (cleanup_done g))
    safety_cleanup;;
  g <- get_globals;;
  when ((g_target_mode g >=? 0) && cleanup_done g)
    (modify (set_cleanup_done false);;
     log LogCleanupFlagReset);;
  vTaskDelay 10.

(** [n] turns of the loop. *)
Fixpoint mode_sync_task (n : nat) : M unit :=
  match n with
  | O => ret tt
  | S n' => mode_sync_iteration;; mode_sync_task n'
  end.

(** ** Reading a trace *)

(** A mode-plugin "on" command as the callback receives it. *)
Definition tap (endpoint : Z) : attr_update :=
  mkAttrUpdate PRE_UPDATE endpoint OnOff_Id OnOff_Attributes_OnOff_Id true.

(** Mode executions: the [SET_MODE] frames sent to the peer, with the time
    and the mode byte of each. *)
Definition execution_of (te : Z * event) : option (Z * Z) :=
  match te with
  | (t, EvUartTx [_; _; c; m; _]) =>
      if c =? CMD_SET_MODE then Some (t, m) else None
  | _ => None
  end.

Definition executions (tr : list (Z * event)) : list (Z * Z) :=
  omap execution_of tr.

(** Self-healing re-assertions, by the time each one starts. *)
Definition reassertion_of (te : Z * event) : option Z :=
  match te with
  | (t, EvLog (LogSafetyCleanup _ _)) => Some t
  | _ => None
  end.

Definition reassertions (tr : list (Z * event)) : list Z :=
  omap reassertion_of tr.

(** The reports to the Matter data model, in order. *)
Definition report_of (te : Z * event) : option (Z * bool) :=
  match te with
  | (_, EvReport ep v) => Some (ep, v)
  | _ => None
  end.

Definition reports (tr : list (Z * event)) : list (Z * bool) :=
  omap report_of tr.

(** The frames written to the UART, in order. *)
Definition uart_tx_of (te : Z * event) : option (list Z) :=
  match te with
  | (_, EvUartTx bytes) => Some bytes
  | _ => None
  end.

Definition uart_tx (tr : list (Z * event)) : list (list Z) :=
  omap uart_tx_of tr.

(** The frame as the wire format lays it out. *)
Definition frame_of (cmd : Z) (p : list Z) : list Z :=
  let len := 1 + Z.of_nat (length p) in
  [FRAME_START; len; cmd] ++ p ++ [crc8 ([len; cmd] ++ p) (len + 1)].


(** ** Predicates used by the statements *)

(** Every call of the computation returns. *)
Definition total {A} (m : M A) : Prop :=
  forall w, exists a w', m w = Some (a, w').

(** What holds of the receiver's locals between any two bytes. *)
Definition rx_inv (rx : rx_locals) : Prop :=
  length (frame_buf rx) = 64%nat /\
  ((state rx = 0 /\ buf_idx rx = 0) \/
   (state rx = 1 /\ buf_idx rx = 1) \/
   (state rx = 2 /\ 1 <= bytes_to_read rx <= frame_len rx /\
    frame_len rx <= 60 /\
    buf_idx rx = 2 + frame_len rx - bytes_to_read rx) \/
   (state rx = 3 /\ 1 <= frame_len rx <= 60 /\
    buf_idx rx = 2 + frame_len rx)).

(** Bit [j] of byte [i] of a frame inverted. *)
Definition flip_bit (frame : list Z) (i j : nat) : list Z :=
  alter (fun b => Z.lxor b (Z.shiftl 1 (Z.of_nat j))) i frame.

(** All byte values, for facts settled by enumeration. *)
Definition all_bytes : list Z := map Z.of_nat (seq 0 256).

(** The payload pointer the receiver hands to the handlers for the payload
    [p]: null when there is none. *)
Definition payload_arg (p : list Z) : option (list Z) :=
  match p with
  | [] => None
  | _ :: _ => Some p
  end.

(** The receiver between frames: waiting for the start byte, index at the
    bottom of its 64-byte buffer. *)
Definition wait_start (rx : rx_locals) : Prop :=
  state rx = 0 /\ buf_idx rx = 0 /\ length (frame_buf rx) = 64%nat.

(** What the trace says about the signal pin and its timer. *)
Definition pulse_action_of (te : Z * event) : option event :=
  match te with
  | (_, EvGpio pin level) =>
      if pin =? SIGNAL_GPIO then Some (EvGpio pin level) else None
  | (_, EvTimerStartOnce us) => Some (EvTimerStartOnce us)
  | _ => None
  end.

Definition pulse_actions (tr : list (Z * event)) : list event :=
  omap pulse_action_of tr.

(** Sample endpoint identifiers and the variables as [app_main] leaves
    them. *)
Definition sample_ids : plugin_ids := mkIds 2 3 4 5.

Definition boot_globals : globals :=
  mkGlobals 1 sample_ids false (-1) 0 0 false 0 false.

Definition boot_world : world := mkWorld boot_globals 0 [] [].

(** [m], run from [w], returns, and the result satisfies [Q]. *)
Definition wp {A} (m : M A) (Q : A -> world -> Prop) (w : world) : Prop :=
  exists a w', m w = Some (a, w') /\ Q a w'.

(** The variables an attribute callback leaves alone: the endpoint
    identifiers, the current mode, the arbiter's flags and execution time;
    and, while the arbiter is syncing, the pending target and the tap time
    as well.  A pending target stays within -1..3. *)
Definition vars_frame (g g' : globals) : Prop :=
  g_mode_plugin_ids g' = g_mode_plugin_ids g
  /\ g_switch_endpoint_id g' = g_switch_endpoint_id g
  /\ g_current_mode g' = g_current_mode g
  /\ g_syncing_modes g' = g_syncing_modes g
  /\ g_last_execution_time g' = g_last_execution_time g
  /\ cleanup_done g' = cleanup_done g
  /\ (-1 <= g_target_mode g <= 3 -> -1 <= g_target_mode g' <= 3)
  /\ (g_syncing_modes g = true ->
      g_target_mode g' = g_target_mode g
      /\ g_last_tap_time g' = g_last_tap_time g).

(** What a callback leaves alone in the whole: those variables, and the
    reports, executions and re-assertions on record. *)
Definition callback_frame (w w' : world) : Prop :=
  vars_frame (w_globals w) (w_globals w')
  /\ reports (w_trace w') = reports (w_trace w)
  /\ executions (w_trace w') = executions (w_trace w)
  /\ reassertions (w_trace w') = reassertions (w_trace w).

(** The four mode endpoints. *)
Definition ids_list (a : plugin_ids) : list Z := [id0 a; id1 a; id2 a; id3 a].

(** The "off" reports of one pass of the turn-off loop over [todo], for the
    identifiers [a] and the current mode [cur]. *)
Definition off_reports (a : plugin_ids) (cur : Z) (todo : list Z)
  : list (Z * bool) :=
  omap (fun i => if i =? cur then None
                 else (fun id => (id, false)) <$> plugin_id a i) todo.

(** The outcome of a mode execution started at [w] with the time sample
    [now]: the pending target has become the current mode, the [SET_MODE]
    frame has gone out at the time the execution started, the other three
    endpoints have been reported off and then the new one on. *)
Definition executed (now : Z) (w w' : world) : Prop :=
  let g := w_globals w in
  let g' := w_globals w' in
  g_mode_plugin_ids g' = g_mode_plugin_ids g
  /\ g_switch_endpoint_id g' = g_switch_endpoint_id g
  /\ g_current_mode g' = g_target_mode g
  /\ g_target_mode g' = -1
  /\ g_syncing_modes g' = false
  /\ g_last_execution_time g' = now
  /\ g_last_tap_time g' = g_last_tap_time g
  /\ cleanup_done g' = cleanup_done g
  /\ (exists on_id,
        plugin_id (g_mode_plugin_ids g) (g_target_mode g) = Some on_id
        /\ reports (w_trace w')
           = reports (w_trace w)
             ++ off_reports (g_mode_plugin_ids g) (g_target_mode g)
                  [0; 1; 2; 3]
             ++ [(on_id, true)])
  /\ executions (w_trace w')
     = executions (w_trace w) ++ [(w_clock w, g_target_mode g)]
  /\ reassertions (w_trace w') = reassertions (w_trace w)
  /\ w_clock w' = w_clock w + 80000
  /\ (w_pending w = [] -> w_pending w' = []).

(** The outcome of a safety cleanup started at [w]: the same report
    sequence for the current mode, no frame to the peer, and the one-shot
    flag set. *)
Definition reasserted (w w' : world) : Prop :=
  let g := w_globals w in
  let g' := w_globals w' in
  g_mode_plugin_ids g' = g_mode_plugin_ids g
  /\ g_switch_endpoint_id g' = g_switch_endpoint_id g
  /\ g_current_mode g' = g_current_mode g
  /\ g_target_mode g' = g_target_mode g
  /\ g_syncing_modes g' = false
  /\ g_last_execution_time g' = g_last_execution_time g
  /\ g_last_tap_time g' = g_last_tap_time g
  /\ cleanup_done g' = true
  /\ (exists on_id,
        plugin_id (g_mode_plugin_ids g) (g_current_mode g) = Some on_id
        /\ reports (w_trace w')
           = reports (w_trace w)
             ++ off_reports (g_mode_plugin_ids g) (g_current_mode g)
                  [0; 1; 2; 3]
             ++ [(on_id, true)])
  /\ executions (w_trace w') = executions (w_trace w)
  /\ reassertions (w_trace w') = reassertions (w_trace w) ++ [w_clock w]
  /\ w_clock w' = w_clock w + 80000
  /\ (w_pending w = [] -> w_pending w' = []).

(** The two time differences one turn of the loop computes, and its three
    conditions, as functions of the state the turn starts in. *)
Definition time_since_tap_ms (w : world) : Z :=
  Z.quot (w_clock w - g_last_tap_time (w_globals w)) 1000.

Definition time_since_exec_ms (w : world) : Z :=
  Z.quot (w_clock w - g_last_execution_time (w_globals w)) 1000.

Definition debounce_due (w : world) : bool :=
  (g_target_mode (w_globals w) >=? 0)
  && negb (g_target_mode (w_globals w) =? g_current_mode (w_globals w))
  && (time_since_tap_ms w >=? 200).

Definition cleanup_due (w : world) : bool :=
  (time_since_exec_ms w >=? 5000) && (time_since_tap_ms w >=? 5000)
  && negb (cleanup_done (w_globals w)).

(** The last check of a turn: a pending target clears the one-shot flag. *)
Definition flag_reset (w : world) : world :=
  if (g_target_mode (w_globals w) >=? 0) && cleanup_done (w_globals w)
  then mkWorld (set_cleanup_done false (w_globals w)) (w_clock w)
         (w_pending w) (w_trace w ++ [(w_clock w, EvLog LogCleanupFlagReset)])
  else w.

(** ** The debounce scenario, phase by phase *)

(** Mode 2 has been tapped at 0 ms; the tap of mode 1 is still to come. *)
Definition first_tap_pending (ids : plugin_ids) (c : Z) (w : world) : Prop :=
  w_clock w = c
  /\ w_pending w = [(50000, tap (id1 ids))]
  /\ g_mode_plugin_ids (w_globals w) = ids
  /\ g_target_mode (w_globals w) = 2
  /\ g_last_tap_time (w_globals w) = 0
  /\ g_syncing_modes (w_globals w) = false
  /\ g_current_mode (w_globals w) <> 1
  /\ executions (w_trace w) = [].

(** Mode 1 has been tapped at 50 ms and waits for its debounce. *)
Definition second_tap_pending (c : Z) (w : world) : Prop :=
  w_clock w = c
  /\ w_pending w = []
  /\ g_target_mode (w_globals w) = 1
  /\ g_last_tap_time (w_globals w) = 50000
  /\ g_syncing_modes (w_globals w) = false
  /\ g_current_mode (w_globals w) <> 1
  /\ executions (w_trace w) = [].

(** Mode 1 has been executed, at [t], and nothing is pending. *)
Definition settled_in_mode_1 (t : Z) (w : world) : Prop :=
  w_pending w = []
  /\ g_target_mode (w_globals w) = -1
  /\ g_current_mode (w_globals w) = 1
  /\ executions (w_trace w) = [(t, 1)].

(** Where the scenario stands after [k] turns of a loop whose first turn
    starts at [c0], less than one period after the first tap. *)
Definition debounce_phase (ids : plugin_ids) (c0 k : Z) (w : world) : Prop :=
  if k <? 5 then first_tap_pending ids (c0 + 10000 * k) w
  else if k <? 26 then second_tap_pending (c0 + 10000 * k) w
  else settled_in_mode_1 (c0 + 250000) w.

(** ** The one-shot cleanup *)

(** A target equal to the current mode is pending (nothing will execute or
    clear it), no callback is to come, and both five-second conditions are
    met. *)
Definition stuck_target (w : world) : Prop :=
  w_pending w = []
  /\ g_target_mode (w_globals w) = g_current_mode (w_globals w)
  /\ 0 <= g_current_mode (w_globals w) <= 3
  /\ cleanup_done (w_globals w) = false
  /\ 5000000 <= w_clock w - g_last_execution_time (w_globals w)
  /\ 5000000 <= w_clock w - g_last_tap_time (w_globals w).

(** After an execution at [T]: no target pending, no callback to come, the
    one-shot flag clear, and the re-assertions on record are [R]. *)
Definition cleanup_armed (T : Z) (R : list Z) (w : world) : Prop :=
  w_pending w = []
  /\ g_target_mode (w_globals w) = -1
  /\ 0 <= g_current_mode (w_globals w) <= 3
  /\ g_last_execution_time (w_globals w) = T
  /\ cleanup_done (w_globals w) = false
  /\ reassertions (w_trace w) = R.

(** The same, with the one re-assertion made, at [t], and the flag set. *)
Definition cleanup_fired (T : Z) (R : list Z) (w : world) : Prop :=
  w_pending w = []
  /\ g_target_mode (w_globals w) = -1
  /\ cleanup_done (w_globals w) = true
  /\ exists t, T + 5000000 <= t /\ reassertions (w_trace w) = R ++ [t].

(** The two mode variables hold a mode, or "none" for the target. *)
Definition modes_in_range (w : world) : Prop :=
  -1 <= g_target_mode (w_globals w) <= 3
  /\ 0 <= g_current_mode (w_globals w) <= 3.

(** ** Views and predicates for the further properties *)

(** The writes to the LED pin made by [n] blinks that start at [t], with
    the pin low for [on_us] and high for [off_us] between blinks. *)
Fixpoint blink_events (n : nat) (t on_us off_us : Z) : list (Z * event) :=
  match n with
  | O => []
  | S n' =>
      (t, EvGpio LED_GPIO 0) :: (t + on_us, EvGpio LED_GPIO 1)
      :: blink_events n' (t + on_us + off_us) on_us off_us
  end.

(** The successive calls of the dispatch code for the frames [frames], each
    a command with its payload. *)
Fixpoint dispatch_all (frames : list (Z * list Z)) : M unit :=
  match frames with
  | [] => ret tt
  | (c, p) :: rest =>
      dispatch_frame c (payload_arg p) (Z.of_nat (length p));;
      dispatch_all rest
  end.

(** The frames of [frames] one after the other on the wire. *)
Definition wire (frames : list (Z * list Z)) : list Z :=
  concat (map (fun cp => frame_of (fst cp) (snd cp)) frames).

(** The three frames the receiver answers with. *)
Definition rx_answers : list (list Z) :=
  [frame_of RSP_ACK []; frame_of RSP_ERR []; frame_of RSP_BUSY []].

(** What the receiver and its handlers leave alone between [w] and [w']:
    every variable but [g_current_mode], which either keeps its value or
    holds a mode; the reports to the data model; the signal pin and its
    timer.  What they write to the UART is a sequence of answers. *)
Definition rx_frame (w w' : world) : Prop :=
  let g := w_globals w in
  let g' := w_globals w' in
  g_switch_endpoint_id g' = g_switch_endpoint_id g
  /\ g_mode_plugin_ids g' = g_mode_plugin_ids g
  /\ g_pulse_active g' = g_pulse_active g
  /\ g_target_mode g' = g_target_mode g
  /\ g_last_tap_time g' = g_last_tap_time g
  /\ g_last_execution_time g' = g_last_execution_time g
  /\ g_syncing_modes g' = g_syncing_modes g
  /\ cleanup_done g' = cleanup_done g
  /\ (g_current_mode g' = g_current_mode g \/ 0 <= g_current_mode g' <= 3)
  /\ reports (w_trace w') = reports (w_trace w)
  /\ pulse_actions (w_trace w') = pulse_actions (w_trace w)
  /\ exists sent,
       uart_tx (w_trace w') = uart_tx (w_trace w) ++ sent
       /\ Forall (fun f => In f rx_answers) sent.

(** The arbiter at rest after an execution at [T]: no callback to come, no
    target pending, the last tap not after the execution, and the given
    current mode, one-shot flag and records of re-assertions and
    executions. *)
Definition at_rest (cur T : Z) (done : bool) (R : list Z)
    (E : list (Z * Z)) (w : world) : Prop :=
  w_pending w = []
  /\ g_target_mode (w_globals w) = -1
  /\ g_current_mode (w_globals w) = cur
  /\ g_last_execution_time (w_globals w) = T
  /\ g_last_tap_time (w_globals w) <= T
  /\ cleanup_done (w_globals w) = done
  /\ reassertions (w_trace w) = R
  /\ executions (w_trace w) = E.



(** ** Initialisation of the modes at boot *)

(** The block of [app_main] that forces mode 0 at startup, from the
    statement after its opening banner line to the one before its closing
    banner line (the block has no name in the source; the two [ESP_LOGI]
    banners are outside the definition).  First its loop over the four
    mode plugs, [todo] holding the values of [i] still to visit. *)
Fixpoint mode_init_reports (todo : list Z) : M unit :=
  match todo with
  | [] => ret tt
  | i :: rest =>
      g <- get_globals;;
      id <- lift (plugin_id (g_mode_plugin_ids g) i);;
      emit (EvReport id false);;
      mode_init_reports rest
  end.

Definition mode_init : M unit :=
  modify (set_syncing_modes true);;
  mode_init_reports [0; 1; 2; 3];;
  vTaskDelay 100;;
  g <- get_globals;;
  id <- lift (plugin_id (g_mode_plugin_ids g) 0);;
  emit (EvReport id true);;
  modify (set_syncing_modes false);;
  modify (set_current_mode 0).


(** The frame the receiver has in hand when the CRC has matched, as the
    source takes it from its locals: the command byte [cmd] and the
    [frame_len - 1] payload bytes from [frame_buf[3]] on.  The locals keep
    these values after the dispatch, until the bytes of the next frame
    overwrite them. *)
Definition decoded (rx : rx_locals) : Z * list Z :=
  let payload_len := u8 (frame_len rx - 1) in
  (cmd rx, take (Z.to_nat payload_len) (drop 3 (frame_buf rx))).

(** The receiver with the code of its "valid frame" branch left open:
    [on_frame] stands for the statements of [uart_rx_task] that run on
    [cmd], [payload] and [payload_len] once the CRC has matched.  With
    [dispatch_frame] for [on_frame], [uart_rx_byte_with] and
    [uart_rx_bytes_with] are [uart_rx_byte] and [uart_rx_bytes]
    themselves; a statement made for every [on_frame] tells what exactly
    that branch is given. *)
Section Receiver_with.

Variable on_frame : Z -> option (list Z) -> Z -> M unit.

Definition uart_rx_byte_with (rx : rx_locals) (b : Z) : M rx_locals :=
  if state rx =? 0 then
    if b =? FRAME_START then
      buf <- lift (store (frame_buf rx) (buf_idx rx) b);;
      ret (mkRx buf (u8 (buf_idx rx + 1)) 1 (frame_len rx)
             (bytes_to_read rx) (cmd rx))
    else ret rx
  else if state rx =? 1 then
    buf <- lift (store (frame_buf rx) (buf_idx rx) b);;
    let idx := u8 (buf_idx rx + 1) in
    let frame_len := b in
    if (frame_len =? 0) || (frame_len >? 60) then
      log (LogInvalidLength frame_len);;
      ret (mkRx buf 0 0 frame_len (bytes_to_read rx) (cmd rx))
    else
      ret (mkRx buf idx 2 frame_len frame_len (cmd rx))
  else if state rx =? 2 then
    buf <- lift (store (frame_buf rx) (buf_idx rx) b);;
    let idx := u8 (buf_idx rx + 1) in
    let cmd := if idx =? 3 then b else cmd rx in
    let bytes_to_read := u8 (bytes_to_read rx - 1) in
    ret (mkRx buf idx (if bytes_to_read =? 0 then 3 else 2) (frame_len rx)
           bytes_to_read cmd)
  else if state rx =? 3 then
    buf <- lift (store (frame_buf rx) (buf_idx rx) b);;
    let idx := u8 (buf_idx rx + 1) in
    let received_crc := b in
    let calc_crc := crc8 (drop 1 buf) (idx - 2) in
    (if calc_crc =? received_crc then
       let payload_len := u8 (frame_len rx - 1) in
       on_frame (cmd rx) (payload_ptr buf payload_len) payload_len
     else
       log (LogCrcError calc_crc received_crc);;
       led_error);;
    ret (mkRx buf 0 0 (frame_len rx) (bytes_to_read rx) (cmd rx))
  else ret rx.

Fixpoint uart_rx_bytes_with (rx : rx_locals) (data : list Z) : M rx_locals :=
  match data with
  | [] => ret rx
  | b :: data' =>
      rx' <- uart_rx_byte_with rx b;; uart_rx_bytes_with rx' data'
  end.

(** [on_frame] called for the frames [frames] one after the other, each a
    command with its payload. *)
Fixpoint on_frames (frames : list (Z * list Z)) : M unit :=
  match frames with
  | [] => ret tt
  | (c, p) :: rest =>
      on_frame c (payload_arg p) (Z.of_nat (length p));;
      on_frames rest
  end.

End Receiver_with.

(** ** The two tasks side by side *)

(** [uart_rx_task] and [mode_sync_task] are created with the same priority
    and share [g_current_mode].  To let one of them run while the other
    sleeps, the code of a task is kept as a tree that shows its sleeps: a
    result, a piece of code that runs without sleeping followed by the
    rest, or a sleep followed by the rest.  The functions that sleep, or
    that call one that does, are embedded a second time in this form, under
    their own names in the module [Tasks]; the others are used as they
    are. *)
Module Tasks.

Inductive task (A : Type) : Type :=
| Ret (a : A)
| Act {B : Type} (m : M B) (k : B -> task A)
| Sleep (ms : Z) (k : task A).

Arguments Ret {A} a.
Arguments Act {A B} m k.
Arguments Sleep {A} ms k.

Fixpoint tbind {A B} (t : task A) (k : A -> task B) : task B :=
  match t with
  | Ret a => k a
  | Act m k' => Act m (fun b => tbind (k' b) k)
  | Sleep ms k' => Sleep ms (tbind k' k)
  end.

Declare Scope task_scope.
Delimit Scope task_scope with T.
Notation "x <- m ;; k" := (tbind m (fun x => k))
  (at level 100, m at next level, right associativity) : task_scope.
Notation "m ;; k" := (tbind m (fun _ => k))
  (at level 100, right associativity) : task_scope.
Local Open Scope task_scope.

(** A piece of code that does not sleep. *)
Definition act {A} (m : M A) : task A := Act m Ret.

(** [vTaskDelay(pdMS_TO_TICKS(ms))]. *)
Definition vTaskDelay (ms : Z) : task unit := Sleep ms (Ret tt).

Definition when (b : bool) (t : task unit) : task unit :=
  if b then t else Ret tt.

(** *** LED patterns *)

Fixpoint led_blink_loop (n : nat) (i count on_ms off_ms : Z) : task unit :=
  match n with
  | O => Ret tt
  | S n' =>
      act led_on;;
      vTaskDelay on_ms;;
      act led_off;;
      when (i <? count - 1) (vTaskDelay off_ms);;
      led_blink_loop n' (i + 1) count on_ms off_ms
  end.

Definition led_blink (count on_ms off_ms : Z) : task unit :=
  led_blink_loop (Z.to_nat count) 0 count on_ms off_ms.

Definition led_ack : task unit := led_blink 2 100 100.
Definition led_command_sent : task unit := led_blink 1 500 0.
Definition led_error : task unit := led_blink 5 50 50.
Definition led_hello : task unit := led_blink 3 300 300.

(** *** Command handlers *)

Definition handle_cmd_hello (payload : option (list Z)) (len : Z)
  : task unit :=
  act (log LogCmdHello);;
  _ <- act (uart_send_response RSP_ACK None 0);;
  led_hello.

Definition handle_cmd_ping (payload : option (list Z)) (len : Z)
  : task unit :=
  act (log LogCmdPing);;
  _ <- act (uart_send_response RSP_ACK None 0);;
  led_ack.

Definition handle_cmd_trigger (payload : option (list Z)) (len : Z)
  : task unit :=
  act (log LogCmdTrigger);;
  g <- act get_globals;;
  if g_pulse_active g then
    act (log LogSkitBusy);;
    _ <- act (uart_send_response RSP_BUSY None 0);;
    Ret tt
  else
    _ <- act (uart_send_response RSP_ACK None 0);;
    led_command_sent;;
    act (log LogTriggerAck).

Definition handle_cmd_set_mode (payload : option (list Z)) (len : Z)
  : task unit :=
  if len <? 1 then
    act (log LogSetModeMissing);;
    _ <- act (uart_send_response RSP_ERR None 0);;
    led_error
  else
    mode <- act (lift (deref payload 0));;
    if mode >? 3 then
      act (log (LogSetModeInvalid mode));;
      _ <- act (uart_send_response RSP_ERR None 0);;
      led_error
    else
      act (modify (set_current_mode mode));;
      act (log (LogSetMode mode));;
      _ <- act (uart_send_response RSP_ACK None 0);;
      led_blink (mode + 1) 200 200.

(** *** Receiver *)

Definition dispatch_frame (cmd : Z) (payload : option (list Z))
    (payload_len : Z) : task unit :=
  if cmd >=? 0x80 then act (log (LogResponse cmd))
  else if cmd =? CMD_HELLO then handle_cmd_hello payload payload_len
  else if cmd =? CMD_PING then handle_cmd_ping payload payload_len
  else if cmd =? CMD_TRIGGER then handle_cmd_trigger payload payload_len
  else if cmd =? CMD_SET_MODE then handle_cmd_set_mode payload payload_len
  else
    act (log (LogUnknownCommand cmd));;
    _ <- act (uart_send_response RSP_ERR None 0);;
    led_error.

(** The body of the [for] loop of [uart_rx_task] for one received byte. *)
Definition uart_rx_byte (rx : rx_locals) (b : Z) : task rx_locals :=
  if state rx =? 0 then
    if b =? FRAME_START then
      buf <- act (lift (store (frame_buf rx) (buf_idx rx) b));;
      Ret (mkRx buf (u8 (buf_idx rx + 1)) 1 (frame_len rx)
             (bytes_to_read rx) (cmd rx))
    else Ret rx
  else if state rx =? 1 then
    buf <- act (lift (store (frame_buf rx) (buf_idx rx) b));;
    let idx := u8 (buf_idx rx + 1) in
    let frame_len := b in
    if (frame_len =? 0) || (frame_len >? 60) then
      act (log (LogInvalidLength frame_len));;
      Ret (mkRx buf 0 0 frame_len (bytes_to_read rx) (cmd rx))
    else
      Ret (mkRx buf idx 2 frame_len frame_len (cmd rx))
  else if state rx =? 2 then
    buf <- act (lift (store (frame_buf rx) (buf_idx rx) b));;
    let idx := u8 (buf_idx rx + 1) in
    let cmd := if idx =? 3 then b else cmd rx in
    let bytes_to_read := u8 (bytes_to_read rx - 1) in
    Ret (mkRx buf idx (if bytes_to_read =? 0 then 3 else 2) (frame_len rx)
           bytes_to_read cmd)
  else if state rx =? 3 then
    buf <- act (lift (store (frame_buf rx) (buf_idx rx) b));;
    let idx := u8 (buf_idx rx + 1) in
    let received_crc := b in
    let calc_crc := crc8 (drop 1 buf) (idx - 2) in
    (if calc_crc =? received_crc then
       let payload_len := u8 (frame_len rx - 1) in
       dispatch_frame (cmd rx) (payload_ptr buf payload_len) payload_len
     else
       act (log (LogCrcError calc_crc received_crc));;
       led_error);;
    Ret (mkRx buf 0 0 (frame_len rx) (bytes_to_read rx) (cmd rx))
  else Ret rx.

Fixpoint uart_rx_bytes (rx : rx_locals) (data : list Z) : task rx_locals :=
  match data with
  | [] => Ret rx
  | b :: data' => rx' <- uart_rx_byte rx b;; uart_rx_bytes rx' data'
  end.

(** One call of [uart_read_bytes(..., pdMS_TO_TICKS(100))]: the task is
    blocked for [fst r] milliseconds (100 when the call times out) and then
    has the bytes [snd r], none after a timeout. *)
Definition uart_read_bytes (r : Z * list Z) : task (list Z) :=
  Sleep (fst r) (Ret (snd r)).

(** The [while (1)] loop of [uart_rx_task] over the successive calls of
    [uart_read_bytes]. *)
Fixpoint uart_rx_loop (rx : rx_locals) (reads : list (Z * list Z))
  : task rx_locals :=
  match reads with
  | [] => Ret rx
  | r :: reads' =>
      data <- uart_read_bytes r;;
      rx' <- uart_rx_bytes rx data;;
      uart_rx_loop rx' reads'
  end.

Definition uart_rx_task (reads : list (Z * list Z)) : task rx_locals :=
  act (log LogUartRxStarted);;
  uart_rx_loop rx_init reads.

(** *** Mode arbiter *)

Fixpoint report_others_off (off_msg : Z -> log_msg) (todo : list Z)
  : task unit :=
  match todo with
  | [] => Ret tt
  | i :: rest =>
      g <- act get_globals;;
      when (negb (i =? g_current_mode g))
        (id <- act (lift (plugin_id (g_mode_plugin_ids g) i));;
         act (emit (EvReport id false));;
         act (log (off_msg i));;
         vTaskDelay 10);;
      report_others_off off_msg rest
  end.

Definition primary_execution (now : Z) : task unit :=
  g <- act get_globals;;
  name <- act (lift (mode_names (g_target_mode g)));;
  act (log (LogDebounceComplete (g_target_mode g) name));;
  act (modify (set_current_mode (u8 (g_target_mode g))));;
  act (modify (set_target_mode (-1)));;
  g <- act get_globals;;
  _ <- act (uart_send_frame CMD_SET_MODE (Some [u8 (g_current_mode g)]) 1);;
  act (modify (set_syncing_modes true));;
  act (log (LogSettingMode (g_current_mode g)));;
  report_others_off LogModeOff [0; 1; 2; 3];;
  vTaskDelay 50;;
  g <- act get_globals;;
  id <- act (lift (plugin_id (g_mode_plugin_ids g) (g_current_mode g)));;
  act (emit (EvReport id true));;
  act (log (LogModeOn (g_current_mode g)));;
  act (modify (set_syncing_modes false));;
  act (modify (set_last_execution_time now));;
  g <- act get_globals;;
  name <- act (lift (mode_names (g_current_mode g)));;
  act (log (LogModeChangeComplete name)).

Definition safety_cleanup : task unit :=
  g <- act get_globals;;
  name <- act (lift (mode_names (g_current_mode g)));;
  act (log (LogSafetyCleanup (g_current_mode g) name));;
  act (modify (set_syncing_modes true));;
  act (log (LogCleanupSetting (g_current_mode g)));;
  report_others_off LogCleanupOff [0; 1; 2; 3];;
  vTaskDelay 50;;
  g <- act get_globals;;
  id <- act (lift (plugin_id (g_mode_plugin_ids g) (g_current_mode g)));;
  act (emit (EvReport id true));;
  act (log (LogCleanupOn (g_current_mode g)));;
  act (modify (set_syncing_modes false));;
  act (modify (set_cleanup_done true));;
  act (log LogCleanupComplete).

Definition mode_sync_iteration : task unit :=
  now <- act esp_timer_get_time;;
  g <- act get_globals;;
  let time_since_tap_ms := Z.quot (now - g_last_tap_time g) 1000 in
  let time_since_exec_ms := Z.quot (now - g_last_execution_time g) 1000 in
  when ((g_target_mode g >=? 0)
        && negb (g_target_mode g =? g_current_mode g)
        && (time_since_tap_ms >=? 200))
    (primary_execution now);;
  g <- act get_globals;;
  when ((time_since_exec_ms >=? 5000) && (time_since_tap_ms >=? 5000)
        && negb (cleanup_done g))
    safety_cleanup;;
  g <- act get_globals;;
  when ((g_target_mode g >=? 0) && cleanup_done g)
    (act (modify (set_cleanup_done false));;
     act (log LogCleanupFlagReset));;
  vTaskDelay 10.

Fixpoint mode_sync_task (n : nat) : task unit :=
  match n with
  | O => Ret tt
  | S n' => mode_sync_iteration;; mode_sync_task n'
  end.

(** *** Running tasks *)

(** The task sleeps until the time [until]: the callbacks that fall due by
    then run, as in a [vTaskDelay] of the first embedding. *)
Definition sleep_until (until : Z) : M unit :=
  fun w => bind (deliver until (w_pending w)) (fun _ => set_clock until) w.

(** A task on its own: every sleep is a [vTaskDelay] of the first
    embedding. *)
Fixpoint run {A} (t : task A) : M A :=
  match t with
  | Ret a => ret a
  | Act m k => bind m (fun b => run (k b))
  | Sleep ms k =>
      fun w => bind (sleep_until (w_clock w + ms * 1000))
                 (fun _ => run k) w
  end.

(** A task runs up to its next sleep, or to its end, without interruption:
    the outcome is its result, or the length of the sleep and the rest of
    the task. *)
Fixpoint advance {A} (t : task A) : M (A + Z * task A) :=
  match t with
  | Ret a => ret (inl a)
  | Act m k => bind m (fun b => advance (k b))
  | Sleep ms k => ret (inr (ms, k))
  end.

(** A task between two runs: asleep until a given time, or at its end. *)
Inductive slot : Type :=
| Asleep (until : Z) (k : task unit)
| Finished.

(** The task wakes at [until] and runs up to its next sleep. *)
Definition resume (until : Z) (k : task unit) : M slot :=
  (sleep_until until;;
   r <- advance k;;
   now <- esp_timer_get_time;;
   ret (match r with
        | inl _ => Finished
        | inr (ms, k') => Asleep (now + ms * 1000) k'
        end))%M.

(** Two tasks of the same priority, each running when it wakes up to its
    next sleep; of two tasks due at the same time the first one runs
    first.  [fuel] bounds the number of wake-ups; running out of it is a
    failure. *)
Fixpoint schedule (fuel : nat) (a b : slot) : M unit :=
  match fuel with
  | O => match a, b with Finished, Finished => ret tt | _, _ => fail end
  | S fuel' =>
      match a, b with
      | Finished, Finished => ret tt
      | Asleep ta ka, Finished =>
          (a' <- resume ta ka;; schedule fuel' a' Finished)%M
      | Finished, Asleep tb kb =>
          (b' <- resume tb kb;; schedule fuel' Finished b')%M
      | Asleep ta ka, Asleep tb kb =>
          if ta <=? tb
          then (a' <- resume ta ka;; schedule fuel' a' b)%M
          else (b' <- resume tb kb;; schedule fuel' a b')%M
      end
  end.

(** The receiver task and the arbiter task, both started now: the receiver
    with the reads it is going to make, the arbiter for [n] turns of its
    loop. *)
Definition rx_and_sync (fuel : nat) (reads : list (Z * list Z)) (n : nat)
  : M unit :=
  fun w =>
    schedule fuel
      (Asleep (w_clock w) (_ <- uart_rx_task reads;; Ret tt))
      (Asleep (w_clock w) (mode_sync_task n)) w.

End Tasks.

(** * Proofs *)

Arguments crc8 : simpl never.

Lemma u8_small x : 0 <= x < 256 -> u8 x = x.
Proof. intros H. unfold u8. apply Z.mod_small. lia. Qed.

Lemma u8_range x : 0 <= u8 x < 256.
Proof. unfold u8. apply Z.mod_pos_bound. lia. Qed.

Lemma crc8_shift_range c : 0 <= crc8_shift c < 256.
Proof. unfold crc8_shift. destruct (negb _); apply u8_range. Qed.

Lemma crc8_byte_range c b : 0 <= crc8_byte c b < 256.
Proof. unfold crc8_byte. simpl. apply crc8_shift_range. Qed.

Lemma crc8_range data len : 0 <= crc8 data len < 256.
Proof.
  unfold crc8. generalize (take (Z.to_nat len) data). intros l.
  cut (forall c, 0 <= c < 256 -> 0 <= fold_left crc8_byte l c < 256).
  { intros H. apply H. lia. }
  induction l as [|b l IH]; intros c Hc; simpl; [exact Hc|].
  apply IH, crc8_byte_range.
Qed.

Lemma store_Some a i v :
  0 <= i < Z.of_nat (length a) -> store a i v = Some (<[Z.to_nat i := v]> a).
Proof.
  intros H. unfold store.
  replace (0 <=? i) with true by (symmetry; apply Z.leb_le; lia).
  replace (i <? _) with true by (symmetry; apply Z.ltb_lt; lia). reflexivity.
Qed.


Lemma store_app_mid (pre post : list Z) (x v i : Z) :
  i = Z.of_nat (length pre) ->
  store (pre ++ x :: post) i v = Some (pre ++ v :: post).
Proof.
  intros ->. rewrite store_Some.
  - rewrite Nat2Z.id. f_equal.
    rewrite insert_app_r_alt by lia. rewrite Nat.sub_diag. reflexivity.
  - rewrite length_app. simpl. lia.
Qed.

Lemma crc8_prefix (l rest : list Z) (len : Z) :
  len = Z.of_nat (length l) -> crc8 (l ++ rest) len = crc8 l len.
Proof.
  intros ->. unfold crc8. rewrite Nat2Z.id.
  rewrite take_app_length. rewrite firstn_all. reflexivity.
Qed.

Lemma uart_frame_bytes_some cmd p :
  (length p <= 60)%nat ->
  uart_frame_bytes cmd (Some p) (Z.of_nat (length p)) = Some (frame_of cmd p).
Proof.
  intros Hlen. unfold uart_frame_bytes, frame_of.
  set (n := Z.of_nat (length p)).
  assert (Hn : 0 <= n <= 60) by lia.
  rewrite (u8_small (0 + 1)), (u8_small (0 + 1 + 1)),
    (u8_small (0 + 1 + 1 + 1)), (u8_small (1 + n)) by lia.
  change (store (replicate 64 0) 0 FRAME_START)
    with (Some (FRAME_START :: replicate 63 0)).
  cbn [mbind option_bind].
  change (store (FRAME_START :: replicate 63 0) (0 + 1) (1 + n))
    with (Some (FRAME_START :: 1 + n :: replicate 62 0)).
  cbn [mbind option_bind].
  change (store (FRAME_START :: 1 + n :: replicate 62 0) (0 + 1 + 1) cmd)
    with (Some ([FRAME_START; 1 + n; cmd] ++ replicate 61 0)).
  cbn [mbind option_bind].
  assert (Hrep : replicate 61 0 = replicate (length p) 0
                   ++ 0 :: replicate (60 - length p) 0).
  { replace 61%nat with (length p + S (60 - length p))%nat by lia.
    rewrite replicate_add. reflexivity. }
  destruct (n >? 0) eqn:Hpos.
  - unfold memcpy.
    replace (0 <=? 0 + 1 + 1 + 1) with true by reflexivity.
    replace (0 <=? n) with true by (symmetry; apply Z.leb_le; lia).
    replace (0 + 1 + 1 + 1 + n <=? _) with true
      by (symmetry; apply Z.leb_le; rewrite length_app, length_replicate;
          simpl; lia).
    replace (n <=? Z.of_nat (length p)) with true
      by (symmetry; apply Z.leb_le; lia).
    cbn [andb mbind option_bind].
    rewrite (u8_small (0 + 1 + 1 + 1 + n)) by lia.
    replace (Z.to_nat (0 + 1 + 1 + 1)) with 3%nat by reflexivity.
    replace (Z.to_nat (0 + 1 + 1 + 1 + n)) with (3 + length p)%nat by lia.
    replace (Z.to_nat n) with (length p) by lia.
    rewrite (take_app_length [FRAME_START; 1 + n; cmd]).
    rewrite firstn_all.
    rewrite (drop_app_add' [FRAME_START; 1 + n; cmd]) by reflexivity.
    rewrite Hrep, drop_app_length' by (rewrite length_replicate; lia).
    replace ([FRAME_START; 1 + n; cmd] ++ p ++ 0 :: replicate (60 - length p) 0)
      with (([FRAME_START; 1 + n; cmd] ++ p) ++ 0 :: replicate (60 - length p) 0)
      by (rewrite <- app_assoc; reflexivity).
    rewrite store_app_mid by (rewrite length_app; simpl; lia).
    cbn [mbind option_bind].
    rewrite (u8_small (0 + 1 + 1 + 1 + n + 1)) by lia.
    replace (Z.to_nat (0 + 1 + 1 + 1 + n + 1)) with (S (3 + length p)) by lia.
    f_equal.
    replace ((([FRAME_START; 1 + n; cmd] ++ p) ++ _ :: replicate (60 - length p) 0))
      with ((([FRAME_START; 1 + n; cmd] ++ p) ++ [crc8
         (drop 1 (([FRAME_START; 1 + n; cmd] ++ p) ++ 0 :: replicate (60 - length p) 0))
         (0 + 1 + 1 + 1 + n - 1)]) ++ replicate (60 - length p) 0)
      by (rewrite <- !app_assoc; reflexivity).
    rewrite take_app_length' by (rewrite !length_app; simpl; lia).
    cbn [app drop]. do 4 f_equal.
    change (1 + n :: cmd :: p ++ 0 :: replicate (60 - length p) 0)
      with ((1 + n :: cmd :: p) ++ 0 :: replicate (60 - length p) 0).
    rewrite crc8_prefix by (simpl; lia).
    do 2 f_equal. lia.
  - assert (n = 0) by (rewrite Z.gtb_ltb in Hpos; apply Z.ltb_ge in Hpos; lia).
    destruct p; [|simpl in *; lia].
    reflexivity.
Qed.

Lemma uart_frame_bytes_null cmd :
  uart_frame_bytes cmd None 0 = Some (frame_of cmd []).
Proof. reflexivity. Qed.

(** ** The receiver walking through a frame *)

Lemma bind_ret_l {A B} (a : A) (k : A -> M B) w : bind (ret a) k w = k a w.
Proof. reflexivity. Qed.

(** One byte in each state of the receiver, with the store in range. *)
Lemma rx_byte_start buf fl btr c0 pre x post w :
  buf = pre ++ x :: post -> pre = [] ->
  uart_rx_byte (mkRx buf 0 0 fl btr c0) FRAME_START w
  = Some (mkRx (FRAME_START :: post) 1 1 fl btr c0, w).
Proof. intros -> ->. reflexivity. Qed.

Lemma rx_byte_skip rx b w :
  state rx = 0 -> b <> FRAME_START -> uart_rx_byte rx b w = Some (rx, w).
Proof.
  intros Hs Hb. unfold uart_rx_byte. rewrite Hs. cbn [Z.eqb].
  apply Z.eqb_neq in Hb. rewrite Hb. reflexivity.
Qed.

Lemma rx_byte_length pre x post idx fl btr c0 b w :
  idx = Z.of_nat (length pre) -> 0 <= idx < 255 ->
  1 <= b <= 60 ->
  uart_rx_byte (mkRx (pre ++ x :: post) idx 1 fl btr c0) b w
  = Some (mkRx (pre ++ b :: post) (idx + 1) 2 b b c0, w).
Proof.
  intros Hidx Hr Hb. unfold uart_rx_byte.
  cbn [state frame_buf buf_idx bytes_to_read frame_len cmd].
  change (1 =? 0) with false. change (1 =? 1) with true. cbv iota.
  rewrite store_app_mid by exact Hidx.
  unfold lift. rewrite bind_ret_l.
  replace (b =? 0) with false by (symmetry; apply Z.eqb_neq; lia).
  replace (b >? 60) with false by (symmetry; rewrite Z.gtb_ltb; apply Z.ltb_ge; lia).
  cbn [orb]. rewrite u8_small by lia. reflexivity.
Qed.

Lemma rx_byte_length_bad pre x post idx fl btr c0 b w :
  idx = Z.of_nat (length pre) ->
  b = 0 \/ 60 < b ->
  uart_rx_byte (mkRx (pre ++ x :: post) idx 1 fl btr c0) b w
  = (log (LogInvalidLength b);;
     ret (mkRx (pre ++ b :: post) 0 0 b btr c0)) w.
Proof.
  intros Hidx Hb. unfold uart_rx_byte.
  cbn [state frame_buf buf_idx bytes_to_read frame_len cmd].
  change (1 =? 0) with false. change (1 =? 1) with true. cbv iota.
  rewrite store_app_mid by exact Hidx.
  unfold lift. rewrite bind_ret_l.
  replace ((b =? 0) || (b >? 60)) with true; [reflexivity|].
  symmetry. apply orb_true_iff. rewrite Z.eqb_eq, Z.gtb_ltb, Z.ltb_lt. lia.
Qed.

Lemma rx_byte_body pre x post idx fl btr c0 b w :
  idx = Z.of_nat (length pre) -> 0 <= idx < 255 -> 1 <= btr <= 256 ->
  uart_rx_byte (mkRx (pre ++ x :: post) idx 2 fl btr c0) b w
  = Some (mkRx (pre ++ b :: post) (idx + 1)
            (if btr =? 1 then 3 else 2) fl (btr - 1)
            (if idx =? 2 then b else c0), w).
Proof.
  intros Hidx Hr Hbtr. unfold uart_rx_byte.
  cbn [state frame_buf buf_idx bytes_to_read frame_len cmd].
  change (2 =? 0) with false. change (2 =? 1) with false.
  change (2 =? 2) with true. cbv iota.
  rewrite store_app_mid by exact Hidx.
  unfold lift. rewrite bind_ret_l.
  rewrite (u8_small (idx + 1)), (u8_small (btr - 1)) by lia.
  unfold ret. do 2 f_equal.
  f_equal.
  - destruct (Z.eqb_spec (btr - 1) 0), (Z.eqb_spec btr 1); auto; lia.
  - destruct (Z.eqb_spec (idx + 1) 3), (Z.eqb_spec idx 2); auto; lia.
Qed.

Lemma rx_byte_crc pre x post idx fl btr c0 b w :
  idx = Z.of_nat (length pre) -> 0 <= idx < 255 ->
  uart_rx_byte (mkRx (pre ++ x :: post) idx 3 fl btr c0) b w
  = ((if crc8 (drop 1 (pre ++ b :: post)) (idx + 1 - 2) =? b
      then dispatch_frame c0 (payload_ptr (pre ++ b :: post) (u8 (fl - 1)))
             (u8 (fl - 1))
      else log (LogCrcError (crc8 (drop 1 (pre ++ b :: post)) (idx + 1 - 2)) b);;
           led_error);;
     ret (mkRx (pre ++ b :: post) 0 0 fl btr c0)) w.
Proof.
  intros Hidx Hr. unfold uart_rx_byte.
  cbn [state frame_buf buf_idx bytes_to_read frame_len cmd].
  change (3 =? 0) with false. change (3 =? 1) with false.
  change (3 =? 2) with false. change (3 =? 3) with true. cbv iota.
  rewrite store_app_mid by exact Hidx.
  unfold lift. rewrite bind_ret_l.
  rewrite (u8_small (idx + 1)) by lia. reflexivity.
Qed.

Lemma uart_rx_bytes_app rx l1 l2 w :
  uart_rx_bytes rx (l1 ++ l2) w
  = bind (uart_rx_bytes rx l1) (fun rx' => uart_rx_bytes rx' l2) w.
Proof.
  revert rx w. induction l1 as [|b l1 IH]; intros rx w; [reflexivity|].
  cbn [app uart_rx_bytes]. unfold bind in *.
  destruct (uart_rx_byte rx b w) as [[rx1 w1]|]; [|reflexivity].
  apply IH.
Qed.

(** How the driver cuts the stream into reads makes no difference. *)
Lemma uart_rx_loop_concat reads : forall rx w,
  uart_rx_loop rx reads w = uart_rx_bytes rx (concat reads) w.
Proof.
  induction reads as [|data reads IH]; intros rx w; [reflexivity|].
  cbn [uart_rx_loop concat]. rewrite uart_rx_bytes_app.
  unfold bind. destruct (uart_rx_bytes rx data w) as [[rx1 w1]|];
    [apply IH | reflexivity].
Qed.

(** The body bytes: the buffer fills, the countdown runs, and the first of
    them (written at index 2) is kept as the command. *)
Lemma rx_body_walk (body pre post : list Z) (fl r c0 : Z) (w : world) :
  body <> [] ->
  (2 <= length pre)%nat ->
  (length pre + length body <= 62)%nat ->
  (length body <= length post)%nat ->
  0 <= r -> r + Z.of_nat (length body) <= 60 ->
  uart_rx_bytes
    (mkRx (pre ++ post) (Z.of_nat (length pre)) 2 fl
       (r + Z.of_nat (length body)) c0) body w
  = Some (mkRx (pre ++ body ++ drop (length body) post)
            (Z.of_nat (length pre) + Z.of_nat (length body))
            (if r =? 0 then 3 else 2) fl r
            (if Z.of_nat (length pre) =? 2 then hd 0 body else c0), w).
Proof.
  revert pre post c0.
  induction body as [|b body IH]; intros pre post c0 Hne Hpre Hfit Hpost Hr Hr60;
    [congruence|].
  destruct post as [|x post]; [simpl in Hpost; lia|].
  cbn [uart_rx_bytes length] in *. unfold bind at 1.
  rewrite rx_byte_body by lia.
  destruct body as [|b' body].
  - cbn [uart_rx_bytes length hd drop app]. unfold ret. do 2 f_equal.
    f_equal; try lia.
    + destruct (Z.eqb_spec (r + Z.of_nat 1) 1), (Z.eqb_spec r 0); auto; lia.
  - replace (pre ++ b :: post) with ((pre ++ [b]) ++ post)
      by (rewrite <- app_assoc; reflexivity).
    replace (Z.of_nat (length pre) + 1) with (Z.of_nat (length (pre ++ [b])))
      by (rewrite length_app; simpl; lia).
    replace (if r + Z.of_nat (S (length (b' :: body))) =? 1 then 3 else 2)
      with 2 by (destruct (Z.eqb_spec (r + Z.of_nat (S (length (b' :: body)))) 1);
                 [cbn [length] in *; lia | reflexivity]).
    replace (r + Z.of_nat (S (length (b' :: body))) - 1)
      with (r + Z.of_nat (length (b' :: body))) by lia.
    rewrite IH; try (rewrite ?length_app; cbn [length] in *; lia); [|congruence].
    do 2 f_equal. f_equal.
    + rewrite <- !app_assoc. reflexivity.
    + rewrite length_app. cbn [length]. lia.
    + replace (Z.of_nat (length (pre ++ [b])) =? 2) with false
        by (symmetry; apply Z.eqb_neq; rewrite length_app; simpl; lia).
      reflexivity.
Qed.

(** A whole frame with a well-formed length, whatever its last byte: the
    receiver starts in the wait-for-start state with an empty index and
    ends there, after dispatching or reporting a CRC error. *)
Lemma rx_frame_walk (buf body : list Z) (fl btr c0 c : Z) (w : world) :
  length buf = 64%nat -> body <> [] -> (length body <= 60)%nat ->
  let len := Z.of_nat (length body) in
  let buf' := [FRAME_START; len] ++ body ++ c :: drop (3 + length body) buf in
  uart_rx_bytes (mkRx buf 0 0 fl btr c0) ([FRAME_START; len] ++ body ++ [c]) w
  = ((if crc8 (len :: body) (len + 1) =? c
      then dispatch_frame (hd 0 body) (payload_ptr buf' (len - 1)) (len - 1)
      else log (LogCrcError (crc8 (len :: body) (len + 1)) c);;
           led_error);;
     ret (mkRx buf' 0 0 len 0 (hd 0 body))) w.
Proof.
  intros Hbuf Hne Hlen len buf'.
  assert (Hlen1 : (1 <= length body)%nat)
    by (destruct body; [congruence | cbn [length]; lia]).
  destruct buf as [|x0 [|x1 buf2]]; try (simpl in Hbuf; lia).
  cbn [app uart_rx_bytes]. unfold bind at 1.
  rewrite (rx_byte_start _ _ _ _ [] x0 (x1 :: buf2)) by reflexivity.
  unfold bind at 1.
  rewrite (rx_byte_length [FRAME_START] x1 buf2) by (subst len; cbn [length]; lia).
  rewrite uart_rx_bytes_app. unfold bind at 1.
  match goal with |- context [uart_rx_bytes ?rx body w] =>
    change (uart_rx_bytes rx body w)
      with (uart_rx_bytes
              (mkRx ([FRAME_START; len] ++ buf2)
                 (Z.of_nat (length [FRAME_START; len])) 2 len
                 (0 + Z.of_nat (length body)) c0) body w)
  end.
  rewrite rx_body_walk; try (cbn [length] in *; lia); [|exact Hne].
  assert (Hd : exists y rest, drop (length body) buf2 = y :: rest
                 /\ rest = drop (3 + length body) (x0 :: x1 :: buf2)).
  { destruct (drop (length body) buf2) as [|y rest] eqn:E.
    - apply (f_equal length) in E. rewrite length_drop in E.
      cbn [length] in *. lia.
    - exists y, rest. split; [reflexivity|].
      change rest with (drop 1 (y :: rest)). rewrite <- E, drop_drop.
      replace (3 + length body)%nat with (S (S (length body + 1))) by lia.
      reflexivity. }
  destruct Hd as (y & rest & Hd & Hrest). rewrite Hd.
  cbn [uart_rx_bytes]. unfold bind at 1.
  replace ([FRAME_START; len] ++ body ++ y :: rest)
    with (([FRAME_START; len] ++ body) ++ y :: rest)
    by (rewrite <- app_assoc; reflexivity).
  rewrite rx_byte_crc by (rewrite ?length_app; cbn [length]; lia).
  change (0 =? 0) with true. cbv iota.
  change (Z.of_nat (length [FRAME_START; len]) =? 2) with true. cbv iota.
  rewrite (u8_small (len - 1)) by (subst len; lia).
  replace (drop 1 (([FRAME_START; len] ++ body) ++ c :: rest))
    with ((len :: body) ++ c :: rest) by (rewrite <- app_assoc; reflexivity).
  rewrite crc8_prefix by (cbn [length]; lia).
  replace (Z.of_nat (length [FRAME_START; len]) + Z.of_nat (length body) + 1 - 2)
    with (len + 1) by (cbn [length]; lia).
  subst buf'. rewrite <- Hrest.
  replace (([FRAME_START; len] ++ body) ++ c :: rest)
    with ([FRAME_START; len] ++ body ++ c :: rest)
    by (rewrite <- app_assoc; reflexivity).
  match goal with |- match ?X with _ => _ end = _ =>
    destruct X as [[a w1]|] end; reflexivity.
Qed.

(** ** Nothing in the handlers can fail *)

Lemma total_ret {A} (a : A) : total (ret a).
Proof. intros w. eexists _, _. reflexivity. Qed.

Lemma total_bind {A B} (m : M A) (k : A -> M B) :
  total m -> (forall a, total (k a)) -> total (bind m k).
Proof.
  intros Hm Hk w. destruct (Hm w) as (a & w1 & E).
  destruct (Hk a w1) as (b & w2 & E2).
  exists b, w2. unfold bind. rewrite E. exact E2.
Qed.

Lemma total_emit e : total (emit e).
Proof. intros w. eexists _, _. reflexivity. Qed.

Lemma total_log m : total (log m).
Proof. apply total_emit. Qed.

Lemma total_modify f : total (modify f).
Proof. intros w. eexists _, _. reflexivity. Qed.

Lemma total_get_globals : total get_globals.
Proof. intros w. eexists _, _. reflexivity. Qed.

Lemma total_esp_timer_get_time : total esp_timer_get_time.
Proof. intros w. eexists _, _. reflexivity. Qed.

Lemma total_when b m : total m -> total (when b m).
Proof. intros H. destruct b; [exact H | apply total_ret]. Qed.

Lemma total_lift {A} (o : option A) : is_Some o -> total (lift o).
Proof. intros [a ->]. apply total_ret. Qed.

Lemma total_uart_send_frame_null cmd : total (uart_send_frame cmd None 0).
Proof.
  unfold uart_send_frame. rewrite uart_frame_bytes_null. cbn [lift].
  repeat (apply total_bind; [| intros ?]);
    auto using total_ret, total_emit, total_log.
Qed.

Lemma total_uart_send_frame_some cmd p :
  (length p <= 60)%nat ->
  total (uart_send_frame cmd (Some p) (Z.of_nat (length p))).
Proof.
  intros H. unfold uart_send_frame. rewrite uart_frame_bytes_some by exact H.
  cbn [lift].
  repeat (apply total_bind; [| intros ?]);
    auto using total_ret, total_emit, total_log.
Qed.

Create HintDb total discriminated.
#[local] Hint Resolve total_ret total_emit total_log total_modify
  total_get_globals total_esp_timer_get_time total_when
  total_uart_send_frame_null : total.

Ltac total_step :=
  repeat first
    [ progress auto with total
    | apply total_when
    | apply total_bind; [| intros ?]
    | match goal with |- total (if ?b then _ else _) => destruct b end
    | match goal with |- total (match ?b with _ => _ end) => destruct b end ].

Lemma total_start_pulse : total start_pulse.
Proof. unfold start_pulse. total_step. Qed.

Lemma total_stop_pulse : total stop_pulse.
Proof. unfold stop_pulse. total_step. Qed.

Lemma total_mode_plugin_scan a modes :
  Forall (fun m => 0 <= m <= 3) modes -> total (mode_plugin_scan a modes).
Proof.
  induction 1 as [|m modes Hm _ IH]; cbn [mode_plugin_scan]; [apply total_ret|].
  apply total_bind; [apply total_get_globals | intros g].
  apply total_bind.
  - apply total_lift. unfold plugin_id.
    assert (m = 0 \/ m = 1 \/ m = 2 \/ m = 3) as [-> | [-> | [-> | ->]]] by lia;
      eexists; reflexivity.
  - intros id. total_step.
Qed.

Lemma total_app_attribute_update_cb a : total (app_attribute_update_cb a).
Proof.
  unfold app_attribute_update_cb.
  apply total_bind; [| intros; apply total_ret].
  destruct (cb_type a); auto with total.
  - apply total_bind; [| intros _].
    + apply total_when. cbv zeta. total_step;
        auto using total_start_pulse, total_stop_pulse.
    + apply total_mode_plugin_scan.
      repeat constructor; lia.
Qed.

Lemma total_deliver until q : total (deliver until q).
Proof.
  induction q as [|[t a] q IH]; cbn [deliver].
  - intros w. eexists _, _. reflexivity.
  - destruct (t <=? until).
    + intros w.
      apply (total_bind _ _ (total_app_attribute_update_cb a) (fun _ => IH)).
    + intros w. eexists _, _. reflexivity.
Qed.

Lemma total_vTaskDelay ms : total (vTaskDelay ms).
Proof.
  intros w. unfold vTaskDelay.
  apply (total_bind (deliver _ _)); [apply total_deliver|].
  intros _ w'. eexists _, _. reflexivity.
Qed.

#[local] Hint Resolve total_vTaskDelay total_start_pulse total_stop_pulse
  : total.

Lemma total_led_blink_loop n i count on_ms off_ms :
  total (led_blink_loop n i count on_ms off_ms).
Proof.
  revert i. induction n as [|n IH]; intros i; cbn [led_blink_loop].
  - apply total_ret.
  - unfold led_on, led_off. total_step.
Qed.

Lemma total_led_blink count on_ms off_ms : total (led_blink count on_ms off_ms).
Proof. apply total_led_blink_loop. Qed.

#[local] Hint Resolve total_led_blink : total.

Lemma total_handle_cmd_set_mode payload len :
  (1 <= len -> is_Some (deref payload 0)) ->
  total (handle_cmd_set_mode payload len).
Proof.
  intros Hp. unfold handle_cmd_set_mode, uart_send_response, led_error.
  destruct (Z.ltb_spec len 1).
  - total_step.
  - apply total_bind; [apply total_lift, Hp; lia|].
    intros mode. total_step.
Qed.

Lemma total_dispatch_frame c payload len :
  (1 <= len -> is_Some (deref payload 0)) ->
  total (dispatch_frame c payload len).
Proof.
  intros Hp. unfold dispatch_frame.
  repeat match goal with |- total (if ?b then _ else _) => destruct b end;
    auto using total_handle_cmd_set_mode;
    unfold handle_cmd_hello, handle_cmd_ping, handle_cmd_trigger,
      uart_send_response, led_hello, led_ack, led_command_sent, led_error;
    total_step.
Qed.

(** ** The receiver never leaves its buffer *)

Lemma bind_Some {A B} (m : M A) (k : A -> M B) w a w1 :
  m w = Some (a, w1) -> bind m k w = k a w1.
Proof. intros E. unfold bind. rewrite E. reflexivity. Qed.

Lemma rx_init_inv : rx_inv rx_init.
Proof. split; [reflexivity | left; split; reflexivity]. Qed.

Lemma store_length a i v a' : store a i v = Some a' -> length a' = length a.
Proof.
  unfold store. destruct (_ && _); [|discriminate].
  intros [= <-]. apply length_insert.
Qed.

Lemma payload_ptr_deref buf n :
  length buf = 64%nat -> 1 <= n -> is_Some (deref (payload_ptr buf n) 0).
Proof.
  intros Hbuf Hn. unfold payload_ptr.
  replace (n >? 0) with true by (symmetry; rewrite Z.gtb_ltb; apply Z.ltb_lt; lia).
  cbn [deref mbind option_bind]. apply lookup_lt_is_Some.
  rewrite length_take, length_drop. lia.
Qed.

Lemma uart_rx_byte_inv rx b w :
  rx_inv rx -> is_byte b ->
  exists rx' w', uart_rx_byte rx b w = Some (rx', w') /\ rx_inv rx'.
Proof.
  intros [Hbuf Hst] Hb. destruct rx as [buf idx st fl btr c0].
  cbn [frame_buf buf_idx state frame_len bytes_to_read cmd] in *.
  unfold is_byte in Hb.
  destruct Hst as [[-> ->] | [[-> ->] | [(-> & Hbtr & Hfl & ->) | (-> & Hfl & ->)]]];
    unfold uart_rx_byte;
    cbn [frame_buf buf_idx state frame_len bytes_to_read cmd].
  - change (0 =? 0) with true. cbv iota.
    destruct (b =? FRAME_START).
    + rewrite store_Some by lia. cbn [lift]. rewrite bind_ret_l.
      eexists _, _. split; [reflexivity|].
      split; [cbn; rewrite length_insert; exact Hbuf|].
      right; left. split; reflexivity.
    + eexists _, _. split; [reflexivity|].
      split; [exact Hbuf | left; split; reflexivity].
  - change (1 =? 0) with false. change (1 =? 1) with true. cbv iota.
    rewrite store_Some by lia. cbn [lift]. rewrite bind_ret_l.
    destruct ((b =? 0) || (b >? 60)) eqn:Hbad.
    + eexists _, _. split; [reflexivity|].
      split; [cbn; rewrite length_insert; exact Hbuf|].
      left; split; reflexivity.
    + apply orb_false_iff in Hbad. destruct Hbad as [H0 H60].
      apply Z.eqb_neq in H0. rewrite Z.gtb_ltb in H60. apply Z.ltb_ge in H60.
      eexists _, _. split; [reflexivity|].
      split; [cbn; rewrite length_insert; exact Hbuf|].
      right; right; left. cbn. change (u8 (1 + 1)) with 2.
      repeat split; lia.
  - change (2 =? 0) with false. change (2 =? 1) with false.
    change (2 =? 2) with true. cbv iota.
    rewrite store_Some by lia. cbn [lift]. rewrite bind_ret_l.
    rewrite (u8_small (btr - 1)), (u8_small (_ + 1)) by lia.
    eexists _, _. split; [reflexivity|].
    split; [cbn; rewrite length_insert; exact Hbuf|].
    cbn. destruct (Z.eqb_spec (btr - 1) 0).
    + right; right; right. repeat split; lia.
    + right; right; left. repeat split; lia.
  - change (3 =? 0) with false. change (3 =? 1) with false.
    change (3 =? 2) with false. change (3 =? 3) with true. cbv iota.
    rewrite store_Some by lia. cbn [lift]. rewrite bind_ret_l.
    rewrite (u8_small (fl - 1)) by lia.
    match goal with |- context [bind ?m _ w] =>
      assert (Ht : total m) end.
    { destruct (_ =? b).
      - apply total_dispatch_frame. intros Hn.
        apply payload_ptr_deref; [rewrite length_insert; exact Hbuf | exact Hn].
      - unfold led_error. total_step. }
    destruct (Ht w) as ([] & w' & E). rewrite (bind_Some _ _ _ _ _ E).
    eexists _, _. split; [reflexivity|].
    split; [cbn; rewrite length_insert; exact Hbuf|].
    left; split; reflexivity.
Qed.

Lemma uart_rx_bytes_inv data : forall rx w,
  rx_inv rx -> Forall is_byte data ->
  exists rx' w', uart_rx_bytes rx data w = Some (rx', w') /\ rx_inv rx'.
Proof.
  induction data as [|b data IH]; intros rx w Hinv Hb.
  - exists rx, w. split; [reflexivity | exact Hinv].
  - inversion Hb as [|? ? Hb1 Hb2]; subst.
    destruct (uart_rx_byte_inv rx b w Hinv Hb1) as (rx1 & w1 & E & Hinv1).
    destruct (IH rx1 w1 Hinv1 Hb2) as (rx2 & w2 & E2 & Hinv2).
    exists rx2, w2. split; [|exact Hinv2].
    cbn [uart_rx_bytes]. rewrite (bind_Some _ _ _ _ _ E). exact E2.
Qed.

Lemma rx_inv_bound rx : rx_inv rx -> 0 <= buf_idx rx <= 63.
Proof.
  intros [_ [[_ ->] | [[_ ->] | [(_ & ? & ? & ->) | (_ & ? & ->)]]]]; lia.
Qed.

(** ** The CRC tells any change of one byte *)

Lemma all_bytes_In b : is_byte b -> In b all_bytes.
Proof.
  intros Hb. unfold all_bytes. apply in_map_iff.
  exists (Z.to_nat b). split; [unfold is_byte in Hb; lia|].
  apply in_seq. unfold is_byte in Hb. lia.
Qed.

Lemma forall_bytes (P : Z -> bool) :
  forallb P all_bytes = true -> forall b, is_byte b -> P b = true.
Proof.
  intros H b Hb. rewrite forallb_forall in H. apply H, all_bytes_In, Hb.
Qed.

Lemma forall_bytes2 (P : Z -> Z -> bool) :
  forallb (fun a => forallb (P a) all_bytes) all_bytes = true ->
  forall a b, is_byte a -> is_byte b -> P a b = true.
Proof.
  intros H a b Ha Hb.
  apply (forall_bytes (P a)); [|exact Hb].
  apply (forall_bytes (fun a => forallb (P a) all_bytes)); assumption.
Qed.

Lemma lxor_byte a b : is_byte a -> is_byte b -> is_byte (Z.lxor a b).
Proof.
  intros Ha Hb.
  assert (H : is_byteb (Z.lxor a b) = true).
  { apply (forall_bytes2 (fun a b => is_byteb (Z.lxor a b)));
      [vm_compute; reflexivity | assumption | assumption]. }
  unfold is_byteb in H. apply andb_true_iff in H. destruct H as [H1 H2].
  apply Z.leb_le in H1. apply Z.ltb_lt in H2. split; assumption.
Qed.

Lemma lxor_inj_r c b b' : Z.lxor c b = Z.lxor c b' -> b = b'.
Proof.
  intros H. apply (f_equal (Z.lxor c)) in H.
  rewrite <- !Z.lxor_assoc, !Z.lxor_nilpotent, !Z.lxor_0_l in H. exact H.
Qed.

Lemma lxor_inj_l c c' b : Z.lxor c b = Z.lxor c' b -> c = c'.
Proof. rewrite !(Z.lxor_comm _ b). apply lxor_inj_r. Qed.

(** The eight shifts permute the byte values. *)
Lemma crc8_shifts_inj x y :
  is_byte x -> is_byte y ->
  Nat.iter 8 crc8_shift x = Nat.iter 8 crc8_shift y -> x = y.
Proof.
  intros Hx Hy H.
  assert (E : implb (Nat.iter 8 crc8_shift x =? Nat.iter 8 crc8_shift y)
                (x =? y) = true).
  { apply (forall_bytes2
             (fun x y => implb (Nat.iter 8 crc8_shift x
                                =? Nat.iter 8 crc8_shift y) (x =? y)));
      [vm_compute; reflexivity | assumption | assumption]. }
  rewrite H, Z.eqb_refl in E. apply Z.eqb_eq. exact E.
Qed.

Lemma crc8_byte_inj_r c b b' :
  is_byte c -> is_byte b -> is_byte b' ->
  crc8_byte c b = crc8_byte c b' -> b = b'.
Proof.
  intros Hc Hb Hb' H. unfold crc8_byte in H.
  rewrite !u8_small in H by (apply lxor_byte; assumption).
  apply crc8_shifts_inj in H; try (apply lxor_byte; assumption).
  exact (lxor_inj_r _ _ _ H).
Qed.

Lemma crc8_byte_inj_l c c' b :
  is_byte c -> is_byte c' -> is_byte b ->
  crc8_byte c b = crc8_byte c' b -> c = c'.
Proof.
  intros Hc Hc' Hb H. unfold crc8_byte in H.
  rewrite !u8_small in H by (apply lxor_byte; assumption).
  apply crc8_shifts_inj in H; try (apply lxor_byte; assumption).
  exact (lxor_inj_l _ _ _ H).
Qed.

Lemma crc8_fold_inj l : forall c c',
  is_byte c -> is_byte c' -> Forall is_byte l ->
  fold_left crc8_byte l c = fold_left crc8_byte l c' -> c = c'.
Proof.
  induction l as [|b l IH]; intros c c' Hc Hc' Hl H; [exact H|].
  inversion Hl as [|? ? Hb Hl']; subst. cbn [fold_left] in H.
  apply IH in H; try assumption; try apply crc8_byte_range.
  exact (crc8_byte_inj_l _ _ _ Hc Hc' Hb H).
Qed.

Lemma crc8_one_byte_changed pre b b' post :
  Forall is_byte pre -> is_byte b -> is_byte b' -> Forall is_byte post ->
  b <> b' ->
  crc8 (pre ++ b :: post) (Z.of_nat (length (pre ++ b :: post)))
  <> crc8 (pre ++ b' :: post) (Z.of_nat (length (pre ++ b' :: post))).
Proof.
  intros Hpre Hb Hb' Hpost Hne H. unfold crc8 in H.
  rewrite !Nat2Z.id, !firstn_all, !fold_left_app in H. cbn [fold_left] in H.
  assert (Hc : is_byte (fold_left crc8_byte pre 0)).
  { generalize (crc8_range pre (Z.of_nat (length pre))). unfold crc8.
    rewrite Nat2Z.id, firstn_all. auto. }
  apply crc8_fold_inj in H; try assumption; try apply crc8_byte_range.
  apply crc8_byte_inj_r in H; try assumption. contradiction.
Qed.

Lemma flip_byte b j :
  is_byte b -> (j < 8)%nat ->
  is_byte (Z.lxor b (Z.shiftl 1 (Z.of_nat j)))
  /\ Z.lxor b (Z.shiftl 1 (Z.of_nat j)) <> b.
Proof.
  intros Hb Hj.
  assert (Hs : is_byte (Z.shiftl 1 (Z.of_nat j)) /\ Z.shiftl 1 (Z.of_nat j) <> 0).
  { do 8 (destruct j as [|j]; [split; [split|]; vm_compute; congruence|]). lia. }
  destruct Hs as [Hs Hs0]. split; [apply lxor_byte; assumption|].
  intros E. apply Hs0.
  apply (lxor_inj_r b). rewrite E, Z.lxor_0_r. reflexivity.
Qed.

Lemma alter_split {A} (f : A -> A) (l : list A) : forall i,
  (i < length l)%nat ->
  exists pre b post,
    l = pre ++ b :: post /\ length pre = i /\ alter f i l = pre ++ f b :: post.
Proof.
  induction l as [|a l IH]; intros i Hi; [cbn in Hi; lia|].
  destruct i as [|i].
  - exists [], a, l. repeat split.
  - destruct (IH i) as (pre & b & post & -> & Hlen & E); [cbn in Hi; lia|].
    exists (a :: pre), b, post. cbn. rewrite E, Hlen. repeat split.
Qed.

(** ** Frames through the receiver *)

Lemma payload_ptr_frame len c p crc rest :
  len = Z.of_nat (length (c :: p)) ->
  payload_ptr ([FRAME_START; len] ++ (c :: p) ++ crc :: rest) (len - 1)
  = payload_arg p.
Proof.
  intros ->. unfold payload_ptr. cbn [length].
  replace (Z.of_nat (S (length p)) - 1) with (Z.of_nat (length p)) by lia.
  destruct p as [|b p]; [reflexivity|].
  replace (Z.of_nat (length (b :: p)) >? 0) with true
    by (symmetry; rewrite Z.gtb_ltb; apply Z.ltb_lt; cbn [length]; lia).
  rewrite Nat2Z.id. cbn [app drop payload_arg].
  change (b :: p ++ crc :: rest) with ((b :: p) ++ crc :: rest).
  rewrite take_app_length. reflexivity.
Qed.

Lemma payload_arg_deref p :
  1 <= Z.of_nat (length p) -> is_Some (deref (payload_arg p) 0).
Proof. destruct p; [cbn; lia | intros _; eexists; reflexivity]. Qed.

(** A well-formed frame met in the wait-for-start state is handed to the
    dispatch code once, with its command and payload. *)
Lemma rx_valid_frame rx c p w :
  wait_start rx -> (length p <= 59)%nat ->
  exists rx',
    uart_rx_bytes rx (frame_of c p) w
    = (dispatch_frame c (payload_arg p) (Z.of_nat (length p));; ret rx') w
    /\ wait_start rx'.
Proof.
  intros (Hs & Hi & Hbuf) Hlen. destruct rx as [buf idx st fl btr c0].
  cbn [state buf_idx frame_buf] in *. subst st idx.
  pose proof (rx_frame_walk buf (c :: p) fl btr c0
                (crc8 (Z.of_nat (length (c :: p)) :: c :: p)
                   (Z.of_nat (length (c :: p)) + 1)) w Hbuf) as Hw.
  cbv zeta in Hw. rewrite Z.eqb_refl in Hw.
  unfold frame_of.
  replace (1 + Z.of_nat (length p)) with (Z.of_nat (length (c :: p)))
    by (cbn [length]; lia).
  eexists. split.
  - etransitivity; [apply Hw; [congruence | cbn [length]; lia]|].
    cbn [hd]. rewrite payload_ptr_frame by reflexivity.
    replace (Z.of_nat (length (c :: p)) - 1) with (Z.of_nat (length p))
      by (cbn [length]; lia).
    reflexivity.
  - repeat split. cbn [frame_buf app length]. rewrite length_app.
    cbn [length]. rewrite length_drop. lia.
Qed.

(** Bytes other than the start marker are dropped while waiting. *)
Lemma rx_skip_garbage prefix : forall rx w,
  state rx = 0 -> Forall (fun b => b <> FRAME_START) prefix ->
  uart_rx_bytes rx prefix w = Some (rx, w).
Proof.
  induction prefix as [|b prefix IH]; intros rx w Hs Hp; [reflexivity|].
  inversion Hp as [|? ? Hb Hp']; subst.
  cbn [uart_rx_bytes]. rewrite (bind_Some _ _ _ _ _ (rx_byte_skip rx b w Hs Hb)).
  apply IH; assumption.
Qed.

(** [rx_frame_walk] with the locals left behind kept abstract. *)
Lemma rx_frame_walk_wait rx body c w :
  wait_start rx -> body <> [] -> (length body <= 60)%nat ->
  let len := Z.of_nat (length body) in
  exists rx',
    wait_start rx'
    /\ uart_rx_bytes rx ([FRAME_START; len] ++ body ++ [c]) w
       = ((if crc8 (len :: body) (len + 1) =? c
           then dispatch_frame (hd 0 body)
                  (payload_ptr (frame_buf rx') (len - 1)) (len - 1)
           else log (LogCrcError (crc8 (len :: body) (len + 1)) c);;
                led_error);;
          ret rx') w.
Proof.
  intros (Hs & Hi & Hbuf) Hne Hlen len.
  destruct rx as [buf idx st fl btr c0].
  cbn [state buf_idx frame_buf] in *. subst st idx.
  exists (mkRx ([FRAME_START; len] ++ body
                   ++ c :: drop (3 + length body) buf) 0 0 len 0 (hd 0 body)).
  split; [|apply rx_frame_walk; assumption].
  repeat split. cbn [frame_buf app length]. rewrite length_app.
  cbn [length]. rewrite length_drop. lia.
Qed.

(** A frame whose command, payload or CRC byte has been replaced by another
    byte fails the CRC comparison. *)
Lemma rx_changed_frame_rejected rx c p i f w :
  wait_start rx -> is_byte c -> Forall is_byte p -> (length p <= 59)%nat ->
  (2 <= i < length p + 4)%nat ->
  (forall b, is_byte b -> is_byte (f b) /\ f b <> b) ->
  exists calc recv rx',
    uart_rx_bytes rx (alter f i (frame_of c p)) w
    = (log (LogCrcError calc recv);; led_error;; ret rx') w
    /\ calc <> recv /\ wait_start rx'.
Proof.
  intros Hrx Hc Hp Hlen Hi Hf.
  set (body := c :: p).
  set (len := Z.of_nat (length body)).
  set (crc := crc8 (len :: body) (len + 1)).
  assert (Hframe : frame_of c p = FRAME_START :: len :: body ++ [crc]).
  { unfold frame_of, crc, len, body. cbn [length app].
    replace (1 + Z.of_nat (length p)) with (Z.of_nat (S (length p))) by lia.
    reflexivity. }
  assert (Hbody : Forall is_byte body) by (constructor; assumption).
  assert (Hlenb : is_byte len) by (unfold is_byte, len, body; cbn [length]; lia).
  assert (Hcrc : is_byte crc) by apply crc8_range.
  rewrite Hframe.
  destruct i as [|[|k]]; try lia. cbn [alter list_alter].
  change (list_alter f k (body ++ [crc])) with (alter f k (body ++ [crc])).
  destruct (alter_split f (body ++ [crc]) k) as (pre & b & post & Hsplit & Hk & ->).
  { rewrite length_app. unfold body. cbn [length]. lia. }
  destruct post as [|x post _] using rev_ind.
  - apply app_inj_tail in Hsplit. destruct Hsplit as [<- <-].
    destruct (rx_frame_walk_wait rx body (f crc) w Hrx)
      as (rx' & Hrx' & E); [discriminate | unfold body; cbn [length]; lia |].
    fold len in E. fold crc in E.
    destruct (Hf crc Hcrc) as [_ Hne].
    replace (crc =? f crc) with false in E
      by (symmetry; apply Z.eqb_neq; congruence).
    exists crc, (f crc), rx'. split; [|split; [congruence | exact Hrx']].
    exact E.
  - rewrite app_comm_cons, app_assoc in Hsplit.
    apply app_inj_tail in Hsplit. destruct Hsplit as [Hb <-].
    assert (Hall : Forall is_byte pre /\ is_byte b /\ Forall is_byte post).
    { rewrite Hb in Hbody. apply Forall_app in Hbody. destruct Hbody as [? Hr].
      inversion Hr; subst. auto. }
    destruct Hall as (Hpre & Hbb & Hpost).
    destruct (Hf b Hbb) as [Hfb Hne].
    assert (Hlen' : length (pre ++ f b :: post) = length body)
      by (rewrite Hb, !length_app; reflexivity).
    destruct (rx_frame_walk_wait rx (pre ++ f b :: post) crc w Hrx)
      as (rx' & Hrx' & E);
      [destruct pre; discriminate | rewrite Hlen'; unfold body; cbn [length]; lia |].
    rewrite Hlen' in E. fold len in E.
    assert (Hdiff : crc8 (len :: pre ++ f b :: post) (len + 1) <> crc).
    { unfold crc. rewrite Hb.
      assert (Hl : len + 1 = Z.of_nat (length ((len :: pre) ++ b :: post))).
      { unfold len. rewrite Hb. cbn [length app].
        rewrite ?length_app. cbn [length]. lia. }
      rewrite Hl at 2.
      replace (len + 1) with (Z.of_nat (length ((len :: pre) ++ f b :: post)))
        by (rewrite Hl, !length_app; reflexivity).
      change (len :: pre ++ f b :: post) with ((len :: pre) ++ f b :: post).
      change (len :: pre ++ b :: post) with ((len :: pre) ++ b :: post).
      apply not_eq_sym.
      apply crc8_one_byte_changed; try assumption;
        try (constructor; assumption). congruence. }
    replace (crc8 (len :: pre ++ f b :: post) (len + 1) =? crc) with false in E
      by (symmetry; apply Z.eqb_neq; exact Hdiff).
    exists (crc8 (len :: pre ++ f b :: post) (len + 1)), crc, rx'.
    split; [|split; [exact Hdiff | exact Hrx']].
    replace ((pre ++ f b :: post) ++ [crc])
      with (pre ++ f b :: post ++ [crc]) in E
      by (rewrite <- app_assoc; reflexivity).
    exact E.
Qed.


(** ** Running the program step by step *)

Section Wp.
Context {A B : Type}.

Lemma wp_ret (a : A) Q w : Q a w -> wp (ret a) Q w.
Proof. intros H. exists a, w. split; [reflexivity | exact H]. Qed.

Lemma wp_bind (m : M A) (k : A -> M B) Q w :
  wp m (fun a w1 => wp (k a) Q w1) w -> wp (bind m k) Q w.
Proof.
  intros (a & w1 & E & b & w2 & E2 & HQ).
  exists b, w2. split; [|exact HQ].
  rewrite (bind_Some _ _ _ _ _ E). exact E2.
Qed.

Lemma wp_conseq (m : M A) (Q Q' : A -> world -> Prop) w :
  wp m Q w -> (forall a w', Q a w' -> Q' a w') -> wp m Q' w.
Proof. intros (a & w' & E & HQ) H. exists a, w'. auto. Qed.

Lemma wp_lift (o : option A) a Q w : o = Some a -> Q a w -> wp (lift o) Q w.
Proof. intros -> H. apply wp_ret, H. Qed.
End Wp.

Lemma wp_emit e Q w :
  Q tt (mkWorld (w_globals w) (w_clock w) (w_pending w)
          (w_trace w ++ [(w_clock w, e)])) ->
  wp (emit e) Q w.
Proof. intros H. eexists _, _. split; [reflexivity | exact H]. Qed.

Lemma wp_modify f Q w :
  Q tt (mkWorld (f (w_globals w)) (w_clock w) (w_pending w) (w_trace w)) ->
  wp (modify f) Q w.
Proof. intros H. eexists _, _. split; [reflexivity | exact H]. Qed.

Lemma wp_get_globals Q w : Q (w_globals w) w -> wp get_globals Q w.
Proof. intros H. eexists _, _. split; [reflexivity | exact H]. Qed.

Lemma wp_esp_timer_get_time Q w : Q (w_clock w) w -> wp esp_timer_get_time Q w.
Proof. intros H. eexists _, _. split; [reflexivity | exact H]. Qed.

Lemma wp_when (b : bool) m Q w :
  (b = true -> wp m Q w) -> (b = false -> Q tt w) -> wp (when b m) Q w.
Proof.
  destruct b; intros H1 H2; [apply H1 | apply wp_ret, H2]; reflexivity.
Qed.

(** A delay during which no callback falls due only moves the clock. *)
Lemma wp_vTaskDelay_idle ms Q w :
  w_pending w = [] ->
  Q tt (mkWorld (w_globals w) (w_clock w + ms * 1000) [] (w_trace w)) ->
  wp (vTaskDelay ms) Q w.
Proof.
  intros Hp H. eexists _, _. split; [|exact H].
  unfold vTaskDelay. rewrite Hp. reflexivity.
Qed.

Lemma wp_uart_send_frame_null c Q w :
  Q true (mkWorld (w_globals w) (w_clock w) (w_pending w)
            (w_trace w ++ [(w_clock w, EvUartTx (frame_of c []));
                           (w_clock w, EvLog (LogUartTx 4 c))])) ->
  wp (uart_send_frame c None 0) Q w.
Proof.
  intros H. eexists _, _. split; [|exact H].
  unfold uart_send_frame. rewrite uart_frame_bytes_null.
  unfold bind, lift, ret, log, emit. cbn [w_globals w_clock w_pending w_trace].
  rewrite <- app_assoc. reflexivity.
Qed.

(** One step of symbolic execution. *)
Ltac wp_step :=
  lazymatch goal with
  | |- wp (bind _ _) _ _ => apply wp_bind
  | |- wp (ret _) _ _ => apply wp_ret
  | |- wp (emit _) _ _ => apply wp_emit
  | |- wp (log _) _ _ => apply wp_emit
  | |- wp led_on _ _ => apply wp_emit
  | |- wp led_off _ _ => apply wp_emit
  | |- wp (modify _) _ _ => apply wp_modify
  | |- wp get_globals _ _ => apply wp_get_globals
  | |- wp esp_timer_get_time _ _ => apply wp_esp_timer_get_time
  | |- wp (uart_send_frame _ None 0) _ _ => apply wp_uart_send_frame_null
  | |- wp (uart_send_response _ None 0) _ _ => apply wp_uart_send_frame_null
  | |- wp (vTaskDelay _) _ _ => apply wp_vTaskDelay_idle; [reflexivity|]
  | |- wp (when true _) _ _ => cbn [when]
  | |- wp (when false _) _ _ => cbn [when]
  end;
  cbn [w_globals w_clock w_pending w_trace].

Ltac wp_run := repeat wp_step.

(** The views of a trace, piece by piece. *)
Section Views.
Context {X : Type} (f : Z * event -> option X).

Lemma omap_cons_list te (tr : list (Z * event)) :
  omap f (te :: tr) = option_list (f te) ++ omap f tr.
Proof. cbn. destruct (f te); reflexivity. Qed.
End Views.

Lemma uart_tx_app a b : uart_tx (a ++ b) = uart_tx a ++ uart_tx b.
Proof. apply omap_app. Qed.
Lemma uart_tx_cons te tr :
  uart_tx (te :: tr) = option_list (uart_tx_of te) ++ uart_tx tr.
Proof. apply omap_cons_list. Qed.

Lemma reports_app a b : reports (a ++ b) = reports a ++ reports b.
Proof. apply omap_app. Qed.
Lemma reports_cons te tr :
  reports (te :: tr) = option_list (report_of te) ++ reports tr.
Proof. apply omap_cons_list. Qed.

Lemma pulse_actions_app a b :
  pulse_actions (a ++ b) = pulse_actions a ++ pulse_actions b.
Proof. apply omap_app. Qed.
Lemma pulse_actions_cons te tr :
  pulse_actions (te :: tr)
  = option_list (pulse_action_of te) ++ pulse_actions tr.
Proof. apply omap_cons_list. Qed.

Lemma executions_app a b : executions (a ++ b) = executions a ++ executions b.
Proof. apply omap_app. Qed.
Lemma executions_cons te tr :
  executions (te :: tr) = option_list (execution_of te) ++ executions tr.
Proof. apply omap_cons_list. Qed.

Lemma reassertions_app a b :
  reassertions (a ++ b) = reassertions a ++ reassertions b.
Proof. apply omap_app. Qed.
Lemma reassertions_cons te tr :
  reassertions (te :: tr)
  = option_list (reassertion_of te) ++ reassertions tr.
Proof. apply omap_cons_list. Qed.

Ltac views :=
  repeat first
    [ rewrite uart_tx_app | rewrite uart_tx_cons
    | rewrite reports_app | rewrite reports_cons
    | rewrite pulse_actions_app | rewrite pulse_actions_cons
    | rewrite executions_app | rewrite executions_cons
    | rewrite reassertions_app | rewrite reassertions_cons ];
  change (uart_tx []) with (@nil (list Z));
  change (reports []) with (@nil (Z * bool));
  change (pulse_actions []) with (@nil event);
  change (executions []) with (@nil (Z * Z));
  change (reassertions []) with (@nil Z);
  cbn [option_list uart_tx_of report_of pulse_action_of execution_of
       reassertion_of app];
  rewrite ?app_nil_r, <- ?app_assoc;
  cbn [app].

(** ** Handlers with no callback pending *)

Lemma wp_led_blink_idle count on_ms off_ms Q w :
  w_pending w = [] ->
  (forall w', w_globals w' = w_globals w -> w_pending w' = [] ->
     uart_tx (w_trace w') = uart_tx (w_trace w) ->
     reports (w_trace w') = reports (w_trace w) ->
     pulse_actions (w_trace w') = pulse_actions (w_trace w) ->
     executions (w_trace w') = executions (w_trace w) ->
     reassertions (w_trace w') = reassertions (w_trace w) ->
     Q tt w') ->
  wp (led_blink count on_ms off_ms) Q w.
Proof.
  unfold led_blink. generalize 0 at 1. generalize (Z.to_nat count) as n.
  intros n. revert w. induction n as [|n IH]; intros w i Hp HQ.
  - cbn [led_blink_loop]. apply wp_ret, HQ; auto.
  - cbn [led_blink_loop]. destruct w as [g clk q tr]. cbn in Hp. subst q.
    wp_run.
    apply wp_when; intros _.
    + wp_run. apply IH; [reflexivity|].
      cbn [w_globals w_clock w_pending w_trace].
      intros w' Hg Hq H1 H2 H3 H4 H5. apply HQ; cbn; try assumption.
      * rewrite H1. views. reflexivity.
      * rewrite H2. views. reflexivity.
      * rewrite H3. views. reflexivity.
      * rewrite H4. views. reflexivity.
      * rewrite H5. views. reflexivity.
    + wp_run. apply IH; [reflexivity|].
      cbn [w_globals w_clock w_pending w_trace].
      intros w' Hg Hq H1 H2 H3 H4 H5. apply HQ; cbn; try assumption.
      * rewrite H1. views. reflexivity.
      * rewrite H2. views. reflexivity.
      * rewrite H3. views. reflexivity.
      * rewrite H4. views. reflexivity.
      * rewrite H5. views. reflexivity.
Qed.

Lemma wp_led_error_idle Q w :
  w_pending w = [] ->
  (forall w', w_globals w' = w_globals w -> w_pending w' = [] ->
     uart_tx (w_trace w') = uart_tx (w_trace w) ->
     reports (w_trace w') = reports (w_trace w) ->
     pulse_actions (w_trace w') = pulse_actions (w_trace w) ->
     executions (w_trace w') = executions (w_trace w) ->
     reassertions (w_trace w') = reassertions (w_trace w) ->
     Q tt w') ->
  wp led_error Q w.
Proof. apply wp_led_blink_idle. Qed.

Lemma crc_error_effect w calc recv (rx' : rx_locals) :
  w_pending w = [] ->
  exists w',
    (log (LogCrcError calc recv);; led_error;; ret rx') w = Some (rx', w')
    /\ w_globals w' = w_globals w
    /\ uart_tx (w_trace w') = uart_tx (w_trace w)
    /\ reports (w_trace w') = reports (w_trace w)
    /\ pulse_actions (w_trace w') = pulse_actions (w_trace w).
Proof.
  intros Hp.
  assert (H : wp (log (LogCrcError calc recv);; led_error;; ret rx')
                (fun a w' => a = rx' /\ w_globals w' = w_globals w
                   /\ uart_tx (w_trace w') = uart_tx (w_trace w)
                   /\ reports (w_trace w') = reports (w_trace w)
                   /\ pulse_actions (w_trace w') = pulse_actions (w_trace w)) w).
  { wp_run. apply wp_led_error_idle; [exact Hp|].
    cbn [w_globals w_clock w_pending w_trace].
    intros w' Hg Hq H1 H2 H3 _ _. wp_run.
    rewrite H1, H2, H3. views. auto. }
  destruct H as (a & w' & E & -> & H). exists w'. split; [exact E | exact H].
Qed.

(** ** Callbacks and delays seen from the arbiter *)

Ltac wp_auto :=
  repeat first
    [ wp_step
    | lazymatch goal with
      | |- wp (lift _) _ _ => eapply wp_lift; [reflexivity|]
      | |- wp (when ?b _) _ _ => destruct b eqn:?
      | |- wp (if ?b then _ else _) _ _ => destruct b eqn:?
      | |- wp (match ?b with _ => _ end) _ _ => destruct b eqn:?
      end ].

Lemma vars_frame_refl g : vars_frame g g.
Proof. unfold vars_frame. auto 12. Qed.

Lemma vars_frame_trans g1 g2 g3 :
  vars_frame g1 g2 -> vars_frame g2 g3 -> vars_frame g1 g3.
Proof.
  unfold vars_frame.
  intros (a1 & a2 & a3 & a4 & a5 & a6 & a7 & a8)
         (b1 & b2 & b3 & b4 & b5 & b6 & b7 & b8).
  do 6 (split; [congruence|]). split; [auto|].
  intros Hs. rewrite a4 in b8. destruct (a8 Hs), (b8 Hs).
  split; congruence.
Qed.

Lemma callback_frame_same w w' :
  w_globals w' = w_globals w -> w_trace w' = w_trace w -> callback_frame w w'.
Proof.
  intros Hg Ht. unfold callback_frame. rewrite Hg, Ht.
  split; [apply vars_frame_refl | auto].
Qed.

Lemma callback_frame_trans w1 w2 w3 :
  callback_frame w1 w2 -> callback_frame w2 w3 -> callback_frame w1 w3.
Proof.
  intros (a1 & a2 & a3 & a4) (b1 & b2 & b3 & b4).
  split; [exact (vars_frame_trans _ _ _ a1 b1)|].
  repeat split; congruence.
Qed.

Ltac unfold_vars :=
  cbn [w_globals w_clock w_pending w_trace
       g_mode_plugin_ids g_switch_endpoint_id g_current_mode g_pulse_active
       g_syncing_modes g_last_execution_time cleanup_done g_target_mode
       g_last_tap_time set_pulse_active set_target_mode set_last_tap_time
       set_last_execution_time set_syncing_modes set_current_mode
       set_cleanup_done] in *.

Lemma wp_app_attribute_update_cb a w :
  wp (app_attribute_update_cb a)
    (fun _ w' => callback_frame w w' /\ w_clock w' = w_clock w
                 /\ w_pending w' = w_pending w) w.
Proof.
  destruct w as [g clk q tr].
  unfold app_attribute_update_cb, start_pulse, stop_pulse.
  cbn [mode_plugin_scan plugin_id Z.eqb Pos.eqb].
  wp_auto; cbn [w_globals w_clock w_pending w_trace];
    (split; [|split; reflexivity]);
    unfold callback_frame, vars_frame; unfold_vars; views;
    repeat split; try reflexivity; try congruence; try lia.
Qed.

Lemma wp_deliver until q : forall w,
  wp (deliver until q)
    (fun _ w' => callback_frame w w' /\ (q = [] -> w_pending w' = [])) w.
Proof.
  induction q as [|[t a] q IH]; intros w; cbn [deliver].
  - eexists _, _. split; [reflexivity|].
    split; [apply callback_frame_same; reflexivity | reflexivity].
  - destruct (t <=? until).
    + apply wp_bind.
      eapply wp_conseq; [apply wp_app_attribute_update_cb|].
      cbn beta. intros _ w1 (Hf & _ & _).
      eapply wp_conseq; [apply IH|].
      cbn beta. intros _ w2 [Hf2 _]. split; [|discriminate].
      refine (callback_frame_trans _ _ _ _ (callback_frame_trans _ _ _ Hf Hf2)).
      apply callback_frame_same; reflexivity.
    + eexists _, _. split; [reflexivity|].
      split; [apply callback_frame_same; reflexivity | discriminate].
Qed.

(** A delay, whatever callbacks fall due in it. *)
Lemma wp_vTaskDelay_frame ms (Q : unit -> world -> Prop) w :
  (forall w', callback_frame w w' -> w_clock w' = w_clock w + ms * 1000 ->
              (w_pending w = [] -> w_pending w' = []) ->
              Q tt w') ->
  wp (vTaskDelay ms) Q w.
Proof.
  intros HQ. unfold vTaskDelay. apply wp_bind.
  eapply wp_conseq; [apply wp_deliver|].
  cbn beta. intros _ w1 [Hf Hq].
  eexists _, _. split; [reflexivity|]. apply HQ; [|reflexivity|exact Hq].
  refine (callback_frame_trans _ _ _ Hf _).
  apply callback_frame_same; reflexivity.
Qed.

(** ** The arbiter's report sequences *)

Lemma plugin_id_is_Some a i : 0 <= i <= 3 -> is_Some (plugin_id a i).
Proof.
  intros H. assert (i = 0 \/ i = 1 \/ i = 2 \/ i = 3) as [-> | [-> | [-> | ->]]]
    by lia; eexists; reflexivity.
Qed.

Lemma mode_names_is_Some i : 0 <= i <= 3 -> is_Some (mode_names i).
Proof.
  intros H. assert (i = 0 \/ i = 1 \/ i = 2 \/ i = 3) as [-> | [-> | [-> | ->]]]
    by lia; eexists; reflexivity.
Qed.

Lemma wp_report_others_off off_msg todo : forall w,
  (forall t i, reassertion_of (t, EvLog (off_msg i)) = None) ->
  Forall (fun i => 0 <= i <= 3) todo ->
  g_syncing_modes (w_globals w) = true ->
  wp (report_others_off off_msg todo)
    (fun _ w' =>
       vars_frame (w_globals w) (w_globals w')
       /\ reports (w_trace w')
          = reports (w_trace w)
            ++ off_reports (g_mode_plugin_ids (w_globals w))
                 (g_current_mode (w_globals w)) todo
       /\ executions (w_trace w') = executions (w_trace w)
       /\ reassertions (w_trace w') = reassertions (w_trace w)
       /\ w_clock w'
          = w_clock w
            + 10000 * Z.of_nat (length
                (off_reports (g_mode_plugin_ids (w_globals w))
                   (g_current_mode (w_globals w)) todo))
       /\ (w_pending w = [] -> w_pending w' = [])) w.
Proof.
  intros w Hmsg Htodo. revert w.
  induction Htodo as [|i todo Hi _ IH]; intros w Hsync.
  - cbn [report_others_off off_reports omap list_omap length]. wp_step.
    rewrite app_nil_r. split; [apply vars_frame_refl|].
    repeat split; try reflexivity; try lia. auto.
  - cbn [report_others_off]. wp_step. wp_step. wp_step.
    destruct (plugin_id_is_Some (g_mode_plugin_ids (w_globals w)) i Hi)
      as [id Hid].
    unfold off_reports. cbn [omap list_omap]. fold (off_reports
      (g_mode_plugin_ids (w_globals w)) (g_current_mode (w_globals w)) todo).
    destruct (i =? g_current_mode (w_globals w)) eqn:Ecur; cbn [negb when].
    + wp_step. eapply wp_conseq; [apply IH, Hsync|]. cbn beta.
      intros _ w' H. exact H.
    + rewrite Hid. cbn [fmap option_fmap option_map].
      wp_step. eapply wp_lift; [reflexivity|]. wp_step. wp_step. wp_step.
      wp_step.
      apply wp_vTaskDelay_frame. intros w1 (Hv & Hr & He & Ha) Hclk Hq.
      unfold_vars.
      pose proof Hv as (v1 & v2 & v3 & v4 & v5 & v6 & v7 & v8).
      eapply wp_conseq; [apply IH; congruence|]. cbn beta.
      intros _ w' (Hv' & Hr' & He' & Ha' & Hclk' & Hq').
      rewrite v1, v3 in *.
      split; [exact (vars_frame_trans _ _ _ Hv Hv')|].
      split.
      { rewrite Hr', Hr. views. reflexivity. }
      split.
      { rewrite He', He. views. reflexivity. }
      split.
      { rewrite Ha', Ha, !reassertions_app, !reassertions_cons, Hmsg.
        cbn. rewrite !app_nil_r. reflexivity. }
      split; [|auto].
      rewrite Hclk', Hclk. cbn [length]. lia.
Qed.

Lemma off_reports_length a m :
  0 <= m <= 3 -> length (off_reports a m [0; 1; 2; 3]) = 3%nat.
Proof.
  intros H. assert (m = 0 \/ m = 1 \/ m = 2 \/ m = 3) as [-> | [-> | [-> | ->]]]
    by lia; reflexivity.
Qed.

Lemma wp_uart_send_frame_1 c b Q w :
  Q true (mkWorld (w_globals w) (w_clock w) (w_pending w)
            (w_trace w ++ [(w_clock w, EvUartTx (frame_of c [b]));
                           (w_clock w, EvLog (LogUartTx 5 c))])) ->
  wp (uart_send_frame c (Some [b]) 1) Q w.
Proof.
  intros H. eexists _, _. split; [|exact H].
  unfold uart_send_frame.
  change 1 with (Z.of_nat (length [b])) at 1.
  rewrite (uart_frame_bytes_some c [b]) by (cbn; lia).
  unfold bind, lift, ret, log, emit. cbn [w_globals w_clock w_pending w_trace].
  rewrite <- app_assoc. reflexivity.
Qed.

Lemma modes_0_3 : Forall (fun i => 0 <= i <= 3) [0; 1; 2; 3].
Proof. repeat constructor; lia. Qed.

Ltac wp_steps :=
  repeat (first [ wp_step | apply wp_uart_send_frame_1 ]; unfold_vars).

Lemma wp_primary_execution now w :
  0 <= g_target_mode (w_globals w) <= 3 ->
  wp (primary_execution now) (fun _ w' => executed now w w') w.
Proof.
  intros Ht. destruct w as [g clk q tr]. unfold_vars.
  unfold primary_execution.
  destruct (mode_names_is_Some _ Ht) as [name Hname].
  destruct (plugin_id_is_Some (g_mode_plugin_ids g) _ Ht) as [on_id Hon].
  wp_steps. eapply wp_lift; [exact Hname|].
  wp_steps. rewrite !(u8_small (g_target_mode g)) by lia.
  wp_steps.
  eapply wp_conseq;
    [apply wp_report_others_off;
     [reflexivity | apply modes_0_3 | reflexivity]|].
  cbn beta. unfold_vars.
  intros _ w1 (Hv & Hr & He & Ha & Hclk & Hq).
  pose proof Hv as (v1 & v2 & v3 & v4 & v5 & v6 & v7 & v8). unfold_vars.
  destruct (v8 eq_refl) as [v9 v10].
  wp_steps. apply wp_vTaskDelay_frame.
  intros w2 (Hv2 & Hr2 & He2 & Ha2) Hclk2 Hq2.
  pose proof Hv2 as (u1 & u2 & u3 & u4 & u5 & u6 & u7 & u9).
  destruct (u9 v4) as [u10 u11].
  wp_steps. eapply wp_lift; [rewrite u1, u3, v1, v3; exact Hon|].
  wp_steps.
  eapply wp_lift; [rewrite u3, v3; exact Hname|].
  wp_steps. unfold executed. unfold_vars.
  repeat split; try congruence.
  - exists on_id. split; [exact Hon|].
    views. rewrite Hr2, Hr. views. reflexivity.
  - views. rewrite He2, He. views. unfold frame_of. cbn [app].
    views. reflexivity.
  - views. rewrite Ha2, Ha. views. reflexivity.
  - rewrite Hclk2, Hclk, off_reports_length by lia. lia.
  - auto.
Qed.

Lemma wp_safety_cleanup w :
  0 <= g_current_mode (w_globals w) <= 3 ->
  wp safety_cleanup (fun _ w' => reasserted w w') w.
Proof.
  intros Ht. destruct w as [g clk q tr]. unfold_vars.
  unfold safety_cleanup.
  destruct (mode_names_is_Some _ Ht) as [name Hname].
  destruct (plugin_id_is_Some (g_mode_plugin_ids g) _ Ht) as [on_id Hon].
  wp_steps. eapply wp_lift; [exact Hname|].
  wp_steps.
  eapply wp_conseq;
    [apply wp_report_others_off;
     [reflexivity | apply modes_0_3 | reflexivity]|].
  cbn beta. unfold_vars.
  intros _ w1 (Hv & Hr & He & Ha & Hclk & Hq).
  pose proof Hv as (v1 & v2 & v3 & v4 & v5 & v6 & v7 & v8). unfold_vars.
  destruct (v8 eq_refl) as [v9 v10].
  wp_steps. apply wp_vTaskDelay_frame.
  intros w2 (Hv2 & Hr2 & He2 & Ha2) Hclk2 Hq2.
  pose proof Hv2 as (u1 & u2 & u3 & u4 & u5 & u6 & u7 & u9).
  destruct (u9 v4) as [u10 u11].
  wp_steps. eapply wp_lift; [rewrite u1, u3, v1, v3; exact Hon|].
  wp_steps. unfold reasserted. unfold_vars.
  repeat split; try congruence.
  - exists on_id. split; [exact Hon|].
    views. rewrite Hr2, Hr. views. reflexivity.
  - views. rewrite He2, He. views. reflexivity.
  - views. rewrite Ha2, Ha. views. reflexivity.
  - rewrite Hclk2, Hclk, off_reports_length by lia. lia.
  - auto.
Qed.

(** ** One turn of the arbiter loop *)

(** Neither block runs. *)
Lemma wp_iteration_quiet Q w :
  debounce_due w = false -> cleanup_due w = false ->
  wp (vTaskDelay 10) Q (flag_reset w) ->
  wp mode_sync_iteration Q w.
Proof.
  intros Hd Hc H. unfold mode_sync_iteration.
  unfold debounce_due, cleanup_due, time_since_tap_ms, time_since_exec_ms in *.
  destruct w as [g clk q tr]. unfold_vars.
  wp_steps. rewrite Hd. wp_steps. rewrite Hc. wp_steps.
  unfold flag_reset in H. unfold_vars.
  destruct ((g_target_mode g >=? 0) && cleanup_done g); wp_steps; exact H.
Qed.

(** The debounce has run out, less than five seconds after the tap: the
    execution runs, the cleanup (which goes by the times sampled before the
    execution) does not, and no target is left to clear the flag. *)
Lemma wp_iteration_exec Q w :
  debounce_due w = true -> g_target_mode (w_globals w) <= 3 ->
  time_since_tap_ms w < 5000 ->
  (forall w1, executed (w_clock w) w w1 -> wp (vTaskDelay 10) Q w1) ->
  wp mode_sync_iteration Q w.
Proof.
  intros Hd Ht Hts H. unfold mode_sync_iteration.
  unfold debounce_due, time_since_tap_ms, time_since_exec_ms in *.
  destruct w as [g clk q tr]. unfold_vars.
  wp_steps. rewrite Hd. cbn [when].
  assert (Ht0 : 0 <= g_target_mode g).
  { apply andb_true_iff in Hd. destruct Hd as [Hd _].
    apply andb_true_iff in Hd. destruct Hd as [Hd _].
    rewrite Z.geb_leb in Hd. apply Z.leb_le in Hd. exact Hd. }
  eapply wp_conseq; [apply wp_primary_execution; unfold_vars; lia|].
  cbn beta. intros _ w1 Hex.
  pose proof Hex as (e1 & e2 & e3 & e4 & e5 & e6 & e7 & e8 & _).
  unfold_vars.
  wp_steps.
  replace (Z.quot (clk - g_last_tap_time g) 1000 >=? 5000) with false
    by (symmetry; rewrite Z.geb_leb; apply Z.leb_gt; lia).
  rewrite andb_false_r. cbn [andb when]. wp_steps.
  rewrite e4. cbn [Z.geb Z.compare andb when]. wp_steps.
  apply H, Hex.
Qed.

(** Only the cleanup runs. *)
Lemma wp_iteration_cleanup Q w :
  debounce_due w = false -> cleanup_due w = true ->
  0 <= g_current_mode (w_globals w) <= 3 ->
  (forall w1, reasserted w w1 ->
     wp (vTaskDelay 10) Q
       (if g_target_mode (w_globals w) >=? 0
        then mkWorld (set_cleanup_done false (w_globals w1)) (w_clock w1)
               (w_pending w1)
               (w_trace w1 ++ [(w_clock w1, EvLog LogCleanupFlagReset)])
        else w1)) ->
  wp mode_sync_iteration Q w.
Proof.
  intros Hd Hc Hcur H. unfold mode_sync_iteration.
  unfold debounce_due, cleanup_due, time_since_tap_ms, time_since_exec_ms in *.
  destruct w as [g clk q tr]. unfold_vars.
  wp_steps. rewrite Hd. wp_steps. rewrite Hc. cbn [when].
  eapply wp_conseq; [apply wp_safety_cleanup; unfold_vars; exact Hcur|].
  cbn beta. intros _ w1 Hre.
  pose proof Hre as (e1 & e2 & e3 & e4 & e5 & e6 & e7 & e8 & _).
  unfold_vars. specialize (H w1 Hre). wp_steps.
  rewrite e4, e8, andb_true_r.
  destruct (g_target_mode g >=? 0); wp_steps; exact H.
Qed.

(** ** Taps *)

Lemma ids_distinct a :
  NoDup (ids_list a) ->
  id0 a <> id1 a /\ id0 a <> id2 a /\ id0 a <> id3 a
  /\ id1 a <> id2 a /\ id1 a <> id3 a /\ id2 a <> id3 a.
Proof.
  unfold ids_list. intros H. apply NoDup_ListNoDup in H.
  inversion H as [|? ? H1 Hnd1]; subst.
  inversion Hnd1 as [|? ? H2 Hnd2]; subst.
  inversion Hnd2 as [|? ? H3 Hnd3]; subst.
  cbn in *. intuition congruence.
Qed.

(** An "on" command for the endpoint of mode [m], outside a sync: the
    target and the tap time are recorded. *)
Lemma wp_tap m id w :
  plugin_id (g_mode_plugin_ids (w_globals w)) m = Some id ->
  NoDup (ids_list (g_mode_plugin_ids (w_globals w))) ->
  g_syncing_modes (w_globals w) = false ->
  wp (app_attribute_update_cb (tap id))
    (fun _ w' =>
       callback_frame w w'
       /\ g_target_mode (w_globals w') = m
       /\ g_last_tap_time (w_globals w') = w_clock w
       /\ w_clock w' = w_clock w
       /\ w_pending w' = w_pending w) w.
Proof.
  intros Hid Hnd Hsync.
  destruct (ids_distinct _ Hnd) as (d01 & d02 & d03 & d12 & d13 & d23).
  destruct w as [g clk q tr]. unfold_vars.
  assert (Hm : (m = 0 /\ id = id0 (g_mode_plugin_ids g))
               \/ (m = 1 /\ id = id1 (g_mode_plugin_ids g))
               \/ (m = 2 /\ id = id2 (g_mode_plugin_ids g))
               \/ (m = 3 /\ id = id3 (g_mode_plugin_ids g))).
  { unfold plugin_id in Hid.
    destruct (Z.eqb_spec m 0); [left; split; congruence|].
    destruct (Z.eqb_spec m 1); [right; left; split; congruence|].
    destruct (Z.eqb_spec m 2); [right; right; left; split; congruence|].
    destruct (Z.eqb_spec m 3); [right; right; right; split; congruence|].
    discriminate. }
  unfold app_attribute_update_cb, start_pulse, tap.
  destruct Hm as [[-> ->] | [[-> ->] | [[-> ->] | [-> ->]]]];
  cbn [mode_plugin_scan plugin_id Z.eqb Pos.eqb cb_type cb_endpoint_id
       cb_cluster_id cb_attribute_id cb_val_b OnOff_Id
       OnOff_Attributes_OnOff_Id andb when].
  all: wp_auto; unfold_vars;
    repeat match goal with
      | H : context [_ && true] |- _ => rewrite andb_true_r in H
      | H : (_ =? _) = true |- _ => apply Z.eqb_eq in H
      | H : (_ =? _) = false |- _ => apply Z.eqb_neq in H
      end;
    try congruence;
    (split; [|repeat split; congruence]);
    unfold callback_frame, vars_frame; unfold_vars; views;
    repeat split; try reflexivity; try congruence; try lia.
Qed.

(** ** Delays with a known queue *)

Lemma wp_vTaskDelay_unfold ms (Q : unit -> world -> Prop) w :
  wp (deliver (w_clock w + ms * 1000) (w_pending w))
    (fun _ w1 => Q tt (mkWorld (w_globals w1) (w_clock w + ms * 1000)
                         (w_pending w1) (w_trace w1))) w ->
  wp (vTaskDelay ms) Q w.
Proof.
  intros H. unfold vTaskDelay. apply wp_bind.
  eapply wp_conseq; [exact H|]. cbn beta. intros _ w1 HQ.
  eexists _, _. split; [reflexivity | exact HQ].
Qed.

Lemma wp_deliver_nil until (Q : unit -> world -> Prop) w :
  Q tt (mkWorld (w_globals w) (w_clock w) [] (w_trace w)) ->
  wp (deliver until []) Q w.
Proof. intros H. eexists _, _. split; [reflexivity | exact H]. Qed.

Lemma wp_deliver_later until t a q (Q : unit -> world -> Prop) w :
  until < t ->
  Q tt (mkWorld (w_globals w) (w_clock w) ((t, a) :: q) (w_trace w)) ->
  wp (deliver until ((t, a) :: q)) Q w.
Proof.
  intros Ht H. cbn [deliver].
  replace (t <=? until) with false by (symmetry; apply Z.leb_gt; lia).
  eexists _, _. split; [reflexivity | exact H].
Qed.

Lemma wp_deliver_due until t a q (Q : unit -> world -> Prop) w :
  t <= until ->
  wp (app_attribute_update_cb a) (fun _ w2 => wp (deliver until q) Q w2)
    (mkWorld (w_globals w) (Z.max (w_clock w) t) q (w_trace w)) ->
  wp (deliver until ((t, a) :: q)) Q w.
Proof.
  intros Ht H. cbn [deliver].
  replace (t <=? until) with true by (symmetry; apply Z.leb_le; lia).
  apply wp_bind in H. exact H.
Qed.

Lemma quot_ms_lt a k : 0 <= a < k * 1000 -> Z.quot a 1000 < k.
Proof.
  intros H. rewrite Z.quot_div_nonneg by lia.
  apply Z.div_lt_upper_bound; lia.
Qed.

Lemma quot_ms_ge a k : k * 1000 <= a -> 0 <= k -> k <= Z.quot a 1000.
Proof.
  intros H Hk. rewrite Z.quot_div_nonneg by lia.
  apply Z.div_le_lower_bound; lia.
Qed.

Lemma geb_false a b : a < b -> (a >=? b) = false.
Proof. intros H. rewrite Z.geb_leb. apply Z.leb_gt. lia. Qed.

Lemma geb_true a b : b <= a -> (a >=? b) = true.
Proof. intros H. rewrite Z.geb_leb. apply Z.leb_le. lia. Qed.

(** The flag reset at the end of a turn touches the one-shot flag and the
    log only. *)
Lemma flag_reset_frame w :
  w_clock (flag_reset w) = w_clock w
  /\ w_pending (flag_reset w) = w_pending w
  /\ g_mode_plugin_ids (w_globals (flag_reset w))
     = g_mode_plugin_ids (w_globals w)
  /\ g_target_mode (w_globals (flag_reset w)) = g_target_mode (w_globals w)
  /\ g_last_tap_time (w_globals (flag_reset w))
     = g_last_tap_time (w_globals w)
  /\ g_last_execution_time (w_globals (flag_reset w))
     = g_last_execution_time (w_globals w)
  /\ g_syncing_modes (w_globals (flag_reset w))
     = g_syncing_modes (w_globals w)
  /\ g_current_mode (w_globals (flag_reset w))
     = g_current_mode (w_globals w)
  /\ executions (w_trace (flag_reset w)) = executions (w_trace w)
  /\ reassertions (w_trace (flag_reset w)) = reassertions (w_trace w)
  /\ reports (w_trace (flag_reset w)) = reports (w_trace w)
  /\ cleanup_done (w_globals (flag_reset w))
     = cleanup_done (w_globals w)
       && negb (g_target_mode (w_globals w) >=? 0).
Proof.
  unfold flag_reset.
  destruct (g_target_mode (w_globals w) >=? 0) eqn:E1;
    destruct (cleanup_done (w_globals w)) eqn:E2;
    cbn [andb negb]; unfold_vars; views; rewrite ?E1, ?E2; auto 14.
Qed.

(** ** The debounce scenario *)

Lemma first_tap_pending_turn ids c w :
  first_tap_pending ids c w -> 0 <= c -> c + 10000 < 50000 ->
  wp mode_sync_iteration (fun _ w' => first_tap_pending ids (c + 10000) w') w.
Proof.
  intros (Hc & Hq & Hids & Ht & Htap & Hs & Hcur & Hex) Hc0 Hc1.
  destruct (flag_reset_frame w)
    as (f1 & f2 & f3 & f4 & f5 & f6 & f7 & f8 & f9 & f10 & f11 & f12).
  apply wp_iteration_quiet.
  - unfold debounce_due, time_since_tap_ms. rewrite Hc, Htap.
    rewrite (geb_false (Z.quot (c - 0) 1000) 200)
      by (apply quot_ms_lt; lia).
    apply andb_false_r.
  - unfold cleanup_due, time_since_tap_ms. rewrite Hc, Htap.
    rewrite (geb_false (Z.quot (c - 0) 1000) 5000)
      by (apply quot_ms_lt; lia).
    rewrite andb_false_r. reflexivity.
  - apply wp_vTaskDelay_unfold. rewrite f1, f2, Hq, Hc.
    apply wp_deliver_later; [lia|]. unfold_vars.
    unfold first_tap_pending. unfold_vars.
    repeat split; try congruence; lia.
Qed.

Lemma first_tap_pending_last_turn ids c w :
  first_tap_pending ids c w -> NoDup (ids_list ids) ->
  0 <= c < 50000 -> 50000 <= c + 10000 ->
  wp mode_sync_iteration (fun _ w' => second_tap_pending (c + 10000) w') w.
Proof.
  intros (Hc & Hq & Hids & Ht & Htap & Hs & Hcur & Hex) Hnd Hc0 Hc1.
  destruct (flag_reset_frame w)
    as (f1 & f2 & f3 & f4 & f5 & f6 & f7 & f8 & f9 & f10 & f11 & f12).
  apply wp_iteration_quiet.
  - unfold debounce_due, time_since_tap_ms. rewrite Hc, Htap.
    rewrite (geb_false (Z.quot (c - 0) 1000) 200)
      by (apply quot_ms_lt; lia).
    apply andb_false_r.
  - unfold cleanup_due, time_since_tap_ms. rewrite Hc, Htap.
    rewrite (geb_false (Z.quot (c - 0) 1000) 5000)
      by (apply quot_ms_lt; lia).
    rewrite andb_false_r. reflexivity.
  - apply wp_vTaskDelay_unfold. rewrite f1, f2, Hq, Hc.
    apply wp_deliver_due; [lia|].
    eapply wp_conseq; [apply (wp_tap 1); unfold_vars|].
    + rewrite f3, Hids. reflexivity.
    + rewrite f3, Hids. exact Hnd.
    + congruence.
    + cbn beta. unfold_vars.
      intros _ w2 (((v1 & v2 & v3 & v4 & v5 & v6 & v7 & v8) & Hr & He & Ha)
                   & Ht2 & Htap2 & Hc2 & Hq2).
      apply wp_deliver_nil. unfold second_tap_pending. unfold_vars.
      repeat split; try congruence; try lia.
Qed.

Lemma second_tap_pending_turn c w :
  second_tap_pending c w -> 50000 <= c < 250000 ->
  wp mode_sync_iteration (fun _ w' => second_tap_pending (c + 10000) w') w.
Proof.
  intros (Hc & Hq & Ht & Htap & Hs & Hcur & Hex) Hc0.
  destruct (flag_reset_frame w)
    as (f1 & f2 & f3 & f4 & f5 & f6 & f7 & f8 & f9 & f10 & f11 & f12).
  apply wp_iteration_quiet.
  - unfold debounce_due, time_since_tap_ms. rewrite Hc, Htap.
    rewrite (geb_false (Z.quot (c - 50000) 1000) 200)
      by (apply quot_ms_lt; lia).
    apply andb_false_r.
  - unfold cleanup_due, time_since_tap_ms. rewrite Hc, Htap.
    rewrite (geb_false (Z.quot (c - 50000) 1000) 5000)
      by (apply quot_ms_lt; lia).
    rewrite andb_false_r. reflexivity.
  - apply wp_vTaskDelay_idle; [congruence|].
    unfold second_tap_pending. unfold_vars.
    repeat split; try congruence; lia.
Qed.

Lemma second_tap_pending_execution c w :
  second_tap_pending c w -> 250000 <= c < 260000 ->
  wp mode_sync_iteration (fun _ w' => settled_in_mode_1 c w') w.
Proof.
  intros (Hc & Hq & Ht & Htap & Hs & Hcur & Hex) Hc0.
  apply wp_iteration_exec.
  - unfold debounce_due, time_since_tap_ms. rewrite Hc, Htap, Ht.
    replace (1 =? g_current_mode (w_globals w)) with false
      by (symmetry; apply Z.eqb_neq; congruence).
    rewrite (geb_true (Z.quot (c - 50000) 1000) 200)
      by (apply quot_ms_ge; lia).
    reflexivity.
  - lia.
  - unfold time_since_tap_ms. rewrite Hc, Htap. apply quot_ms_lt. lia.
  - intros w1 (e1 & e2 & e3 & e4 & e5 & e6 & e7 & e8 & _ & e10 & e11 & e12
               & e13).
    apply wp_vTaskDelay_idle; [auto|].
    unfold settled_in_mode_1. unfold_vars.
    repeat split; try congruence.
    rewrite e10, Hex, Hc, Ht. reflexivity.
Qed.

Lemma settled_in_mode_1_turn t w :
  settled_in_mode_1 t w ->
  wp mode_sync_iteration (fun _ w' => settled_in_mode_1 t w') w.
Proof.
  intros (Hq & Ht & Hcur & Hex).
  assert (Hd : debounce_due w = false).
  { unfold debounce_due. rewrite Ht. reflexivity. }
  destruct (cleanup_due w) eqn:Hcl.
  - apply wp_iteration_cleanup; [exact Hd | exact Hcl | lia |].
    intros w1 (e1 & e2 & e3 & e4 & e5 & e6 & e7 & e8 & _ & e10 & e11 & e12
               & e13).
    rewrite Ht. cbn [Z.geb Z.compare].
    apply wp_vTaskDelay_idle; [auto|].
    unfold settled_in_mode_1. unfold_vars.
    repeat split; try congruence; auto.
  - apply wp_iteration_quiet; [exact Hd | exact Hcl |].
    unfold flag_reset. rewrite Ht. cbn [Z.geb Z.compare andb].
    apply wp_vTaskDelay_idle; [exact Hq|].
    unfold settled_in_mode_1. unfold_vars. auto.
Qed.

Lemma wp_mode_sync_task_invariant (P : world -> Prop) n :
  (forall w, P w -> wp mode_sync_iteration (fun _ w' => P w') w) ->
  forall w, P w -> wp (mode_sync_task n) (fun _ w' => P w') w.
Proof.
  intros Hstep. induction n as [|n IH]; intros w HP; cbn [mode_sync_task].
  - apply wp_ret, HP.
  - apply wp_bind. eapply wp_conseq; [apply Hstep, HP|].
    cbn beta. intros _ w1 HP1. apply IH, HP1.
Qed.

Lemma wp_mode_sync_task_S n Q w :
  wp mode_sync_iteration (fun _ w1 => wp (mode_sync_task n) Q w1) w ->
  wp (mode_sync_task (S n)) Q w.
Proof. intros H. cbn [mode_sync_task]. apply wp_bind, H. Qed.

Lemma debounce_phase_turn ids c0 k w :
  NoDup (ids_list ids) -> 0 <= c0 < 10000 -> 0 <= k ->
  debounce_phase ids c0 k w ->
  wp mode_sync_iteration (fun _ w' => debounce_phase ids c0 (k + 1) w') w.
Proof.
  intros Hnd Hc0 Hk. unfold debounce_phase.
  replace (c0 + 10000 * (k + 1)) with (c0 + 10000 * k + 10000) by lia.
  destruct (Z.ltb_spec k 5); [|destruct (Z.ltb_spec k 26)]; intros Hph.
  - destruct (Z.ltb_spec (k + 1) 5).
    + apply first_tap_pending_turn; [exact Hph | lia | lia].
    + replace (k + 1 <? 26) with true by (symmetry; apply Z.ltb_lt; lia).
      apply (first_tap_pending_last_turn ids);
        [exact Hph | exact Hnd | lia | lia].
  - replace (k + 1 <? 5) with false by (symmetry; apply Z.ltb_ge; lia).
    destruct (Z.ltb_spec (k + 1) 26).
    + apply second_tap_pending_turn; [exact Hph | lia].
    + assert (k = 25) as -> by lia.
      replace (c0 + 250000) with (c0 + 10000 * 25) by lia.
      apply second_tap_pending_execution; [exact Hph | lia].
  - replace (k + 1 <? 5) with false by (symmetry; apply Z.ltb_ge; lia).
    replace (k + 1 <? 26) with false by (symmetry; apply Z.ltb_ge; lia).
    apply settled_in_mode_1_turn. exact Hph.
Qed.

Lemma debounce_phase_task ids c0 n : forall k w,
  NoDup (ids_list ids) -> 0 <= c0 < 10000 -> 0 <= k ->
  debounce_phase ids c0 k w ->
  wp (mode_sync_task n)
    (fun _ w' => debounce_phase ids c0 (k + Z.of_nat n) w') w.
Proof.
  induction n as [|n IH]; intros k w Hnd Hc0 Hk H; cbn [mode_sync_task].
  - apply wp_ret. replace (k + Z.of_nat 0) with k by lia. exact H.
  - apply wp_bind.
    eapply wp_conseq; [apply (debounce_phase_turn ids c0 k); assumption|].
    cbn beta. intros _ w1 H1.
    replace (k + Z.of_nat (S n)) with (k + 1 + Z.of_nat n) by lia.
    apply IH; [exact Hnd | exact Hc0 | lia | exact H1].
Qed.

Lemma debounce_phase_executions ids c0 k w :
  debounce_phase ids c0 k w ->
  executions (w_trace w) = if k <? 26 then [] else [(c0 + 250000, 1)].
Proof.
  unfold debounce_phase.
  destruct (Z.ltb_spec k 5); [|destruct (Z.ltb_spec k 26)]; intros Hph.
  - replace (k <? 26) with true by (symmetry; apply Z.ltb_lt; lia).
    apply Hph.
  - apply Hph.
  - apply Hph.
Qed.

(** The two taps, the first one ingested before the loop samples the clock
    at 0 ms. *)
Lemma debounce_start g :
  NoDup (ids_list (g_mode_plugin_ids g)) ->
  g_current_mode g <> 1 -> g_syncing_modes g = false ->
  wp (vTaskDelay 0)
    (fun _ w' => debounce_phase (g_mode_plugin_ids g) 0 0 w')
    (mkWorld g 0
       [(0, tap (id2 (g_mode_plugin_ids g)));
        (50000, tap (id1 (g_mode_plugin_ids g)))] []).
Proof.
  intros Hnd Hcur Hs.
  apply wp_vTaskDelay_unfold. unfold_vars.
  apply wp_deliver_due; [lia|]. unfold_vars.
  eapply wp_conseq; [apply (wp_tap 2); unfold_vars; auto|].
  cbn beta. unfold_vars.
  intros _ w2 (((v1 & v2 & v3 & v4 & v5 & v6 & v7 & v8) & Hr & He & Ha)
               & Ht2 & Htap2 & Hc2 & Hq2).
  apply wp_deliver_later; [lia|].
  unfold debounce_phase, first_tap_pending. cbn [Z.ltb Z.compare]. unfold_vars.
  change (Z.max 0 0) with 0 in *.
  repeat split; try congruence; exact He.
Qed.

(** The same with the loop out of step with the taps: its previous turn
    went to sleep at [c0 - 10] ms, so that its turns start at [c0], [c0 +
    10] ms and so on. *)
Lemma debounce_start_any_phase g c0 :
  NoDup (ids_list (g_mode_plugin_ids g)) ->
  g_current_mode g <> 1 -> g_syncing_modes g = false ->
  0 <= c0 < 10000 ->
  wp (vTaskDelay 10)
    (fun _ w' => debounce_phase (g_mode_plugin_ids g) c0 0 w')
    (mkWorld g (c0 - 10000)
       [(0, tap (id2 (g_mode_plugin_ids g)));
        (50000, tap (id1 (g_mode_plugin_ids g)))] []).
Proof.
  intros Hnd Hcur Hs Hc0.
  apply wp_vTaskDelay_unfold. unfold_vars.
  apply wp_deliver_due; [lia|]. unfold_vars.
  eapply wp_conseq; [apply (wp_tap 2); unfold_vars; auto|].
  cbn beta. unfold_vars.
  intros _ w2 (((v1 & v2 & v3 & v4 & v5 & v6 & v7 & v8) & Hr & He & Ha)
               & Ht2 & Htap2 & Hc2 & Hq2).
  apply wp_deliver_later; [lia|].
  unfold debounce_phase, first_tap_pending. cbn [Z.ltb Z.compare]. unfold_vars.
  rewrite Z.max_r in * by lia.
  repeat split; try congruence; try lia; exact He.
Qed.

(** Whatever the phase of the loop, the only execution is the one to mode
    1, in the first turn that starts at or after 250 ms. *)
Lemma debounce_collapse_any_phase g c0 n :
  NoDup (ids_list (g_mode_plugin_ids g)) ->
  g_current_mode g <> 1 -> g_syncing_modes g = false ->
  0 <= c0 < 10000 ->
  wp (vTaskDelay 10;; mode_sync_task n)
    (fun _ w' =>
       executions (w_trace w')
       = if Z.of_nat n <? 26 then [] else [(c0 + 250000, 1)])
    (mkWorld g (c0 - 10000)
       [(0, tap (id2 (g_mode_plugin_ids g)));
        (50000, tap (id1 (g_mode_plugin_ids g)))] []).
Proof.
  intros Hnd Hcur Hs Hc0. apply wp_bind.
  eapply wp_conseq; [apply debounce_start_any_phase; assumption|].
  cbn beta. intros _ w0 H0.
  eapply wp_conseq;
    [apply (debounce_phase_task (g_mode_plugin_ids g) c0 n 0);
     [exact Hnd | exact Hc0 | lia | exact H0]|].
  cbn beta. intros _ w' H'.
  exact (debounce_phase_executions _ _ _ _ H').
Qed.

(** ** The one-shot cleanup *)

Lemma quot_ms_ge_inv a k : 0 < k -> k <= Z.quot a 1000 -> k * 1000 <= a.
Proof.
  intros Hk H. destruct (Z.lt_ge_cases a (k * 1000)) as [Hlt|]; [|lia].
  destruct (Z.lt_ge_cases a 0) as [Hneg|Hpos].
  - pose proof (Z.quot_opp_l a 1000 ltac:(lia)) as Ho.
    pose proof (Z.quot_pos (- a) 1000 ltac:(lia) ltac:(lia)). lia.
  - pose proof (quot_ms_lt a k ltac:(lia)). lia.
Qed.

(** With a target pending that equals the current mode, a turn re-asserts
    and leaves things as they were, 90 ms later. *)
Lemma stuck_target_turn w :
  stuck_target w ->
  wp mode_sync_iteration
    (fun _ w' =>
       stuck_target w'
       /\ reassertions (w_trace w') = reassertions (w_trace w) ++ [w_clock w]
       /\ executions (w_trace w') = executions (w_trace w)
       /\ w_clock w' = w_clock w + 90000) w.
Proof.
  intros (Hq & Ht & Hcur & Hcd & Hex & Htap).
  apply wp_iteration_cleanup.
  - unfold debounce_due. rewrite Ht, Z.eqb_refl, andb_false_r. reflexivity.
  - unfold cleanup_due, time_since_exec_ms, time_since_tap_ms.
    rewrite !geb_true by (apply quot_ms_ge; lia). rewrite Hcd. reflexivity.
  - exact Hcur.
  - intros w1 (e1 & e2 & e3 & e4 & e5 & e6 & e7 & e8 & _ & e10 & e11 & e12
               & e13).
    rewrite (geb_true (g_target_mode (w_globals w)) 0) by lia.
    apply wp_vTaskDelay_idle; [unfold_vars; auto|].
    unfold stuck_target. unfold_vars. views.
    repeat split; try congruence; try lia; auto.
Qed.

Lemma stuck_target_task n : forall w,
  stuck_target w ->
  wp (mode_sync_task n)
    (fun _ w' =>
       stuck_target w'
       /\ length (reassertions (w_trace w'))
          = (length (reassertions (w_trace w)) + n)%nat
       /\ executions (w_trace w') = executions (w_trace w)) w.
Proof.
  induction n as [|n IH]; intros w H; cbn [mode_sync_task].
  - apply wp_ret. repeat split; try apply H; auto.
  - apply wp_bind. eapply wp_conseq; [apply stuck_target_turn, H|].
    cbn beta. intros _ w1 (H1 & Hr1 & He1 & _).
    eapply wp_conseq; [apply IH, H1|]. cbn beta.
    intros _ w2 (H2 & Hr2 & He2).
    split; [exact H2|]. split; [|congruence].
    rewrite Hr2, Hr1, length_app. cbn [length]. lia.
Qed.

(** With no target pending and the flag clear, a turn either does nothing
    or makes the one re-assertion, five seconds after the execution at the
    earliest; with the flag set, a turn does nothing. *)
Lemma cleanup_armed_turn T R w :
  cleanup_armed T R w ->
  wp mode_sync_iteration
    (fun _ w' => cleanup_armed T R w' \/ cleanup_fired T R w') w.
Proof.
  intros (Hq & Ht & Hcur & Hex & Hcd & Hr).
  assert (Hd : debounce_due w = false).
  { unfold debounce_due. rewrite Ht. reflexivity. }
  destruct (cleanup_due w) eqn:Hcl.
  - apply wp_iteration_cleanup; [exact Hd | exact Hcl | exact Hcur |].
    intros w1 (e1 & e2 & e3 & e4 & e5 & e6 & e7 & e8 & _ & e10 & e11 & e12
               & e13).
    rewrite Ht. cbn [Z.geb Z.compare].
    apply wp_vTaskDelay_idle; [auto|].
    right. unfold cleanup_fired. unfold_vars.
    repeat split; try congruence; auto.
    exists (w_clock w). split; [|congruence].
    unfold cleanup_due, time_since_exec_ms in Hcl.
    apply andb_true_iff in Hcl. destruct Hcl as [Hcl _].
    apply andb_true_iff in Hcl. destruct Hcl as [Hcl _].
    rewrite Z.geb_leb in Hcl. apply Z.leb_le in Hcl.
    apply quot_ms_ge_inv in Hcl; lia.
  - apply wp_iteration_quiet; [exact Hd | exact Hcl |].
    unfold flag_reset. rewrite Ht. cbn [Z.geb Z.compare andb].
    apply wp_vTaskDelay_idle; [exact Hq|].
    left. unfold cleanup_armed. unfold_vars. auto 10.
Qed.

Lemma cleanup_fired_turn T R w :
  cleanup_fired T R w ->
  wp mode_sync_iteration (fun _ w' => cleanup_fired T R w') w.
Proof.
  intros (Hq & Ht & Hcd & Hr).
  apply wp_iteration_quiet.
  - unfold debounce_due. rewrite Ht. reflexivity.
  - unfold cleanup_due. rewrite Hcd. apply andb_false_r.
  - unfold flag_reset. rewrite Ht. cbn [Z.geb Z.compare andb].
    apply wp_vTaskDelay_idle; [exact Hq|].
    unfold cleanup_fired. unfold_vars. auto.
Qed.

(** So, without further taps, a settled execution is followed by at most one
    re-assertion, [5000] ms after it at the earliest, however long the loop
    runs. *)
Lemma cleanup_at_most_once T R n : forall w,
  cleanup_armed T R w \/ cleanup_fired T R w ->
  wp (mode_sync_task n)
    (fun _ w' => cleanup_armed T R w' \/ cleanup_fired T R w') w.
Proof.
  apply wp_mode_sync_task_invariant. intros w [H | H].
  - apply cleanup_armed_turn, H.
  - eapply wp_conseq; [apply cleanup_fired_turn, H|]. cbn beta. auto.
Qed.

(** ** The loop stays within its tables *)

Lemma callback_frame_in_range w w' :
  callback_frame w w' -> modes_in_range w -> modes_in_range w'.
Proof.
  intros ((v1 & v2 & v3 & v4 & v5 & v6 & v7 & v8) & _) [Ht Hc].
  split; [auto | rewrite v3; exact Hc].
Qed.

(** Every turn returns, whatever callbacks arrive: [mode_names] and
    [g_mode_plugin_ids] are indexed with a mode only. *)
Lemma mode_sync_iteration_in_range w :
  modes_in_range w ->
  wp mode_sync_iteration (fun _ w' => modes_in_range w') w.
Proof.
  intros Hin. unfold mode_sync_iteration. wp_steps.
  set (c1 := _ && _ && (_ >=? 200)). set (c2 := _ >=? 5000).
  set (c3 := _ >=? 5000).
  apply wp_conseq with (Q := fun _ w1 => modes_in_range w1).
  - apply wp_when; [|intros _; exact Hin].
    intros Hc1. subst c1.
    apply andb_true_iff in Hc1. destruct Hc1 as [Hc1 _].
    apply andb_true_iff in Hc1. destruct Hc1 as [Hc1 _].
    rewrite Z.geb_leb in Hc1. apply Z.leb_le in Hc1.
    destruct Hin as [Ht Hc].
    eapply wp_conseq; [apply wp_primary_execution; lia|]. cbn beta.
    intros _ w1 (e1 & e2 & e3 & e4 & _). unfold modes_in_range.
    rewrite e3, e4. lia.
  - cbn beta. intros _ w1 Hin1. wp_steps.
    apply wp_conseq with (Q := fun _ w2 => modes_in_range w2).
    + apply wp_when; [|intros _; exact Hin1].
      intros _. eapply wp_conseq; [apply wp_safety_cleanup, Hin1|].
      cbn beta. intros _ w2 (e1 & e2 & e3 & e4 & _). unfold modes_in_range.
      rewrite e3, e4. exact Hin1.
    + cbn beta. intros _ w2 Hin2. wp_steps.
      apply wp_conseq with (Q := fun _ w3 => modes_in_range w3).
      * apply wp_when; [|intros _; exact Hin2].
        intros _. wp_steps. exact Hin2.
      * cbn beta. intros _ w3 Hin3.
        apply wp_vTaskDelay_frame. intros w4 Hf _ _.
        exact (callback_frame_in_range _ _ Hf Hin3).
Qed.

Lemma mode_sync_task_in_range n w :
  modes_in_range w ->
  wp (mode_sync_task n) (fun _ w' => modes_in_range w') w.
Proof.
  apply (wp_mode_sync_task_invariant modes_in_range).
  apply mode_sync_iteration_in_range.
Qed.

(** ** The second embedding agrees with the first *)

Lemma bind_ext {A B} (m m' : M A) (k k' : A -> M B) w :
  m w = m' w -> (forall a w1, k a w1 = k' a w1) -> bind m k w = bind m' k' w.
Proof.
  intros Hm Hk. unfold bind. rewrite Hm.
  destruct (m' w) as [[a w1]|]; [apply Hk | reflexivity].
Qed.

Lemma bind_ret_r {A} (m : M A) w : bind m ret w = m w.
Proof. unfold bind, ret. destruct (m w) as [[a w1]|]; reflexivity. Qed.

Lemma bind_ret_tt (m : M unit) w : bind m (fun _ => ret tt) w = m w.
Proof. unfold bind, ret. destruct (m w) as [[[] w1]|]; reflexivity. Qed.

Lemma bind_assoc {A B C} (m : M A) (k : A -> M B) (h : B -> M C) w :
  bind (bind m k) h w = bind m (fun a => bind (k a) h) w.
Proof. unfold bind. destruct (m w) as [[a w1]|]; reflexivity. Qed.

Lemma run_tbind {A B} (t : Tasks.task A) (k : A -> Tasks.task B) : forall w,
  Tasks.run (Tasks.tbind t k) w
  = bind (Tasks.run t) (fun a => Tasks.run (k a)) w.
Proof.
  induction t as [a | C m k' IH | ms k' IH]; intros w.
  - reflexivity.
  - cbn [Tasks.tbind Tasks.run].
    etransitivity; [|symmetry; apply bind_assoc].
    apply bind_ext; [reflexivity | intros b w1; apply IH].
  - cbn [Tasks.tbind Tasks.run].
    etransitivity; [|symmetry; apply bind_assoc].
    apply bind_ext; [reflexivity | intros b w1; apply IH].
Qed.

Lemma run_act {A} (m : M A) w : Tasks.run (Tasks.act m) w = m w.
Proof. cbn [Tasks.run Tasks.act]. apply bind_ret_r. Qed.

Lemma run_vTaskDelay ms w : Tasks.run (Tasks.vTaskDelay ms) w = vTaskDelay ms w.
Proof.
  cbn [Tasks.run Tasks.vTaskDelay].
  etransitivity; [apply bind_ret_tt | reflexivity].
Qed.

(** Both embeddings are stepped through side by side. *)
Ltac run_eq :=
  repeat (cbv zeta;
          first [ reflexivity
                | apply run_act
                | apply run_vTaskDelay
                | rewrite run_tbind; apply bind_ext; [|intros ? ?]
                | match goal with
                  | |- context [if ?c then _ else _] => destruct c
                  end ]).

Lemma run_led_blink_loop n : forall i count on_ms off_ms w,
  Tasks.run (Tasks.led_blink_loop n i count on_ms off_ms) w
  = led_blink_loop n i count on_ms off_ms w.
Proof.
  induction n as [|n IH]; intros i count on_ms off_ms w; [reflexivity|].
  cbn [Tasks.led_blink_loop led_blink_loop]. unfold Tasks.when, when.
  run_eq; apply IH.
Qed.

Lemma run_led_blink count on_ms off_ms w :
  Tasks.run (Tasks.led_blink count on_ms off_ms) w
  = led_blink count on_ms off_ms w.
Proof. apply run_led_blink_loop. Qed.

Lemma run_handle_cmd_hello payload len w :
  Tasks.run (Tasks.handle_cmd_hello payload len) w
  = handle_cmd_hello payload len w.
Proof.
  unfold Tasks.handle_cmd_hello, handle_cmd_hello. run_eq; try apply run_led_blink.
Qed.

Lemma run_handle_cmd_ping payload len w :
  Tasks.run (Tasks.handle_cmd_ping payload len) w
  = handle_cmd_ping payload len w.
Proof.
  unfold Tasks.handle_cmd_ping, handle_cmd_ping. run_eq; try apply run_led_blink.
Qed.

Lemma run_handle_cmd_trigger payload len w :
  Tasks.run (Tasks.handle_cmd_trigger payload len) w
  = handle_cmd_trigger payload len w.
Proof.
  unfold Tasks.handle_cmd_trigger, handle_cmd_trigger. run_eq; try apply run_led_blink.
Qed.

Lemma run_handle_cmd_set_mode payload len w :
  Tasks.run (Tasks.handle_cmd_set_mode payload len) w
  = handle_cmd_set_mode payload len w.
Proof.
  unfold Tasks.handle_cmd_set_mode, handle_cmd_set_mode. run_eq; try apply run_led_blink.
Qed.

Lemma run_dispatch_frame c payload len w :
  Tasks.run (Tasks.dispatch_frame c payload len) w
  = dispatch_frame c payload len w.
Proof.
  unfold Tasks.dispatch_frame, dispatch_frame.
  run_eq;
    first [ apply run_handle_cmd_hello | apply run_handle_cmd_ping
          | apply run_handle_cmd_trigger | apply run_handle_cmd_set_mode
          | apply run_led_blink ].
Qed.

Lemma run_uart_rx_byte rx b w :
  Tasks.run (Tasks.uart_rx_byte rx b) w = uart_rx_byte rx b w.
Proof.
  unfold Tasks.uart_rx_byte, uart_rx_byte.
  run_eq; first [ apply run_dispatch_frame | apply run_led_blink ].
Qed.

Lemma run_uart_rx_bytes data : forall rx w,
  Tasks.run (Tasks.uart_rx_bytes rx data) w = uart_rx_bytes rx data w.
Proof.
  induction data as [|b data IH]; intros rx w; [reflexivity|].
  cbn [Tasks.uart_rx_bytes uart_rx_bytes]. run_eq;
    [apply run_uart_rx_byte | apply IH].
Qed.

Lemma run_report_others_off off_msg todo : forall w,
  Tasks.run (Tasks.report_others_off off_msg todo) w
  = report_others_off off_msg todo w.
Proof.
  induction todo as [|i todo IH]; intros w; [reflexivity|].
  cbn [Tasks.report_others_off report_others_off]. unfold Tasks.when, when.
  run_eq; apply IH.
Qed.

Lemma run_primary_execution now w :
  Tasks.run (Tasks.primary_execution now) w = primary_execution now w.
Proof.
  unfold Tasks.primary_execution, primary_execution. run_eq.
  apply run_report_others_off.
Qed.

Lemma run_safety_cleanup w :
  Tasks.run Tasks.safety_cleanup w = safety_cleanup w.
Proof.
  unfold Tasks.safety_cleanup, safety_cleanup. run_eq.
  apply run_report_others_off.
Qed.

Lemma run_mode_sync_iteration w :
  Tasks.run Tasks.mode_sync_iteration w = mode_sync_iteration w.
Proof.
  unfold Tasks.mode_sync_iteration, mode_sync_iteration.
  unfold Tasks.when, when.
  run_eq; first [ apply run_primary_execution | apply run_safety_cleanup ].
Qed.

Lemma run_mode_sync_task n : forall w,
  Tasks.run (Tasks.mode_sync_task n) w = mode_sync_task n w.
Proof.
  induction n as [|n IH]; intros w; [reflexivity|].
  cbn [Tasks.mode_sync_task mode_sync_task]. run_eq;
    [apply run_mode_sync_iteration | apply IH].
Qed.

Lemma bind_unfold {A B} (m : M A) (k : A -> M B) w :
  bind m k w = match m w with Some (a, w') => k a w' | None => None end.
Proof. reflexivity. Qed.

Lemma run_uart_read_bytes r w :
  Tasks.run (Tasks.uart_read_bytes r) w
  = (vTaskDelay (fst r);; ret (snd r)) w.
Proof. reflexivity. Qed.

(** A task alone in the scheduler does what it does in the first
    embedding. *)
Lemma run_advance {A} (t : Tasks.task A) : forall w,
  Tasks.run t w
  = match Tasks.advance t w with
    | Some (inl a, w1) => Some (a, w1)
    | Some (inr (ms, k), w1) =>
        bind (Tasks.sleep_until (w_clock w1 + ms * 1000))
          (fun _ => Tasks.run k) w1
    | None => None
    end.
Proof.
  induction t as [a | C m k IH | ms k IH]; intros w.
  - reflexivity.
  - cbn [Tasks.run Tasks.advance].
    rewrite (bind_unfold m (fun b => Tasks.run (k b)) w),
      (bind_unfold m (fun b => Tasks.advance (k b)) w).
    destruct (m w) as [[b w1]|]; [apply IH | reflexivity].
  - reflexivity.
Qed.

Lemma schedule_alone fuel : forall t0 k w r,
  Tasks.schedule fuel Tasks.Finished (Tasks.Asleep t0 k) w = Some r ->
  (Tasks.sleep_until t0;; Tasks.run k) w = Some r.
Proof.
  induction fuel as [|fuel IH]; intros t0 k w r; [discriminate|].
  cbn [Tasks.schedule]. unfold Tasks.resume.
  rewrite !bind_unfold.
  destruct (Tasks.sleep_until t0 w) as [[[] w1]|]; [|discriminate].
  rewrite (run_advance k w1), !bind_unfold.
  destruct (Tasks.advance k w1) as [[[[] | [ms k']] w2]|]; [| |discriminate].
  - unfold esp_timer_get_time, ret. destruct fuel; exact (fun H => H).
  - unfold esp_timer_get_time, ret. apply IH.
Qed.

(** ** The receiver, whatever its handlers *)

Lemma uart_rx_byte_with_dispatch_frame rx b :
  uart_rx_byte_with dispatch_frame rx b = uart_rx_byte rx b.
Proof. reflexivity. Qed.

Lemma uart_rx_bytes_with_dispatch_frame data : forall rx w,
  uart_rx_bytes_with dispatch_frame rx data w = uart_rx_bytes rx data w.
Proof.
  induction data as [|b data IH]; intros rx w; [reflexivity|].
  cbn [uart_rx_bytes_with uart_rx_bytes].
  apply bind_ext; [reflexivity | exact IH].
Qed.

Lemma on_frames_dispatch_frame frames :
  on_frames dispatch_frame frames = dispatch_all frames.
Proof.
  induction frames as [|[c p] frames IH]; [reflexivity|].
  cbn [on_frames dispatch_all]. rewrite IH. reflexivity.
Qed.

Section Receiver_with_proofs.

Variable h : Z -> option (list Z) -> Z -> M unit.

(** Outside state 3 the handlers play no part. *)
Lemma uart_rx_byte_with_other rx b w :
  state rx <> 3 -> uart_rx_byte_with h rx b w = uart_rx_byte rx b w.
Proof.
  intros Hs. unfold uart_rx_byte_with, uart_rx_byte.
  destruct (state rx =? 0); [reflexivity|].
  destruct (state rx =? 1); [reflexivity|].
  destruct (state rx =? 2); [reflexivity|].
  destruct (Z.eqb_spec (state rx) 3); [contradiction | reflexivity].
Qed.

Lemma uart_rx_bytes_with_app rx l1 l2 w :
  uart_rx_bytes_with h rx (l1 ++ l2) w
  = bind (uart_rx_bytes_with h rx l1)
      (fun rx' => uart_rx_bytes_with h rx' l2) w.
Proof.
  revert rx w. induction l1 as [|b l1 IH]; intros rx w; [reflexivity|].
  cbn [app uart_rx_bytes_with]. unfold bind in *.
  destruct (uart_rx_byte_with h rx b w) as [[rx1 w1]|]; [|reflexivity].
  apply IH.
Qed.

Lemma rx_with_byte_body pre x post idx fl btr c0 b w :
  idx = Z.of_nat (length pre) -> 0 <= idx < 255 -> 1 <= btr <= 256 ->
  uart_rx_byte_with h (mkRx (pre ++ x :: post) idx 2 fl btr c0) b w
  = Some (mkRx (pre ++ b :: post) (idx + 1)
            (if btr =? 1 then 3 else 2) fl (btr - 1)
            (if idx =? 2 then b else c0), w).
Proof.
  intros. rewrite uart_rx_byte_with_other by (cbn; discriminate).
  apply rx_byte_body; assumption.
Qed.

Lemma rx_with_byte_crc pre x post idx fl btr c0 b w :
  idx = Z.of_nat (length pre) -> 0 <= idx < 255 ->
  uart_rx_byte_with h (mkRx (pre ++ x :: post) idx 3 fl btr c0) b w
  = ((if crc8 (drop 1 (pre ++ b :: post)) (idx + 1 - 2) =? b
      then h c0 (payload_ptr (pre ++ b :: post) (u8 (fl - 1))) (u8 (fl - 1))
      else log (LogCrcError (crc8 (drop 1 (pre ++ b :: post)) (idx + 1 - 2)) b);;
           led_error);;
     ret (mkRx (pre ++ b :: post) 0 0 fl btr c0)) w.
Proof.
  intros Hidx Hr. unfold uart_rx_byte_with.
  cbn [state frame_buf buf_idx bytes_to_read frame_len cmd].
  change (3 =? 0) with false. change (3 =? 1) with false.
  change (3 =? 2) with false. change (3 =? 3) with true. cbv iota.
  rewrite store_app_mid by exact Hidx.
  unfold lift. rewrite bind_ret_l.
  rewrite (u8_small (idx + 1)) by lia. reflexivity.
Qed.

Lemma rx_with_body_walk (body pre post : list Z) (fl r c0 : Z) (w : world) :
  body <> [] ->
  (2 <= length pre)%nat ->
  (length pre + length body <= 62)%nat ->
  (length body <= length post)%nat ->
  0 <= r -> r + Z.of_nat (length body) <= 60 ->
  uart_rx_bytes_with h
    (mkRx (pre ++ post) (Z.of_nat (length pre)) 2 fl
       (r + Z.of_nat (length body)) c0) body w
  = Some (mkRx (pre ++ body ++ drop (length body) post)
            (Z.of_nat (length pre) + Z.of_nat (length body))
            (if r =? 0 then 3 else 2) fl r
            (if Z.of_nat (length pre) =? 2 then hd 0 body else c0), w).
Proof.
  revert pre post c0.
  induction body as [|b body IH]; intros pre post c0 Hne Hpre Hfit Hpost Hr Hr60;
    [congruence|].
  destruct post as [|x post]; [simpl in Hpost; lia|].
  cbn [uart_rx_bytes_with length] in *. unfold bind at 1.
  rewrite rx_with_byte_body by lia.
  destruct body as [|b' body].
  - cbn [uart_rx_bytes_with length hd drop app]. unfold ret. do 2 f_equal.
    f_equal; try lia.
    + destruct (Z.eqb_spec (r + Z.of_nat 1) 1), (Z.eqb_spec r 0); auto; lia.
  - replace (pre ++ b :: post) with ((pre ++ [b]) ++ post)
      by (rewrite <- app_assoc; reflexivity).
    replace (Z.of_nat (length pre) + 1) with (Z.of_nat (length (pre ++ [b])))
      by (rewrite length_app; simpl; lia).
    replace (if r + Z.of_nat (S (length (b' :: body))) =? 1 then 3 else 2)
      with 2 by (destruct (Z.eqb_spec (r + Z.of_nat (S (length (b' :: body)))) 1);
                 [cbn [length] in *; lia | reflexivity]).
    replace (r + Z.of_nat (S (length (b' :: body))) - 1)
      with (r + Z.of_nat (length (b' :: body))) by lia.
    rewrite IH; try (rewrite ?length_app; cbn [length] in *; lia); [|congruence].
    do 2 f_equal. f_equal.
    + rewrite <- !app_assoc. reflexivity.
    + rewrite length_app. cbn [length]. lia.
    + replace (Z.of_nat (length (pre ++ [b])) =? 2) with false
        by (symmetry; apply Z.eqb_neq; rewrite length_app; simpl; lia).
      reflexivity.
Qed.

Lemma rx_with_frame_walk (buf body : list Z) (fl btr c0 c : Z) (w : world) :
  length buf = 64%nat -> body <> [] -> (length body <= 60)%nat ->
  let len := Z.of_nat (length body) in
  let buf' := [FRAME_START; len] ++ body ++ c :: drop (3 + length body) buf in
  uart_rx_bytes_with h (mkRx buf 0 0 fl btr c0)
    ([FRAME_START; len] ++ body ++ [c]) w
  = ((if crc8 (len :: body) (len + 1) =? c
      then h (hd 0 body) (payload_ptr buf' (len - 1)) (len - 1)
      else log (LogCrcError (crc8 (len :: body) (len + 1)) c);;
           led_error);;
     ret (mkRx buf' 0 0 len 0 (hd 0 body))) w.
Proof.
  intros Hbuf Hne Hlen len buf'.
  assert (Hlen1 : (1 <= length body)%nat)
    by (destruct body; [congruence | cbn [length]; lia]).
  destruct buf as [|x0 [|x1 buf2]]; try (simpl in Hbuf; lia).
  cbn [app uart_rx_bytes_with]. unfold bind at 1.
  rewrite uart_rx_byte_with_other by (cbn; discriminate).
  rewrite (rx_byte_start _ _ _ _ [] x0 (x1 :: buf2)) by reflexivity.
  unfold bind at 1.
  rewrite uart_rx_byte_with_other by (cbn; discriminate).
  rewrite (rx_byte_length [FRAME_START] x1 buf2) by (subst len; cbn [length]; lia).
  rewrite uart_rx_bytes_with_app. unfold bind at 1.
  match goal with |- context [uart_rx_bytes_with h ?rx body w] =>
    change (uart_rx_bytes_with h rx body w)
      with (uart_rx_bytes_with h
              (mkRx ([FRAME_START; len] ++ buf2)
                 (Z.of_nat (length [FRAME_START; len])) 2 len
                 (0 + Z.of_nat (length body)) c0) body w)
  end.
  rewrite rx_with_body_walk; try (cbn [length] in *; lia); [|exact Hne].
  assert (Hd : exists y rest, drop (length body) buf2 = y :: rest
                 /\ rest = drop (3 + length body) (x0 :: x1 :: buf2)).
  { destruct (drop (length body) buf2) as [|y rest] eqn:E.
    - apply (f_equal length) in E. rewrite length_drop in E.
      cbn [length] in *. lia.
    - exists y, rest. split; [reflexivity|].
      change rest with (drop 1 (y :: rest)). rewrite <- E, drop_drop.
      replace (3 + length body)%nat with (S (S (length body + 1))) by lia.
      reflexivity. }
  destruct Hd as (y & rest & Hd & Hrest). rewrite Hd.
  cbn [uart_rx_bytes_with]. unfold bind at 1.
  replace ([FRAME_START; len] ++ body ++ y :: rest)
    with (([FRAME_START; len] ++ body) ++ y :: rest)
    by (rewrite <- app_assoc; reflexivity).
  rewrite rx_with_byte_crc by (rewrite ?length_app; cbn [length]; lia).
  change (0 =? 0) with true. cbv iota.
  change (Z.of_nat (length [FRAME_START; len]) =? 2) with true. cbv iota.
  rewrite (u8_small (len - 1)) by (subst len; lia).
  replace (drop 1 (([FRAME_START; len] ++ body) ++ c :: rest))
    with ((len :: body) ++ c :: rest) by (rewrite <- app_assoc; reflexivity).
  rewrite crc8_prefix by (cbn [length]; lia).
  replace (Z.of_nat (length [FRAME_START; len]) + Z.of_nat (length body) + 1 - 2)
    with (len + 1) by (cbn [length]; lia).
  subst buf'. rewrite <- Hrest.
  replace (([FRAME_START; len] ++ body) ++ c :: rest)
    with ([FRAME_START; len] ++ body ++ c :: rest)
    by (rewrite <- app_assoc; reflexivity).
  match goal with |- match ?X with _ => _ end = _ =>
    destruct X as [[a w1]|] end; reflexivity.
Qed.

(** Bytes other than the start marker are dropped while waiting. *)
Lemma rx_with_skip_garbage prefix : forall rx w,
  state rx = 0 -> Forall (fun b => b <> FRAME_START) prefix ->
  uart_rx_bytes_with h rx prefix w = Some (rx, w).
Proof.
  induction prefix as [|b prefix IH]; intros rx w Hs Hp; [reflexivity|].
  inversion Hp as [|? ? Hb Hp']; subst.
  cbn [uart_rx_bytes_with]. unfold bind at 1.
  rewrite uart_rx_byte_with_other by (rewrite Hs; discriminate).
  rewrite (rx_byte_skip rx b w Hs Hb).
  apply IH; assumption.
Qed.

End Receiver_with_proofs.

(** A well-formed frame met in the wait-for-start state: whatever code
    stands in the "valid frame" branch, it runs once, on the command, the
    payload and the payload length of the frame; the locals then hold that
    command and payload. *)
Lemma rx_valid_frame_with rx c p :
  wait_start rx -> (length p <= 59)%nat ->
  exists rx',
    wait_start rx' /\ decoded rx' = (c, p)
    /\ forall h w,
         uart_rx_bytes_with h rx (frame_of c p) w
         = (h c (payload_arg p) (Z.of_nat (length p));; ret rx') w.
Proof.
  intros (Hs & Hi & Hbuf) Hlen. destruct rx as [buf idx st fl btr c0].
  cbn [state buf_idx frame_buf] in *. subst st idx.
  set (len := Z.of_nat (length (c :: p))).
  set (crc := crc8 (len :: c :: p) (len + 1)).
  exists (mkRx ([FRAME_START; len] ++ (c :: p)
                  ++ crc :: drop (3 + length (c :: p)) buf) 0 0 len 0 c).
  split; [|split].
  - repeat split. cbn [frame_buf app length]. rewrite length_app.
    cbn [length]. rewrite length_drop. lia.
  - unfold decoded. cbn [cmd frame_len frame_buf]. f_equal.
    rewrite u8_small by (subst len; cbn [length]; lia).
    replace (Z.to_nat (len - 1)) with (length p)
      by (subst len; cbn [length]; lia).
    cbn [app drop]. apply take_app_length.
  - intros h w.
    pose proof (rx_with_frame_walk h buf (c :: p) fl btr c0 crc w Hbuf) as Hw.
    cbv zeta in Hw. fold len in Hw. unfold crc in Hw at 1.
    rewrite Z.eqb_refl in Hw. fold crc in Hw.
    unfold frame_of.
    replace (1 + Z.of_nat (length p)) with len
      by (subst len; cbn [length]; lia).
    etransitivity; [apply Hw; [congruence | cbn [length]; lia]|].
    cbn [hd]. rewrite payload_ptr_frame by reflexivity.
    replace (len - 1) with (Z.of_nat (length p))
      by (subst len; cbn [length]; lia).
    reflexivity.
Qed.

(** ** What the receiver holds after a frame *)

(** The same for the receiver as it is: the dispatch code runs once, and
    the locals then hold the command and the payload of the frame. *)
Lemma rx_valid_frame_decoded rx c p :
  wait_start rx -> (length p <= 59)%nat ->
  exists rx',
    wait_start rx' /\ decoded rx' = (c, p)
    /\ (forall w,
          uart_rx_bytes rx (frame_of c p) w
          = (dispatch_frame c (payload_arg p) (Z.of_nat (length p));;
             ret rx') w)
    /\ (forall h w,
          uart_rx_bytes_with h rx (frame_of c p) w
          = (h c (payload_arg p) (Z.of_nat (length p));; ret rx') w).
Proof.
  intros Hrx Hlen.
  destruct (rx_valid_frame_with rx c p Hrx Hlen) as (rx' & H1 & H2 & H3).
  exists rx'. split; [exact H1|]. split; [exact H2|]. split; [|exact H3].
  intros w. rewrite <- uart_rx_bytes_with_dispatch_frame. apply H3.
Qed.

(** Well-formed frames one after the other. *)
Lemma rx_valid_frames_with frames : forall rx,
  wait_start rx ->
  Forall (fun cp => (length (snd cp) <= 59)%nat) frames ->
  exists rx',
    wait_start rx'
    /\ (forall cp, last frames = Some cp -> decoded rx' = cp)
    /\ (forall h w,
          uart_rx_bytes_with h rx (wire frames) w
          = (on_frames h frames;; ret rx') w).
Proof.
  induction frames as [|[c p] frames IH]; intros rx Hrx Hall.
  - exists rx. split; [exact Hrx|]. split; [discriminate | reflexivity].
  - inversion Hall as [|? ? Hp Hall']; subst. cbn [snd] in Hp.
    destruct (rx_valid_frame_with rx c p Hrx Hp) as (rx1 & Hrx1 & Hdec1 & E1).
    assert (Hstep : forall rx' h,
              (forall w,
                 uart_rx_bytes_with h rx1 (wire frames) w
                 = (on_frames h frames;; ret rx') w) ->
              forall w,
                uart_rx_bytes_with h rx (wire ((c, p) :: frames)) w
                = (on_frames h ((c, p) :: frames);; ret rx') w).
    { intros rx' h E w. unfold wire. cbn [map concat fst snd].
      fold (wire frames). rewrite uart_rx_bytes_with_app.
      unfold bind at 1. rewrite E1. cbn [on_frames]. unfold bind at 1 2 3.
      destruct (h c (payload_arg p) (Z.of_nat (length p)) w) as [[[] w1]|];
        [|reflexivity].
      unfold ret at 1. apply E. }
    destruct frames as [|cp' frames'].
    + exists rx1. split; [exact Hrx1|]. split.
      * intros cp Hcp. injection Hcp as <-. exact Hdec1.
      * intros h. apply Hstep. reflexivity.
    + destruct (IH rx1 Hrx1 Hall') as (rx' & Hrx' & Hlast & E).
      exists rx'. split; [exact Hrx'|]. split.
      * intros cp Hcp. apply Hlast. exact Hcp.
      * intros h. apply Hstep, E.
Qed.

Lemma app_tail_split {A} (l1 l2 l : list A) (x : A) :
  l1 ++ l2 = l ++ [x] -> l2 <> [] -> exists l3, l = l1 ++ l3.
Proof.
  intros E Hne. destruct (exists_last Hne) as (l3 & y & ->).
  rewrite app_assoc in E. apply app_inj_tail in E as [E _].
  exists l3. symmetry. exact E.
Qed.

(** The first part of a frame that the driver hands over in two parts
    changes nothing but the locals of the receiver. *)
Lemma rx_frame_prefix rx c p a b :
  wait_start rx -> (length p <= 59)%nat ->
  frame_of c p = a ++ b -> b <> [] ->
  exists rx_a, forall h w, uart_rx_bytes_with h rx a w = Some (rx_a, w).
Proof.
  intros (Hs & Hi & Hbuf) Hlen E Hb. destruct rx as [buf idx st fl btr c0].
  cbn [state buf_idx frame_buf] in *. subst st idx.
  destruct buf as [|x0 [|x1 buf2]]; try (cbn in Hbuf; lia).
  unfold frame_of in E. cbn [app] in E.
  destruct a as [|a0 a]; [eexists; intros h w; reflexivity|].
  cbn [app] in E. injection E as <- E.
  destruct a as [|a1 body]; [eexists; intros h w; reflexivity|].
  cbn [app] in E. injection E as <- E.
  set (len := 1 + Z.of_nat (length p)) in *.
  change (c :: p ++ [crc8 (len :: c :: p) (len + 1)])
    with ((c :: p) ++ [crc8 (len :: c :: p) (len + 1)]) in E.
  symmetry in E. destruct (app_tail_split _ _ _ _ E Hb) as (l3 & Hl3).
  assert (Hlb : (length body + length l3 = S (length p))%nat).
  { apply (f_equal length) in Hl3. rewrite length_app in Hl3.
    cbn [length] in Hl3. lia. }
  assert (H2 : forall h w,
             uart_rx_bytes_with h (mkRx (x0 :: x1 :: buf2) 0 0 fl btr c0)
               [FRAME_START; len] w
             = Some (mkRx ([FRAME_START; len] ++ buf2) 2 2 len len c0, w)).
  { intros h w. cbn [uart_rx_bytes_with]. unfold bind at 1.
    rewrite uart_rx_byte_with_other by (cbn; discriminate).
    rewrite (rx_byte_start _ _ _ _ [] x0 (x1 :: buf2)) by reflexivity.
    unfold bind at 1.
    rewrite uart_rx_byte_with_other by (cbn; discriminate).
    rewrite (rx_byte_length [FRAME_START] x1 buf2)
      by (subst len; cbn [length]; lia).
    reflexivity. }
  destruct body as [|b0 body]; [eexists; exact H2|].
  eexists. intros h w.
  change (FRAME_START :: len :: b0 :: body)
    with ([FRAME_START; len] ++ b0 :: body).
  rewrite uart_rx_bytes_with_app, (bind_Some _ _ _ _ _ (H2 h w)).
  change 2 with (Z.of_nat (length [FRAME_START; len])) at 1.
  replace len with (Z.of_nat (length l3) + Z.of_nat (length (b0 :: body)))
    at 4 by (subst len; lia).
  rewrite rx_with_body_walk; try (cbn [length] in *; lia); [|congruence].
  reflexivity.
Qed.

(** ** LED patterns with no callback pending *)

Lemma led_blink_loop_S n i count on_ms off_ms :
  led_blink_loop (S n) i count on_ms off_ms
  = (led_on;;
     vTaskDelay on_ms;;
     led_off;;
     when (i <? count - 1) (vTaskDelay off_ms);;
     led_blink_loop n (i + 1) count on_ms off_ms).
Proof. reflexivity. Qed.

Lemma wp_led_blink_loop_exact n : forall i count on_ms off_ms Q w,
  w_pending w = [] -> i + Z.of_nat (S n) = count ->
  Q tt (mkWorld (w_globals w)
          (w_clock w + (Z.of_nat (S n) * on_ms + Z.of_nat n * off_ms) * 1000)
          []
          (w_trace w
           ++ blink_events (S n) (w_clock w) (on_ms * 1000) (off_ms * 1000))) ->
  wp (led_blink_loop (S n) i count on_ms off_ms) Q w.
Proof.
  induction n as [|n IH]; intros i count on_ms off_ms Q w Hq Hi HQ;
    destruct w as [g clk q tr]; cbn in Hq; subst q;
    cbn [w_globals w_clock w_pending w_trace] in HQ.
  - rewrite led_blink_loop_S. wp_run.
    replace (i <? count - 1) with false by (symmetry; apply Z.ltb_ge; lia).
    wp_run. cbn [blink_events] in HQ. rewrite <- app_assoc. cbn [app].
    replace (clk + (Z.of_nat 1 * on_ms + Z.of_nat 0 * off_ms) * 1000)
      with (clk + on_ms * 1000) in HQ by lia.
    cbn [led_blink_loop]. apply wp_ret. exact HQ.
  - rewrite led_blink_loop_S. wp_run.
    replace (i <? count - 1) with true by (symmetry; apply Z.ltb_lt; lia).
    wp_run. apply IH; [reflexivity | lia |].
    cbn [w_globals w_clock w_pending w_trace].
    cbn [blink_events] in HQ. cbn [blink_events].
    rewrite <- !app_assoc. cbn [app].
    replace (clk + on_ms * 1000 + off_ms * 1000
             + (Z.of_nat (S n) * on_ms + Z.of_nat n * off_ms) * 1000)
      with (clk + (Z.of_nat (S (S n)) * on_ms + Z.of_nat (S n) * off_ms) * 1000)
      by lia.
    exact HQ.
Qed.

Lemma wp_led_blink_exact count on_ms off_ms Q w :
  1 <= count -> w_pending w = [] ->
  Q tt (mkWorld (w_globals w)
          (w_clock w + (count * on_ms + (count - 1) * off_ms) * 1000) []
          (w_trace w
           ++ blink_events (Z.to_nat count) (w_clock w) (on_ms * 1000)
                (off_ms * 1000))) ->
  wp (led_blink count on_ms off_ms) Q w.
Proof.
  intros Hc Hq HQ. unfold led_blink.
  destruct (Z.to_nat count) as [|n] eqn:En; [lia|].
  apply wp_led_blink_loop_exact; [exact Hq | lia |].
  replace (Z.of_nat (S n)) with count by lia.
  replace (Z.of_nat n) with (count - 1) by lia.
  exact HQ.
Qed.

Lemma wp_eq {A} (m : M A) a w w' :
  wp m (fun a' w1 => a' = a /\ w1 = w') w -> m w = Some (a, w').
Proof. intros (a1 & w1 & E & -> & ->). exact E. Qed.


Lemma take_length_take {A} (n : nat) (l : list A) :
  take (length (take n l)) l = take n l.
Proof.
  rewrite length_take. destruct (le_lt_dec n (length l)) as [H | H].
  - rewrite Nat.min_l by exact H. reflexivity.
  - rewrite Nat.min_r by lia. rewrite !take_ge by lia. reflexivity.
Qed.

(** The payload pointer and length the dispatch code is given are those of
    the frame the receiver holds. *)
Lemma decoded_payload_ptr rx c p :
  decoded rx = (c, p) ->
  payload_ptr (frame_buf rx) (Z.of_nat (length p)) = payload_arg p.
Proof.
  unfold decoded, payload_ptr. intros E. injection E as _ E.
  destruct p as [|b p]; [reflexivity|].
  replace (Z.of_nat (length (b :: p)) >? 0) with true
    by (symmetry; rewrite Z.gtb_ltb; apply Z.ltb_lt; cbn [length]; lia).
  rewrite Nat2Z.id. cbn [payload_arg]. f_equal.
  rewrite <- E. apply take_length_take.
Qed.

(** * The claims *)

(** ** Frame codec *)

(** C1 (round trip).  For every command byte and every payload of at most
    58 bytes the encoder produces a frame, and the receiver, fed that frame
    byte by byte while it waits for a start byte, decodes exactly one
    frame: the command byte it has kept and the payload bytes it has
    stored from [frame_buf[3]] on are the encoded command and the encoded
    payload, byte for byte; it runs the code of its "valid frame" branch
    once, on these, and is back waiting for a start byte.  That branch
    always returns; and whatever code stood in its place ([on_frame]), it
    would be run once and be given the encoded command, the encoded
    payload and its length. *)
Theorem frame_round_trip (c : Z) (payload : list Z) (rx : rx_locals)
    (w : world) :
  (length payload <= 58)%nat ->
  wait_start rx ->
  exists frame rx',
    uart_frame_bytes c (Some payload) (Z.of_nat (length payload)) = Some frame
    /\ uart_rx_bytes rx frame w
       = (dispatch_frame c (payload_arg payload)
            (Z.of_nat (length payload));;
          ret rx') w
    /\ (forall on_frame,
          uart_rx_bytes_with on_frame rx frame w
          = (on_frame c (payload_arg payload) (Z.of_nat (length payload));;
             ret rx') w)
    /\ decoded rx' = (c, payload)
    /\ payload_ptr (frame_buf rx') (Z.of_nat (length payload))
       = payload_arg payload
    /\ wait_start rx'
    /\ total (dispatch_frame c (payload_arg payload)
                (Z.of_nat (length payload))).
Proof.
  intros Hlen Hrx.
  destruct (rx_valid_frame_decoded rx c payload Hrx)
    as (rx' & Hrx' & Hdec & E & Ewith); [lia|].
  exists (frame_of c payload), rx'.
  split; [apply uart_frame_bytes_some; lia|].
  split; [apply E|]. split; [intros h; apply Ewith|].
  split; [exact Hdec|].
  split; [exact (decoded_payload_ptr _ _ _ Hdec)|].
  split; [exact Hrx'|].
  apply total_dispatch_frame, payload_arg_deref.
Qed.

Lemma frame_round_trip_witness :
  exists frame rx',
    uart_frame_bytes CMD_SET_MODE (Some [2; 7; 0xA5]) 3 = Some frame
    /\ uart_rx_bytes rx_init frame boot_world
       = (dispatch_frame CMD_SET_MODE (Some [2; 7; 0xA5]) 3;; ret rx')
           boot_world
    /\ (forall on_frame,
          uart_rx_bytes_with on_frame rx_init frame boot_world
          = (on_frame CMD_SET_MODE (Some [2; 7; 0xA5]) 3;; ret rx')
              boot_world)
    /\ decoded rx' = (CMD_SET_MODE, [2; 7; 0xA5])
    /\ payload_ptr (frame_buf rx') 3 = Some [2; 7; 0xA5]
    /\ wait_start rx'
    /\ total (dispatch_frame CMD_SET_MODE (Some [2; 7; 0xA5]) 3).
Proof.
  apply (frame_round_trip CMD_SET_MODE [2; 7; 0xA5] rx_init boot_world).
  - cbn. lia.
  - repeat split.
Defined.

(** C6, as the code has it.  The encoder does not look at the payload size:
    every payload of at most 60 bytes, so also one of 59 or 60 bytes, is
    framed in full, as size + 4 bytes. *)
Theorem encoder_has_no_size_check (c : Z) (payload : list Z) :
  (length payload <= 60)%nat ->
  exists frame,
    uart_frame_bytes c (Some payload) (Z.of_nat (length payload)) = Some frame
    /\ frame = [FRAME_START; 1 + Z.of_nat (length payload); c] ++ payload
               ++ [crc8 ([1 + Z.of_nat (length payload); c] ++ payload)
                     (Z.of_nat (length payload) + 2)]
    /\ length frame = (length payload + 4)%nat.
Proof.
  intros Hlen. exists (frame_of c payload). split; [|split].
  - apply uart_frame_bytes_some, Hlen.
  - unfold frame_of. do 2 f_equal. f_equal. f_equal. lia.
  - unfold frame_of. rewrite !length_app. cbn [length]. lia.
Qed.

Lemma encoder_has_no_size_check_witness :
  exists frame,
    uart_frame_bytes CMD_SET_MODE (Some (replicate 60 7)) 60 = Some frame
    /\ frame = [FRAME_START; 61; CMD_SET_MODE] ++ replicate 60 7
               ++ [crc8 ([61; CMD_SET_MODE] ++ replicate 60 7) 62]
    /\ length frame = 64%nat.
Proof.
  apply (encoder_has_no_size_check CMD_SET_MODE (replicate 60 7)).
  vm_compute. lia.
Defined.

(** C6 as stated fails: a payload of 59 bytes is encoded, into 63 bytes. *)
Lemma encoder_oversize_counterexample :
  exists frame,
    uart_frame_bytes CMD_SET_MODE (Some (replicate 59 0)) 59 = Some frame
    /\ length frame = 63%nat.
Proof. eexists. split; vm_compute; reflexivity. Qed.

(** C8, as the code has it.  After a prefix that holds no start marker
    [0xA5] (the receiver stays in its wait-for-start state throughout) a
    valid frame is decoded exactly once: the prefix changes nothing, the
    command and the payload the receiver then holds are those of the
    frame, byte for byte, the code of the "valid frame" branch runs once,
    on these, and the receiver is back waiting for a start byte.  Whatever
    code stood in the place of that branch ([on_frame]), it would be run
    once and be given the command, the payload and the payload length of
    the frame. *)
Theorem resync_after_markerless_garbage (prefix : list Z) (c : Z)
    (payload : list Z) (rx : rx_locals) (w : world) :
  Forall (fun b => b <> FRAME_START) prefix ->
  (length payload <= 58)%nat ->
  wait_start rx ->
  exists frame rx',
    uart_frame_bytes c (Some payload) (Z.of_nat (length payload)) = Some frame
    /\ uart_rx_bytes rx prefix w = Some (rx, w)
    /\ uart_rx_bytes rx (prefix ++ frame) w
       = (dispatch_frame c (payload_arg payload)
            (Z.of_nat (length payload));;
          ret rx') w
    /\ (forall on_frame,
          uart_rx_bytes_with on_frame rx (prefix ++ frame) w
          = (on_frame c (payload_arg payload) (Z.of_nat (length payload));;
             ret rx') w)
    /\ decoded rx' = (c, payload)
    /\ payload_ptr (frame_buf rx') (Z.of_nat (length payload))
       = payload_arg payload
    /\ wait_start rx'
    /\ total (dispatch_frame c (payload_arg payload)
                (Z.of_nat (length payload))).
Proof.
  intros Hp Hlen Hrx.
  destruct (rx_valid_frame_decoded rx c payload Hrx)
    as (rx' & Hrx' & Hdec & E & Ewith); [lia|].
  pose proof (rx_skip_garbage prefix rx w (proj1 Hrx) Hp) as Hskip.
  exists (frame_of c payload), rx'.
  split; [apply uart_frame_bytes_some; lia|].
  split; [exact Hskip|].
  split; [rewrite uart_rx_bytes_app, (bind_Some _ _ _ _ _ Hskip); apply E|].
  split.
  { intros h. rewrite uart_rx_bytes_with_app.
    rewrite (bind_Some _ _ _ _ _
               (rx_with_skip_garbage h prefix rx w (proj1 Hrx) Hp)).
    apply Ewith. }
  split; [exact Hdec|].
  split; [exact (decoded_payload_ptr _ _ _ Hdec)|].
  split; [exact Hrx'|].
  apply total_dispatch_frame, payload_arg_deref.
Qed.

Lemma resync_after_markerless_garbage_witness :
  exists frame rx',
    uart_frame_bytes CMD_SET_MODE (Some [1; 9]) 2 = Some frame
    /\ uart_rx_bytes rx_init [0x00; 0xFF; 0x5A; 0x01] boot_world
       = Some (rx_init, boot_world)
    /\ uart_rx_bytes rx_init ([0x00; 0xFF; 0x5A; 0x01] ++ frame) boot_world
       = (dispatch_frame CMD_SET_MODE (Some [1; 9]) 2;; ret rx') boot_world
    /\ (forall on_frame,
          uart_rx_bytes_with on_frame rx_init
            ([0x00; 0xFF; 0x5A; 0x01] ++ frame) boot_world
          = (on_frame CMD_SET_MODE (Some [1; 9]) 2;; ret rx') boot_world)
    /\ decoded rx' = (CMD_SET_MODE, [1; 9])
    /\ payload_ptr (frame_buf rx') 2 = Some [1; 9]
    /\ wait_start rx'
    /\ total (dispatch_frame CMD_SET_MODE (Some [1; 9]) 2).
Proof.
  apply (resync_after_markerless_garbage [0x00; 0xFF; 0x5A; 0x01]
           CMD_SET_MODE [1; 9] rx_init boot_world).
  - repeat constructor; discriminate.
  - cbn. lia.
  - repeat split.
Defined.

(** C8 as stated fails: after the truncated frame [A5 0A] (a start marker
    and a length of ten) the four bytes of a valid HELLO frame are taken as
    body bytes.  Nothing is decoded and the receiver is left in the middle
    of a frame, six body bytes short. *)
Lemma resync_truncated_prefix_counterexample :
  uart_frame_bytes CMD_HELLO None 0 = Some [0xA5; 0x01; 0x01; 0xC5]
  /\ exists rx',
       uart_rx_bytes rx_init ([0xA5; 0x0A] ++ [0xA5; 0x01; 0x01; 0xC5])
         boot_world = Some (rx', boot_world)
       /\ state rx' = 2 /\ bytes_to_read rx' = 6
       /\ (dispatch_frame CMD_HELLO None 0;; ret rx') boot_world
          <> Some (rx', boot_world).
Proof.
  split; [vm_compute; reflexivity|].
  eexists. split; [vm_compute; reflexivity|].
  repeat split. vm_compute. discriminate.
Qed.

(** C10 (the frame buffer is never overrun).  Whatever bytes arrive, every
    store into the 64-byte [frame_buf] is in range (the run does not fail),
    and between bytes the index is at most 62: the byte stored last, the
    CRC, lands at index 62 at the latest, which makes 63 bytes, before the
    index goes back to 0. *)
Theorem rx_frame_buf_in_bounds (data : list Z) (w : world) :
  Forall is_byte data ->
  exists rx' w',
    uart_rx_bytes rx_init data w = Some (rx', w')
    /\ 0 <= buf_idx rx' <= 62
    /\ length (frame_buf rx') = 64%nat.
Proof.
  intros Hd.
  destruct (uart_rx_bytes_inv data rx_init w rx_init_inv Hd)
    as (rx' & w' & E & Hinv).
  exists rx', w'. split; [exact E|]. split; [|apply Hinv].
  destruct Hinv as [_ [[_ ->] | [[_ ->] | [(_ & ? & ? & ->) | (_ & ? & ->)]]]];
    lia.
Qed.

Lemma rx_frame_buf_in_bounds_witness :
  exists rx' w',
    uart_rx_bytes rx_init ([0xA5; 60] ++ replicate 60 0xA5) boot_world
    = Some (rx', w')
    /\ 0 <= buf_idx rx' <= 62
    /\ length (frame_buf rx') = 64%nat.
Proof.
  apply (rx_frame_buf_in_bounds ([0xA5; 60] ++ replicate 60 0xA5) boot_world).
  repeat constructor; unfold is_byte; lia.
Defined.


(** C7, as the code has it.  Inverting any one bit of the command byte, of
    a payload byte or of the CRC byte of a valid frame makes the CRC
    comparison fail: the receiver logs the CRC error, blinks the error
    pattern and is back waiting for a start byte.  No handler runs, nothing
    is written to the UART and no variable changes. *)
Theorem corrupted_body_or_crc_discarded (c : Z) (payload : list Z)
    (i j : nat) (rx : rx_locals) (w : world) :
  is_byte c -> Forall is_byte payload -> (length payload <= 58)%nat ->
  (2 <= i < length payload + 4)%nat -> (j < 8)%nat ->
  wait_start rx -> w_pending w = [] ->
  exists frame calc recv rx' w',
    uart_frame_bytes c (Some payload) (Z.of_nat (length payload)) = Some frame
    /\ calc <> recv
    /\ uart_rx_bytes rx (flip_bit frame i j) w
       = (log (LogCrcError calc recv);; led_error;; ret rx') w
    /\ uart_rx_bytes rx (flip_bit frame i j) w = Some (rx', w')
    /\ wait_start rx'
    /\ w_globals w' = w_globals w
    /\ uart_tx (w_trace w') = uart_tx (w_trace w).
Proof.
  intros Hc Hp Hlen Hi Hj Hrx Hq.
  destruct (rx_changed_frame_rejected rx c payload i
              (fun b => Z.lxor b (Z.shiftl 1 (Z.of_nat j))) w Hrx Hc Hp)
    as (calc & recv & rx' & E & Hne & Hrx'); [lia | exact Hi | |].
  { intros b Hb. apply flip_byte; assumption. }
  destruct (crc_error_effect w calc recv rx' Hq) as (w' & E' & Hg & Htx & _).
  exists (frame_of c payload), calc, recv, rx', w'.
  split; [apply uart_frame_bytes_some; lia|].
  split; [exact Hne|]. split; [exact E|].
  split; [unfold flip_bit; rewrite E; exact E'|]. auto.
Qed.

Lemma corrupted_body_or_crc_discarded_witness :
  exists frame calc recv rx' w',
    uart_frame_bytes CMD_SET_MODE (Some [2]) 1 = Some frame
    /\ calc <> recv
    /\ uart_rx_bytes rx_init (flip_bit frame 3 0) boot_world
       = (log (LogCrcError calc recv);; led_error;; ret rx') boot_world
    /\ uart_rx_bytes rx_init (flip_bit frame 3 0) boot_world = Some (rx', w')
    /\ wait_start rx'
    /\ w_globals w' = w_globals boot_world
    /\ uart_tx (w_trace w') = uart_tx (w_trace boot_world).
Proof.
  apply (corrupted_body_or_crc_discarded CMD_SET_MODE [2] 3 0 rx_init
           boot_world).
  - unfold is_byte, CMD_SET_MODE. lia.
  - repeat constructor; lia.
  - cbn. lia.
  - cbn. lia.
  - lia.
  - repeat split.
  - reflexivity.
Defined.

(** C7 as stated fails for the start marker.  The valid PING frame below
    carries the four bytes of a HELLO frame as its payload.  With bit 0 of
    its first byte inverted the receiver skips up to the inner marker,
    decodes the inner HELLO frame, dispatches it and answers ACK. *)
Lemma corrupted_start_marker_counterexample :
  uart_frame_bytes CMD_PING (Some [0xA5; 0x01; 0x01; 0xC5]) 4
  = Some [0xA5; 0x05; 0x04; 0xA5; 0x01; 0x01; 0xC5; 0x31]
  /\ flip_bit [0xA5; 0x05; 0x04; 0xA5; 0x01; 0x01; 0xC5; 0x31] 0 0
     = [0xA4; 0x05; 0x04; 0xA5; 0x01; 0x01; 0xC5; 0x31]
  /\ exists rx' w',
       uart_rx_bytes rx_init
         [0xA4; 0x05; 0x04; 0xA5; 0x01; 0x01; 0xC5; 0x31] boot_world
       = Some (rx', w')
       /\ uart_tx (w_trace w') = [[0xA5; 0x01; RSP_ACK; 0x8E]]
       /\ In (0, EvLog LogCmdHello) (w_trace w').
Proof.
  split; [vm_compute; reflexivity|]. split; [vm_compute; reflexivity|].
  eexists _, _. split; [vm_compute; reflexivity|].
  split; [vm_compute; reflexivity | left; reflexivity].
Qed.

(** The same claim fails for the length byte too: with bit 1 of the length
    of a HELLO frame inverted (1 becomes 3) the receiver is left in the
    middle of a frame, one body byte short, not waiting for a start byte. *)
Example corrupted_length_leaves_receiver_mid_frame :
  exists rx',
    uart_rx_bytes rx_init (flip_bit [0xA5; 0x01; 0x01; 0xC5] 1 1) boot_world
    = Some (rx', boot_world)
    /\ state rx' = 2 /\ bytes_to_read rx' = 1.
Proof. eexists. split; [vm_compute; reflexivity|]. split; reflexivity. Qed.

(** ** Command handlers *)

(** C4, as the code has it.  The handler looks at the payload length only to
    refuse an empty payload, and then at the first payload byte only: with
    no payload, or with a first byte above 3, it answers ERR and changes no
    variable; with a first byte of at most 3 it stores that byte in
    [g_current_mode] and answers ACK, whatever follows that byte. *)
Theorem set_mode_checks_first_byte (payload : option (list Z)) (len : Z)
    (w : world) :
  w_pending w = [] ->
  (len < 1 ->
   wp (handle_cmd_set_mode payload len)
     (fun _ w' =>
        w_globals w' = w_globals w
        /\ uart_tx (w_trace w') = uart_tx (w_trace w) ++ [frame_of RSP_ERR []])
     w)
  /\ (forall m rest, 1 <= len -> payload = Some (m :: rest) -> 3 < m ->
      wp (handle_cmd_set_mode payload len)
        (fun _ w' =>
           w_globals w' = w_globals w
           /\ uart_tx (w_trace w')
              = uart_tx (w_trace w) ++ [frame_of RSP_ERR []])
        w)
  /\ (forall m rest, 1 <= len -> payload = Some (m :: rest) -> m <= 3 ->
      wp (handle_cmd_set_mode payload len)
        (fun _ w' =>
           w_globals w' = set_current_mode m (w_globals w)
           /\ uart_tx (w_trace w')
              = uart_tx (w_trace w) ++ [frame_of RSP_ACK []])
        w).
Proof.
  intros Hq. destruct w as [g clk q tr]. cbn in Hq. subst q.
  unfold handle_cmd_set_mode. split; [|split].
  - intros Hlen.
    replace (len <? 1) with true by (symmetry; apply Z.ltb_lt; lia).
    wp_run. apply wp_led_error_idle; [reflexivity|].
    cbn [w_globals w_clock w_pending w_trace].
    intros w' Hg _ Htx _ _ _ _. split; [exact Hg|].
    rewrite Htx. views. reflexivity.
  - intros m rest Hlen -> Hm.
    replace (len <? 1) with false by (symmetry; apply Z.ltb_ge; lia).
    wp_step. apply (wp_lift _ m); [reflexivity|].
    replace (m >? 3) with true
      by (symmetry; rewrite Z.gtb_ltb; apply Z.ltb_lt; lia).
    wp_run. apply wp_led_error_idle; [reflexivity|].
    cbn [w_globals w_clock w_pending w_trace].
    intros w' Hg _ Htx _ _ _ _. split; [exact Hg|].
    rewrite Htx. views. reflexivity.
  - intros m rest Hlen -> Hm.
    replace (len <? 1) with false by (symmetry; apply Z.ltb_ge; lia).
    wp_step. apply (wp_lift _ m); [reflexivity|].
    replace (m >? 3) with false
      by (symmetry; rewrite Z.gtb_ltb; apply Z.ltb_ge; lia).
    wp_run. apply wp_led_blink_idle; [reflexivity|].
    cbn [w_globals w_clock w_pending w_trace].
    intros w' Hg _ Htx _ _ _ _. split; [exact Hg|].
    rewrite Htx. views. reflexivity.
Qed.

Lemma set_mode_checks_first_byte_witness :
  wp (handle_cmd_set_mode None 0)
    (fun _ w' =>
       w_globals w' = boot_globals
       /\ uart_tx (w_trace w') = [] ++ [frame_of RSP_ERR []])
    boot_world
  /\ wp (handle_cmd_set_mode (Some [5]) 1)
       (fun _ w' =>
          w_globals w' = boot_globals
          /\ uart_tx (w_trace w') = [] ++ [frame_of RSP_ERR []])
       boot_world
  /\ wp (handle_cmd_set_mode (Some [3]) 1)
       (fun _ w' =>
          w_globals w' = set_current_mode 3 boot_globals
          /\ uart_tx (w_trace w') = [] ++ [frame_of RSP_ACK []])
       boot_world.
Proof.
  split; [|split].
  - apply (proj1 (set_mode_checks_first_byte None 0 boot_world eq_refl)). lia.
  - apply (proj1 (proj2 (set_mode_checks_first_byte (Some [5]) 1 boot_world
                           eq_refl)) 5 []); [lia | reflexivity | lia].
  - apply (proj2 (proj2 (set_mode_checks_first_byte (Some [3]) 1 boot_world
                           eq_refl)) 3 []); [lia | reflexivity | lia].
Defined.

(** C4 as stated fails: the two-byte payload [02 09], sent in a valid
    SET_MODE frame, is accepted; the handler sets the mode to 2 and answers
    ACK. *)
Lemma set_mode_two_byte_payload_counterexample :
  exists frame rx' w',
    uart_frame_bytes CMD_SET_MODE (Some [2; 9]) 2 = Some frame
    /\ uart_rx_bytes rx_init frame boot_world = Some (rx', w')
    /\ g_current_mode (w_globals boot_world) = 0
    /\ g_current_mode (w_globals w') = 2
    /\ uart_tx (w_trace w') = [frame_of RSP_ACK []].
Proof.
  eexists _, _, _. split; [vm_compute; reflexivity|].
  split; [vm_compute; reflexivity|].
  repeat split.
Qed.

(** C5, as the code has it.  While a pulse is in progress the handler
    answers BUSY and touches nothing: no variable, no pin, no timer, and it
    takes no time.  With no pulse in progress it answers ACK at once and
    then blinks the LED once, for 500 ms, and that is all: the LED pin goes
    low at the call and high 500 ms later, when the handler returns; the
    in-progress flag stays clear, the signal pin is not driven and no
    timer is started (the action itself is a TODO in the source).  The
    records below are every action the handler performs, in order. *)
Theorem trigger_handler_only_answers (payload : option (list Z)) (len : Z)
    (w : world) :
  (g_pulse_active (w_globals w) = true ->
   wp (handle_cmd_trigger payload len)
     (fun _ w' =>
        w_globals w' = w_globals w
        /\ w_clock w' = w_clock w
        /\ w_pending w' = w_pending w
        /\ w_trace w'
           = w_trace w
             ++ [(w_clock w, EvLog LogCmdTrigger);
                 (w_clock w, EvLog LogSkitBusy);
                 (w_clock w, EvUartTx (frame_of RSP_BUSY []));
                 (w_clock w, EvLog (LogUartTx 4 RSP_BUSY))]
        /\ uart_tx (w_trace w') = uart_tx (w_trace w) ++ [frame_of RSP_BUSY []]
        /\ pulse_actions (w_trace w') = pulse_actions (w_trace w))
     w)
  /\ (g_pulse_active (w_globals w) = false -> w_pending w = [] ->
      wp (handle_cmd_trigger payload len)
        (fun _ w' =>
           w_globals w' = w_globals w
           /\ w_clock w' = w_clock w + 500000
           /\ w_trace w'
              = w_trace w
                ++ [(w_clock w, EvLog LogCmdTrigger);
                    (w_clock w, EvUartTx (frame_of RSP_ACK []));
                    (w_clock w, EvLog (LogUartTx 4 RSP_ACK));
                    (w_clock w, EvGpio LED_GPIO 0);
                    (w_clock w + 500000, EvGpio LED_GPIO 1);
                    (w_clock w + 500000, EvLog LogTriggerAck)]
           /\ uart_tx (w_trace w')
              = uart_tx (w_trace w) ++ [frame_of RSP_ACK []]
           /\ pulse_actions (w_trace w') = pulse_actions (w_trace w))
        w).
Proof.
  unfold handle_cmd_trigger. split.
  - intros Hactive. wp_run. rewrite Hactive. wp_run.
    rewrite <- !app_assoc. cbn [app].
    repeat split; views; reflexivity.
  - intros Hidle Hq. destruct w as [g clk q tr]. cbn in Hq, Hidle. subst q.
    wp_run. rewrite Hidle. wp_run. unfold led_command_sent.
    apply wp_led_blink_exact; [lia | reflexivity|].
    cbn [w_globals w_clock w_pending w_trace blink_events Z.to_nat
           Pos.to_nat Pos.iter_op Nat.add].
    wp_run. rewrite <- !app_assoc. cbn [app].
    replace (clk + (1 * 500 + (1 - 1) * 0) * 1000) with (clk + 500000) by lia.
    replace (clk + 500 * 1000) with (clk + 500000) by lia.
    repeat split; views; reflexivity.
Qed.

Lemma trigger_handler_only_answers_witness :
  wp (handle_cmd_trigger None 0)
    (fun _ w' =>
       w_globals w' = set_pulse_active true boot_globals
       /\ w_clock w' = 0
       /\ w_pending w' = []
       /\ w_trace w'
          = [] ++ [(0, EvLog LogCmdTrigger);
                   (0, EvLog LogSkitBusy);
                   (0, EvUartTx (frame_of RSP_BUSY []));
                   (0, EvLog (LogUartTx 4 RSP_BUSY))]
       /\ uart_tx (w_trace w') = [] ++ [frame_of RSP_BUSY []]
       /\ pulse_actions (w_trace w') = [])
    (mkWorld (set_pulse_active true boot_globals) 0 [] [])
  /\ wp (handle_cmd_trigger None 0)
       (fun _ w' =>
          w_globals w' = boot_globals
          /\ w_clock w' = 0 + 500000
          /\ w_trace w'
             = [] ++ [(0, EvLog LogCmdTrigger);
                      (0, EvUartTx (frame_of RSP_ACK []));
                      (0, EvLog (LogUartTx 4 RSP_ACK));
                      (0, EvGpio LED_GPIO 0);
                      (0 + 500000, EvGpio LED_GPIO 1);
                      (0 + 500000, EvLog LogTriggerAck)]
          /\ uart_tx (w_trace w') = [] ++ [frame_of RSP_ACK []]
          /\ pulse_actions (w_trace w') = [])
       boot_world.
Proof.
  split.
  - apply (proj1 (trigger_handler_only_answers None 0
                    (mkWorld (set_pulse_active true boot_globals) 0 [] []))).
    reflexivity.
  - apply (proj2 (trigger_handler_only_answers None 0 boot_world));
      reflexivity.
Defined.

(** C5 as stated fails in its second half: with no pulse in progress the
    handler answers ACK but begins nothing.  The flag stays clear and
    neither the pin nor the timer is touched, where [start_pulse] would set
    the flag, raise the pin and arm the timer. *)
Lemma trigger_begins_no_action_counterexample :
  exists w' w'',
    handle_cmd_trigger None 0 boot_world = Some (tt, w')
    /\ uart_tx (w_trace w') = [frame_of RSP_ACK []]
    /\ g_pulse_active (w_globals w') = false
    /\ pulse_actions (w_trace w') = []
    /\ start_pulse boot_world = Some (tt, w'')
    /\ g_pulse_active (w_globals w'') = true
    /\ pulse_actions (w_trace w'')
       = [EvGpio SIGNAL_GPIO 1; EvTimerStartOnce 500000].
Proof.
  eexists _, _. split; [vm_compute; reflexivity|].
  split; [vm_compute; reflexivity|]. split; [reflexivity|].
  split; [reflexivity|]. split; [vm_compute; reflexivity|].
  split; reflexivity.
Qed.

(** ** Mode arbiter *)

(** The arbiter task on its own.  When nothing but attribute callbacks
    runs while an execution sleeps (the receiver task stores no mode
    meanwhile), the reports of the execution are three "off" reports
    followed by one "on" report: the "on" report is for the endpoint of the
    new current mode, the "off" reports are for the other three endpoints,
    one each, and none of them is for the endpoint of the new mode. *)
Lemma execution_alone_reports_off_then_on (now : Z) (w : world) :
  0 <= g_target_mode (w_globals w) <= 3 ->
  NoDup (ids_list (g_mode_plugin_ids (w_globals w))) ->
  wp (primary_execution now)
    (fun _ w' =>
       exists on_id offs,
         g_current_mode (w_globals w') = g_target_mode (w_globals w)
         /\ plugin_id (g_mode_plugin_ids (w_globals w'))
              (g_current_mode (w_globals w')) = Some on_id
         /\ reports (w_trace w')
            = reports (w_trace w)
              ++ map (fun id => (id, false)) offs ++ [(on_id, true)]
         /\ Permutation (on_id :: offs)
              (ids_list (g_mode_plugin_ids (w_globals w)))
         /\ ~ In on_id offs)
    w.
Proof.
  intros Ht Hnd.
  eapply wp_conseq; [apply wp_primary_execution, Ht|]. cbn beta.
  intros _ w' (e1 & _ & e3 & _ & _ & _ & _ & _ & (on_id & Hon & Hrep) & _).
  set (a := g_mode_plugin_ids (w_globals w)) in *.
  assert (Hcases : g_target_mode (w_globals w) = 0
                   \/ g_target_mode (w_globals w) = 1
                   \/ g_target_mode (w_globals w) = 2
                   \/ g_target_mode (w_globals w) = 3) by lia.
  unfold ids_list in *. apply NoDup_ListNoDup in Hnd.
  destruct Hcases as [E | [E | [E | E]]];
    rewrite E in *; cbn in Hon; injection Hon as <-;
    [ exists (id0 a), [id1 a; id2 a; id3 a]
    | exists (id1 a), [id0 a; id2 a; id3 a]
    | exists (id2 a), [id0 a; id1 a; id3 a]
    | exists (id3 a), [id0 a; id1 a; id2 a] ];
    (split; [exact e3|]);
    (split; [rewrite e1, e3; reflexivity|]);
    (split; [exact Hrep|]);
    (split; [| inversion Hnd as [|? ? H1 Hnd1]; subst;
                inversion Hnd1 as [|? ? H2 Hnd2]; subst;
                inversion Hnd2 as [|? ? H3 Hnd3]; subst;
                cbn in *; intuition congruence]).
  - reflexivity.
  - apply perm_swap.
  - apply (Permutation_middle [id0 a; id1 a] [id3 a] (id2 a)).
  - apply (Permutation_middle [id0 a; id1 a; id2 a] [] (id3 a)).
Qed.

(** C9, at the input where the code departs from it.  The variables are as
    [app_main] leaves them (current mode 0) and both tasks start at 0 ms.
    Mode 1 is tapped at 60 ms; the peer sends a valid SET_MODE frame for
    mode 3, which the third [uart_read_bytes] of the receiver task returns
    at 300 ms.  The arbiter starts to execute mode 1 at 260 ms: it sends
    SET_MODE 1 to the peer, reports modes 0, 2 and 3 off and goes to sleep
    for its 50 ms.  At 300 ms the receiver task stores 3 in
    [g_current_mode] and answers ACK.  At 340 ms the arbiter reads
    [g_current_mode] again and reports "on" for the endpoint of mode 3,
    which it has reported off 60 ms before; the endpoint of mode 1, the
    mode it has executed, is reported neither on nor off.  Without the
    frame the "on" report is for mode 1. *)
Theorem set_mode_frame_during_execution_redirects_on_report :
  (exists w',
     Tasks.rx_and_sync 200
       [(100, []); (100, []); (100, frame_of CMD_SET_MODE [3])] 27
       (mkWorld boot_globals 0 [(60000, tap (id1 sample_ids))] [])
     = Some (tt, w')
     /\ executions (w_trace w') = [(260000, 1)]
     /\ reports (w_trace w')
        = [(id0 sample_ids, false); (id2 sample_ids, false);
           (id3 sample_ids, false); (id3 sample_ids, true)]
     /\ g_current_mode (w_globals w') = 3
     /\ filter (fun te => bool_decide (260000 <= te.1 <= 340000))
          (w_trace w')
        = [(260000, EvLog (LogDebounceComplete 1 "Big Kid"));
           (260000, EvUartTx (frame_of CMD_SET_MODE [1]));
           (260000, EvLog (LogUartTx 5 CMD_SET_MODE));
           (260000, EvLog (LogSettingMode 1));
           (260000, EvReport (id0 sample_ids) false);
           (260000, EvLog (LogModeOff 0));
           (270000, EvReport (id2 sample_ids) false);
           (270000, EvLog (LogModeOff 2));
           (280000, EvReport (id3 sample_ids) false);
           (280000, EvLog (LogModeOff 3));
           (300000, EvLog (LogSetMode 3));
           (300000, EvUartTx (frame_of RSP_ACK []));
           (300000, EvLog (LogUartTx 4 RSP_ACK));
           (300000, EvGpio LED_GPIO 0);
           (340000, EvReport (id3 sample_ids) true);
           (340000, EvLog (LogModeOn 3));
           (340000, EvLog (LogModeChangeComplete "Closed"))])
  /\ (exists w',
       Tasks.rx_and_sync 200 [(100, []); (100, []); (100, [])] 27
         (mkWorld boot_globals 0 [(60000, tap (id1 sample_ids))] [])
       = Some (tt, w')
       /\ executions (w_trace w') = [(260000, 1)]
       /\ reports (w_trace w')
          = [(id0 sample_ids, false); (id2 sample_ids, false);
             (id3 sample_ids, false); (id1 sample_ids, true)]
       /\ g_current_mode (w_globals w') = 1).
Proof.
  split.
  - eexists. split; [vm_compute; reflexivity|].
    split; [vm_compute; reflexivity|].
    split; [vm_compute; reflexivity|].
    split; [reflexivity|].
    vm_compute. reflexivity.
  - eexists. split; [vm_compute; reflexivity|].
    split; [vm_compute; reflexivity|].
    split; [vm_compute; reflexivity|].
    reflexivity.
Qed.

(** C2 (debounce collapse).  Mode 2 is tapped at 0 ms and mode 1 at 50 ms,
    the current mode being another than 1.  The loop, started at 0 ms, then
    performs no execution in its first 25 turns (0 ms to 240 ms) and
    exactly one, to mode 1 and stamped 250 ms, in the 26th; however long it
    runs after that, this remains the only execution.  Mode 2 is never
    executed. *)
Theorem debounce_collapse (g : globals) (n : nat) :
  NoDup (ids_list (g_mode_plugin_ids g)) ->
  g_current_mode g <> 1 ->
  g_syncing_modes g = false ->
  wp (vTaskDelay 0;; mode_sync_task n)
    (fun _ w' =>
       executions (w_trace w')
       = if Z.of_nat n <? 26 then [] else [(250000, 1)])
    (mkWorld g 0
       [(0, tap (id2 (g_mode_plugin_ids g)));
        (50000, tap (id1 (g_mode_plugin_ids g)))] []).
Proof.
  intros Hnd Hcur Hs. apply wp_bind.
  eapply wp_conseq; [apply debounce_start; assumption|].
  cbn beta. intros _ w0 H0.
  eapply wp_conseq;
    [apply (debounce_phase_task (g_mode_plugin_ids g) 0 n 0);
     [exact Hnd | lia | lia | exact H0]|].
  cbn beta. intros _ w' H'.
  exact (debounce_phase_executions _ _ _ _ H').
Qed.

Lemma debounce_collapse_witness :
  wp (vTaskDelay 0;; mode_sync_task 40)
    (fun _ w' => executions (w_trace w') = [(250000, 1)])
    (mkWorld boot_globals 0 [(0, tap 4); (50000, tap 3)] []).
Proof.
  apply (debounce_collapse boot_globals 40).
  - apply NoDup_ListNoDup.
    repeat (constructor; [cbn; intuition discriminate|]). constructor.
  - cbn. discriminate.
  - reflexivity.
Defined.

(** C3, at the input where the code departs from it.  From the state
    [app_main] leaves, mode 1 is tapped at 0 ms and executed at 200 ms;
    at 1000 ms mode 1, by then the current mode, is tapped again.  This
    target is never executed and never cleared, so the check at the end of
    each turn clears the one-shot flag again and again: the re-assertion of
    6000 ms is followed by one at 6090 ms and one at 6180 ms, with no tap
    in between, and the state reached is one from which every further turn
    re-asserts once more ([stuck_target_task]). *)
Theorem same_mode_tap_reasserts_every_turn :
  exists w',
    (vTaskDelay 0;; mode_sync_task 595)
      (mkWorld boot_globals 0
         [(0, tap (id1 sample_ids)); (1000000, tap (id1 sample_ids))] [])
    = Some (tt, w')
    /\ executions (w_trace w') = [(200000, 1)]
    /\ g_last_tap_time (w_globals w') = 1000000
    /\ reassertions (w_trace w') = [6000000; 6090000; 6180000]
    /\ stuck_target w'.
Proof.
  eexists. split; [vm_compute; reflexivity|].
  split; [vm_compute; reflexivity|].
  split; [reflexivity|].
  split; [vm_compute; reflexivity|].
  repeat split; cbn; lia.
Qed.

(** * Further properties of the code *)

(** ** CRC-8 *)

Lemma crc8_byte_self c : crc8_byte c c = 0.
Proof. unfold crc8_byte. rewrite Z.lxor_nilpotent. reflexivity. Qed.

Lemma crc8_whole (l : list Z) :
  crc8 l (Z.of_nat (length l)) = fold_left crc8_byte l 0.
Proof. unfold crc8. rewrite Nat2Z.id, firstn_all. reflexivity. Qed.

(** X1.  A block followed by its own CRC has CRC 0: the check value is the
    remainder of the block, so that a receiver may as well run [crc8] over
    the data and the check byte together and compare with zero. *)
Theorem crc8_of_block_with_its_crc (data : list Z) :
  crc8 (data ++ [crc8 data (Z.of_nat (length data))])
    (Z.of_nat (length data) + 1) = 0.
Proof.
  replace (Z.of_nat (length data) + 1)
    with (Z.of_nat (length (data ++ [crc8 data (Z.of_nat (length data))])))
    by (rewrite length_app; cbn [length]; lia).
  rewrite !crc8_whole, fold_left_app. cbn [fold_left].
  apply crc8_byte_self.
Qed.

(** X2.  Two blocks of bytes that differ in exactly one position have
    different CRCs: no change confined to one byte goes unnoticed. *)
Theorem crc8_detects_one_changed_byte (pre post : list Z) (b b' : Z) :
  Forall is_byte pre -> Forall is_byte post -> is_byte b -> is_byte b' ->
  b <> b' ->
  crc8 (pre ++ b :: post) (Z.of_nat (length (pre ++ b :: post)))
  <> crc8 (pre ++ b' :: post) (Z.of_nat (length (pre ++ b' :: post))).
Proof.
  intros Hpre Hpost Hb Hb' Hne.
  apply crc8_one_byte_changed; assumption.
Qed.

Lemma crc8_detects_one_changed_byte_witness :
  crc8 ([0x02; 0x02] ++ 0x01 :: [0x07])
    (Z.of_nat (length ([0x02; 0x02] ++ 0x01 :: [0x07])))
  <> crc8 ([0x02; 0x02] ++ 0x03 :: [0x07])
       (Z.of_nat (length ([0x02; 0x02] ++ 0x03 :: [0x07]))).
Proof.
  apply (crc8_detects_one_changed_byte [0x02; 0x02] [0x07] 0x01 0x03);
    repeat constructor; unfold is_byte; lia.
Defined.

(** ** Frame encoder *)

Lemma uart_frame_bytes_overrun cmd p :
  (60 < length p <= 255)%nat ->
  uart_frame_bytes cmd (Some p) (Z.of_nat (length p)) = None.
Proof.
  intros Hlen. unfold uart_frame_bytes.
  set (n := Z.of_nat (length p)).
  assert (Hn : 60 < n <= 255) by lia.
  rewrite (u8_small (0 + 1)), (u8_small (0 + 1 + 1)),
    (u8_small (0 + 1 + 1 + 1)) by lia.
  change (store (replicate 64 0) 0 FRAME_START)
    with (Some (FRAME_START :: replicate 63 0)).
  cbn [mbind option_bind].
  change (store (FRAME_START :: replicate 63 0) (0 + 1) (u8 (1 + n)))
    with (Some (FRAME_START :: u8 (1 + n) :: replicate 62 0)).
  cbn [mbind option_bind].
  change (store (FRAME_START :: u8 (1 + n) :: replicate 62 0) (0 + 1 + 1) cmd)
    with (Some ([FRAME_START; u8 (1 + n); cmd] ++ replicate 61 0)).
  cbn [mbind option_bind].
  replace (n >? 0) with true
    by (symmetry; rewrite Z.gtb_ltb; apply Z.ltb_lt; lia).
  destruct (Z.eq_dec n 61) as [E61 | N61].
  - (* the copy ends at the last element; the CRC goes one past it *)
    destruct (memcpy _ _ _ _) as [frame'|] eqn:Ecpy; [|reflexivity].
    cbn [mbind option_bind].
    assert (Hfl : length frame' = 64%nat).
    { unfold memcpy in Ecpy. destruct (_ && _ && _ && _); [|discriminate].
      injection Ecpy as <-.
      cbn [length]. rewrite length_app, length_take, length_drop.
      cbn [length]. lia. }
    rewrite E61. change (u8 (0 + 1 + 1 + 1 + 61)) with 64.
    unfold store. rewrite Hfl. reflexivity.
  - unfold memcpy.
    replace (0 + 1 + 1 + 1 + n <=? _) with false;
      [rewrite andb_false_r; reflexivity|].
    symmetry. apply Z.leb_gt. rewrite length_app, length_replicate.
    cbn [length]. lia.
Qed.

(** X3.  The encoder writes past its 64-byte [frame] exactly when the payload
    is longer than 60 bytes: up to 60 bytes every store is in range and the
    frame is handed to the driver, from 61 bytes on a store lands outside
    the array (from 62 on the copy of the payload, at 61 the CRC). *)
Theorem encoder_overruns_frame_beyond_60 (cmd : Z) (p : list Z) :
  (length p <= 255)%nat ->
  uart_frame_bytes cmd (Some p) (Z.of_nat (length p)) = None
  <-> (60 < length p)%nat.
Proof.
  intros Hlen. split.
  - intros Hnone. destruct (le_lt_dec (length p) 60) as [Hle | Hgt]; [|exact Hgt].
    rewrite uart_frame_bytes_some in Hnone by exact Hle. discriminate.
  - intros Hgt. apply uart_frame_bytes_overrun. lia.
Qed.

Lemma encoder_overruns_frame_beyond_60_witness :
  uart_frame_bytes CMD_SET_MODE (Some (replicate 61 0))
    (Z.of_nat (length (replicate 61 0))) = None
  <-> (60 < length (replicate 61 0))%nat.
Proof.
  apply (encoder_overruns_frame_beyond_60 CMD_SET_MODE (replicate 61 0)).
  vm_compute. lia.
Defined.

(** ** The longest frame the receiver takes *)

(** X4.  A payload of 59 bytes still makes the round trip: its frame has the
    length byte 60, the largest the receiver accepts, and fills 63 of the 64
    bytes of [frame_buf]; the command and the 59 payload bytes the receiver
    then holds are the encoded ones, byte for byte, and whatever code stood
    in the place of the dispatch code ([on_frame]), it would be run once
    and be given them. *)
Theorem payload_of_59_bytes_round_trips (c : Z) (payload : list Z)
    (rx : rx_locals) (w : world) :
  length payload = 59%nat ->
  wait_start rx ->
  exists frame rx',
    uart_frame_bytes c (Some payload) 59 = Some frame
    /\ length frame = 63%nat
    /\ uart_rx_bytes rx frame w
       = (dispatch_frame c (Some payload) 59;; ret rx') w
    /\ (forall on_frame,
          uart_rx_bytes_with on_frame rx frame w
          = (on_frame c (Some payload) 59;; ret rx') w)
    /\ decoded rx' = (c, payload)
    /\ payload_ptr (frame_buf rx') 59 = Some payload
    /\ wait_start rx'.
Proof.
  intros Hlen Hrx.
  destruct (rx_valid_frame_decoded rx c payload Hrx)
    as (rx' & Hrx' & Hdec & E & Ewith); [lia|].
  exists (frame_of c payload), rx'.
  assert (Hp : payload_arg payload = Some payload)
    by (destruct payload; [discriminate | reflexivity]).
  pose proof (decoded_payload_ptr _ _ _ Hdec) as Hptr.
  specialize (E w). rewrite Hlen, Hp in E, Hptr.
  change (Z.of_nat 59) with 59 in E, Hptr.
  split; [|split; [|split; [|split; [|split; [|split]]]]].
  - change 59 with (Z.of_nat 59). rewrite <- Hlen.
    apply uart_frame_bytes_some. lia.
  - unfold frame_of. rewrite !length_app. cbn [length]. lia.
  - exact E.
  - intros h. specialize (Ewith h w). rewrite Hlen, Hp in Ewith.
    exact Ewith.
  - exact Hdec.
  - exact Hptr.
  - exact Hrx'.
Qed.

Lemma payload_of_59_bytes_round_trips_witness :
  exists frame rx',
    uart_frame_bytes CMD_PING (Some (replicate 59 0x11)) 59 = Some frame
    /\ length frame = 63%nat
    /\ uart_rx_bytes rx_init frame boot_world
       = (dispatch_frame CMD_PING (Some (replicate 59 0x11)) 59;; ret rx')
           boot_world
    /\ (forall on_frame,
          uart_rx_bytes_with on_frame rx_init frame boot_world
          = (on_frame CMD_PING (Some (replicate 59 0x11)) 59;; ret rx')
              boot_world)
    /\ decoded rx' = (CMD_PING, replicate 59 0x11)
    /\ payload_ptr (frame_buf rx') 59 = Some (replicate 59 0x11)
    /\ wait_start rx'.
Proof.
  apply (payload_of_59_bytes_round_trips CMD_PING (replicate 59 0x11) rx_init
           boot_world).
  - reflexivity.
  - repeat split.
Defined.

(** X5.  A payload of 60 bytes does not make the round trip.  The encoder
    frames it, with the length byte 61; the receiver refuses that length
    byte, logs it and goes back to waiting for a start byte, so that the
    rest of the frame (command, payload, CRC) is read as a fresh stream and
    the frame itself is never dispatched. *)
Theorem frame_of_60_bytes_refused (c : Z) (payload : list Z)
    (rx : rx_locals) (w : world) :
  length payload = 60%nat ->
  wait_start rx ->
  exists crc rx1,
    uart_frame_bytes c (Some payload) 60
    = Some ([FRAME_START; 61; c] ++ payload ++ [crc])
    /\ wait_start rx1
    /\ uart_rx_bytes rx ([FRAME_START; 61; c] ++ payload ++ [crc]) w
       = (log (LogInvalidLength 61);;
          uart_rx_bytes rx1 ([c] ++ payload ++ [crc])) w
    /\ (Forall (fun b => b <> FRAME_START) ([c] ++ payload ++ [crc]) ->
        uart_rx_bytes rx ([FRAME_START; 61; c] ++ payload ++ [crc]) w
        = Some (rx1, mkWorld (w_globals w) (w_clock w) (w_pending w)
                       (w_trace w
                        ++ [(w_clock w, EvLog (LogInvalidLength 61))]))).
Proof.
  intros Hlen (Hs & Hi & Hbuf).
  destruct rx as [buf idx st fl btr c0].
  cbn [state buf_idx frame_buf] in *. subst st idx.
  destruct buf as [|x0 [|x1 buf2]]; try (cbn in Hbuf; lia).
  exists (crc8 ([61; c] ++ payload) 62),
    (mkRx ([FRAME_START; 61] ++ buf2) 0 0 61 btr c0).
  assert (E : uart_rx_bytes (mkRx (x0 :: x1 :: buf2) 0 0 fl btr c0)
                ([FRAME_START; 61; c] ++ payload
                 ++ [crc8 ([61; c] ++ payload) 62]) w
              = (log (LogInvalidLength 61);;
                 uart_rx_bytes (mkRx ([FRAME_START; 61] ++ buf2) 0 0 61 btr c0)
                   ([c] ++ payload ++ [crc8 ([61; c] ++ payload) 62])) w).
  { cbn [app uart_rx_bytes]. unfold bind at 1.
    rewrite (rx_byte_start _ _ _ _ [] x0 (x1 :: buf2)) by reflexivity.
    unfold bind at 1.
    rewrite (rx_byte_length_bad [FRAME_START] x1 buf2) by (cbn [length]; lia).
    unfold bind, log, emit, ret. reflexivity. }
  split; [|split; [|split]].
  - change 60 with (Z.of_nat 60). rewrite <- Hlen.
    rewrite uart_frame_bytes_some by lia. unfold frame_of.
    rewrite Hlen. reflexivity.
  - repeat split. cbn [frame_buf app length] in *. lia.
  - exact E.
  - intros Hno. rewrite E. unfold bind, log, emit.
    apply rx_skip_garbage; [reflexivity | exact Hno].
Qed.

Lemma frame_of_60_bytes_refused_witness :
  exists crc rx1,
    uart_frame_bytes CMD_PING (Some (replicate 60 0x11)) 60
    = Some ([FRAME_START; 61; CMD_PING] ++ replicate 60 0x11 ++ [crc])
    /\ wait_start rx1
    /\ uart_rx_bytes rx_init
         ([FRAME_START; 61; CMD_PING] ++ replicate 60 0x11 ++ [crc])
         boot_world
       = (log (LogInvalidLength 61);;
          uart_rx_bytes rx1 ([CMD_PING] ++ replicate 60 0x11 ++ [crc]))
           boot_world
    /\ (Forall (fun b => b <> FRAME_START)
          ([CMD_PING] ++ replicate 60 0x11 ++ [crc]) ->
        uart_rx_bytes rx_init
          ([FRAME_START; 61; CMD_PING] ++ replicate 60 0x11 ++ [crc])
          boot_world
        = Some (rx1, mkWorld (w_globals boot_world) (w_clock boot_world)
                       (w_pending boot_world)
                       (w_trace boot_world
                        ++ [(w_clock boot_world,
                             EvLog (LogInvalidLength 61))]))).
Proof.
  apply (frame_of_60_bytes_refused CMD_PING (replicate 60 0x11) rx_init
           boot_world).
  - reflexivity.
  - repeat split.
Defined.

(** ** LED patterns *)

(** X6.  With no callback falling due meanwhile, and for durations that are
    whole scheduler ticks (multiples of 10 ms, as all the durations in the
    source are: whole ticks at a tick rate of 100 Hz as at 1000 Hz),
    [led_blink] drives the LED pin low and high [count] times, the pin
    staying low (LED lit) for [on_ms] and high for [off_ms] between two
    blinks but not after the last one, and returns
    [count * on_ms + (count - 1) * off_ms] milliseconds after the call; it
    touches no variable and nothing but the LED pin. *)
Theorem led_blink_returns_after_pattern (count on_ms off_ms : Z) (w : world) :
  1 <= count -> 0 <= on_ms -> 0 <= off_ms ->
  on_ms mod 10 = 0 -> off_ms mod 10 = 0 -> w_pending w = [] ->
  led_blink count on_ms off_ms w
  = Some (tt, mkWorld (w_globals w)
                (w_clock w + (count * on_ms + (count - 1) * off_ms) * 1000)
                []
                (w_trace w
                 ++ blink_events (Z.to_nat count) (w_clock w) (on_ms * 1000)
                      (off_ms * 1000))).
Proof.
  intros Hc _ _ _ _ Hq. apply wp_eq. apply wp_led_blink_exact; auto.
Qed.

Lemma led_blink_returns_after_pattern_witness :
  led_blink 2 100 100 boot_world
  = Some (tt, mkWorld (w_globals boot_world)
                (w_clock boot_world + (2 * 100 + (2 - 1) * 100) * 1000) []
                (w_trace boot_world
                 ++ blink_events (Z.to_nat 2) (w_clock boot_world)
                      (100 * 1000) (100 * 1000))).
Proof.
  apply (led_blink_returns_after_pattern 2 100 100 boot_world);
    [lia | lia | lia | reflexivity | reflexivity | reflexivity].
Defined.

(** ** Command handlers *)

Lemma frame_of_RSP_ACK : frame_of RSP_ACK [] = [0xA5; 0x01; 0x80; 0x8E].
Proof. vm_compute. reflexivity. Qed.

Lemma frame_of_RSP_ERR : frame_of RSP_ERR [] = [0xA5; 0x01; 0x81; 0xBF].
Proof. vm_compute. reflexivity. Qed.

Lemma frame_of_RSP_BUSY : frame_of RSP_BUSY [] = [0xA5; 0x01; 0x82; 0xEC].
Proof. vm_compute. reflexivity. Qed.

(** X7.  HELLO and PING are answered before anything else: the ACK frame
    [A5 01 80 8E] is written at the time of the call, whatever the payload,
    and only then does the LED pattern run (three blinks of 300 ms for
    HELLO, two of 100 ms for PING), so that the handler returns 1500 ms,
    respectively 300 ms, later.  No variable changes. *)
Theorem hello_and_ping_answer_before_blinking (payload : option (list Z))
    (len : Z) (w : world) :
  w_pending w = [] ->
  handle_cmd_hello payload len w
  = Some (tt, mkWorld (w_globals w) (w_clock w + 1500000) []
                (w_trace w
                 ++ [(w_clock w, EvLog LogCmdHello);
                     (w_clock w, EvUartTx [0xA5; 0x01; 0x80; 0x8E]);
                     (w_clock w, EvLog (LogUartTx 4 RSP_ACK))]
                 ++ blink_events 3 (w_clock w) 300000 300000))
  /\ handle_cmd_ping payload len w
     = Some (tt, mkWorld (w_globals w) (w_clock w + 300000) []
                   (w_trace w
                    ++ [(w_clock w, EvLog LogCmdPing);
                        (w_clock w, EvUartTx [0xA5; 0x01; 0x80; 0x8E]);
                        (w_clock w, EvLog (LogUartTx 4 RSP_ACK))]
                    ++ blink_events 2 (w_clock w) 100000 100000)).
Proof.
  intros Hq. destruct w as [g clk q tr]. cbn in Hq. subst q.
  cbn [w_globals w_clock w_pending w_trace].
  split; apply wp_eq.
  - unfold handle_cmd_hello, led_hello. wp_run.
    apply wp_led_blink_exact; [lia | reflexivity |].
    cbn [w_globals w_clock w_pending w_trace].
    rewrite frame_of_RSP_ACK, <- !app_assoc. cbn [app Z.to_nat Pos.to_nat].
    split; reflexivity.
  - unfold handle_cmd_ping, led_ack. wp_run.
    apply wp_led_blink_exact; [lia | reflexivity |].
    cbn [w_globals w_clock w_pending w_trace].
    rewrite frame_of_RSP_ACK, <- !app_assoc. cbn [app Z.to_nat Pos.to_nat].
    split; reflexivity.
Qed.

Lemma hello_and_ping_answer_before_blinking_witness :
  handle_cmd_hello None 0 boot_world
  = Some (tt, mkWorld (w_globals boot_world) (w_clock boot_world + 1500000) []
                (w_trace boot_world
                 ++ [(w_clock boot_world, EvLog LogCmdHello);
                     (w_clock boot_world, EvUartTx [0xA5; 0x01; 0x80; 0x8E]);
                     (w_clock boot_world, EvLog (LogUartTx 4 RSP_ACK))]
                 ++ blink_events 3 (w_clock boot_world) 300000 300000))
  /\ handle_cmd_ping None 0 boot_world
     = Some (tt, mkWorld (w_globals boot_world) (w_clock boot_world + 300000)
                   []
                   (w_trace boot_world
                    ++ [(w_clock boot_world, EvLog LogCmdPing);
                        (w_clock boot_world,
                         EvUartTx [0xA5; 0x01; 0x80; 0x8E]);
                        (w_clock boot_world, EvLog (LogUartTx 4 RSP_ACK))]
                    ++ blink_events 2 (w_clock boot_world) 100000 100000)).
Proof.
  apply (hello_and_ping_answer_before_blinking None 0 boot_world).
  reflexivity.
Defined.

(** ** What the receiver does with a decoded frame *)

(** X8.  A frame whose command byte is 0x80 or above (a response) is decoded
    and logged, and that is all: the receiver answers nothing, changes no
    variable and takes no time, whatever the payload.  So the node never
    answers an answer. *)
Theorem response_frames_are_not_answered (c : Z) (p : list Z)
    (rx : rx_locals) (w : world) :
  0x80 <= c -> (length p <= 59)%nat -> wait_start rx ->
  exists frame rx',
    uart_frame_bytes c (Some p) (Z.of_nat (length p)) = Some frame
    /\ uart_rx_bytes rx frame w
       = Some (rx', mkWorld (w_globals w) (w_clock w) (w_pending w)
                      (w_trace w ++ [(w_clock w, EvLog (LogResponse c))]))
    /\ wait_start rx'.
Proof.
  intros Hc Hlen Hrx.
  destruct (rx_valid_frame rx c p w Hrx Hlen) as (rx' & E & Hrx').
  exists (frame_of c p), rx'.
  split; [apply uart_frame_bytes_some; lia|]. split; [|exact Hrx'].
  rewrite E. unfold dispatch_frame.
  replace (c >=? 128) with true by (symmetry; apply geb_true; lia).
  reflexivity.
Qed.

Lemma response_frames_are_not_answered_witness :
  exists frame rx',
    uart_frame_bytes RSP_ACK (Some []) (Z.of_nat (length (@nil Z)))
    = Some frame
    /\ uart_rx_bytes rx_init frame boot_world
       = Some (rx', mkWorld (w_globals boot_world) (w_clock boot_world)
                      (w_pending boot_world)
                      (w_trace boot_world
                       ++ [(w_clock boot_world, EvLog (LogResponse RSP_ACK))]))
    /\ wait_start rx'.
Proof.
  apply (response_frames_are_not_answered RSP_ACK [] rx_init boot_world).
  - unfold RSP_ACK. lia.
  - cbn. lia.
  - repeat split.
Defined.

(** X9.  A frame whose command byte is below 0x80 and is none of HELLO,
    SET_MODE, TRIGGER and PING is answered with ERR [A5 01 81 BF] at once,
    followed by the error pattern of the LED (five blinks, 450 ms); no
    variable changes.  The two status commands this node itself sends
    ([CMD_STATUS_PAIRED], [CMD_STATUS_UNPAIRED]) are among the commands so
    refused. *)
Theorem unknown_commands_are_answered_ERR (c : Z) (p : list Z)
    (rx : rx_locals) (w : world) :
  0 <= c < 0x80 ->
  c <> CMD_HELLO -> c <> CMD_SET_MODE -> c <> CMD_TRIGGER -> c <> CMD_PING ->
  (length p <= 59)%nat -> wait_start rx -> w_pending w = [] ->
  exists frame rx',
    uart_frame_bytes c (Some p) (Z.of_nat (length p)) = Some frame
    /\ uart_rx_bytes rx frame w
       = Some (rx', mkWorld (w_globals w) (w_clock w + 450000) []
                      (w_trace w
                       ++ [(w_clock w, EvLog (LogUnknownCommand c));
                           (w_clock w, EvUartTx [0xA5; 0x01; 0x81; 0xBF]);
                           (w_clock w, EvLog (LogUartTx 4 RSP_ERR))]
                       ++ blink_events 5 (w_clock w) 50000 50000))
    /\ wait_start rx'.
Proof.
  intros Hc H1 H2 H3 H4 Hlen Hrx Hq.
  destruct (rx_valid_frame rx c p w Hrx Hlen) as (rx' & E & Hrx').
  exists (frame_of c p), rx'.
  split; [apply uart_frame_bytes_some; lia|]. split; [|exact Hrx'].
  rewrite E. destruct w as [g clk q tr]. cbn in Hq. subst q.
  cbn [w_globals w_clock w_pending w_trace].
  apply wp_eq. unfold dispatch_frame.
  replace (c >=? 128) with false by (symmetry; apply geb_false; lia).
  apply Z.eqb_neq in H1, H2, H3, H4. rewrite H1, H2, H3, H4.
  unfold led_error. wp_run.
  apply wp_led_blink_exact; [lia | reflexivity |].
  cbn [w_globals w_clock w_pending w_trace]. wp_run.
  rewrite frame_of_RSP_ERR, <- !app_assoc. cbn [app Z.to_nat Pos.to_nat].
  split; reflexivity.
Qed.

Lemma unknown_commands_are_answered_ERR_witness :
  exists frame rx',
    uart_frame_bytes CMD_STATUS_PAIRED (Some [])
      (Z.of_nat (length (@nil Z))) = Some frame
    /\ uart_rx_bytes rx_init frame boot_world
       = Some (rx', mkWorld (w_globals boot_world)
                      (w_clock boot_world + 450000) []
                      (w_trace boot_world
                       ++ [(w_clock boot_world,
                            EvLog (LogUnknownCommand CMD_STATUS_PAIRED));
                           (w_clock boot_world,
                            EvUartTx [0xA5; 0x01; 0x81; 0xBF]);
                           (w_clock boot_world, EvLog (LogUartTx 4 RSP_ERR))]
                       ++ blink_events 5 (w_clock boot_world) 50000 50000))
    /\ wait_start rx'.
Proof.
  apply (unknown_commands_are_answered_ERR CMD_STATUS_PAIRED [] rx_init
           boot_world);
    try (unfold CMD_STATUS_PAIRED, CMD_HELLO, CMD_SET_MODE, CMD_TRIGGER,
           CMD_PING; lia).
  - cbn. lia.
  - repeat split.
  - reflexivity.
Defined.

(** ** The receiver over a stream *)

(** X10.  A frame that the driver hands over in two reads, cut at any
    point, is decoded like one that comes in a single read.  The first
    part changes nothing but the locals of the receiver, whatever the
    state of the program at that time; and whatever happens until the
    second part is read (time passing, callbacks, the other task: the
    second state is any state), the second part completes the frame: the
    dispatch code runs once (as would any code in its place, [on_frame]),
    on the command and the payload of the frame, which the receiver then
    holds byte for byte.  In the loop of the task, where the two calls of
    [uart_read_bytes] block for [t1] and [t2] milliseconds and the
    callbacks due meanwhile run, the frame is dispatched when the second
    call returns. *)
Theorem frame_cut_into_two_reads_is_decoded (c : Z) (p a b : list Z)
    (rx : rx_locals) :
  wait_start rx -> (length p <= 59)%nat ->
  frame_of c p = a ++ b -> b <> [] ->
  exists rx_a rx',
    (forall w, uart_rx_bytes rx a w = Some (rx_a, w))
    /\ (forall w',
          uart_rx_bytes rx_a b w'
          = (dispatch_frame c (payload_arg p) (Z.of_nat (length p));;
             ret rx') w')
    /\ (forall on_frame w w',
          uart_rx_bytes_with on_frame rx a w = Some (rx_a, w)
          /\ uart_rx_bytes_with on_frame rx_a b w'
             = (on_frame c (payload_arg p) (Z.of_nat (length p));;
                ret rx') w')
    /\ (forall t1 t2 w,
          Tasks.run (Tasks.uart_rx_loop rx [(t1, a); (t2, b)]) w
          = (vTaskDelay t1;; vTaskDelay t2;;
             dispatch_frame c (payload_arg p) (Z.of_nat (length p));;
             ret rx') w)
    /\ decoded rx' = (c, p)
    /\ wait_start rx'.
Proof.
  intros Hrx Hlen Hab Hb.
  destruct (rx_frame_prefix rx c p a b Hrx Hlen Hab Hb) as (rx_a & Hwith).
  destruct (rx_valid_frame_decoded rx c p Hrx Hlen)
    as (rx' & Hrx' & Hdec & E & Ewith).
  assert (Ha : forall w, uart_rx_bytes rx a w = Some (rx_a, w)).
  { intros w. rewrite <- uart_rx_bytes_with_dispatch_frame. apply Hwith. }
  assert (Hb' : forall w',
            uart_rx_bytes rx_a b w'
            = (dispatch_frame c (payload_arg p) (Z.of_nat (length p));;
               ret rx') w').
  { intros w'. rewrite <- E, Hab, uart_rx_bytes_app.
    rewrite (bind_Some _ _ _ _ _ (Ha w')). reflexivity. }
  exists rx_a, rx'. split; [exact Ha|]. split; [exact Hb'|].
  split; [|split; [|split; assumption]].
  { intros h w w'. split; [apply Hwith|].
    rewrite <- Ewith, Hab, uart_rx_bytes_with_app.
    rewrite (bind_Some _ _ _ _ _ (Hwith h w')). reflexivity. }
  intros t1 t2 w. cbn [Tasks.uart_rx_loop].
  rewrite run_tbind, !bind_unfold, run_uart_read_bytes, !bind_unfold.
  cbn [fst snd].
  destruct (vTaskDelay t1 w) as [[[] w1]|]; [|reflexivity].
  cbn [ret].
  rewrite run_tbind, !bind_unfold, run_uart_rx_bytes, Ha.
  rewrite run_tbind, !bind_unfold, run_uart_read_bytes, !bind_unfold.
  cbn [fst snd].
  destruct (vTaskDelay t2 w1) as [[[] w2]|]; [|reflexivity].
  cbn [ret].
  rewrite run_tbind, !bind_unfold, run_uart_rx_bytes, Hb', !bind_unfold.
  destruct (dispatch_frame c (payload_arg p) (Z.of_nat (length p)) w2)
    as [[[] w3]|]; reflexivity.
Qed.

Lemma frame_cut_into_two_reads_is_decoded_witness :
  exists rx_a rx',
    (forall w, uart_rx_bytes rx_init [0xA5; 0x03; 0x02] w = Some (rx_a, w))
    /\ (forall w',
          uart_rx_bytes rx_a [0x03; 0x09; 0xB5] w'
          = (dispatch_frame CMD_SET_MODE (payload_arg [3; 9])
               (Z.of_nat (length [3; 9]));;
             ret rx') w')
    /\ (forall on_frame w w',
          uart_rx_bytes_with on_frame rx_init [0xA5; 0x03; 0x02] w
          = Some (rx_a, w)
          /\ uart_rx_bytes_with on_frame rx_a [0x03; 0x09; 0xB5] w'
             = (on_frame CMD_SET_MODE (payload_arg [3; 9])
                  (Z.of_nat (length [3; 9]));;
                ret rx') w')
    /\ (forall t1 t2 w,
          Tasks.run
            (Tasks.uart_rx_loop rx_init
               [(t1, [0xA5; 0x03; 0x02]); (t2, [0x03; 0x09; 0xB5])]) w
          = (vTaskDelay t1;; vTaskDelay t2;;
             dispatch_frame CMD_SET_MODE (payload_arg [3; 9])
               (Z.of_nat (length [3; 9]));;
             ret rx') w)
    /\ decoded rx' = (CMD_SET_MODE, [3; 9])
    /\ wait_start rx'.
Proof.
  apply (frame_cut_into_two_reads_is_decoded CMD_SET_MODE [3; 9]
           [0xA5; 0x03; 0x02] [0x03; 0x09; 0xB5] rx_init).
  - repeat split.
  - cbn. lia.
  - vm_compute. reflexivity.
  - discriminate.
Defined.

Lemma total_dispatch_all frames : total (dispatch_all frames).
Proof.
  induction frames as [|[c p] frames IH]; cbn [dispatch_all];
    [apply total_ret|].
  apply total_bind; [|intros _; exact IH].
  apply total_dispatch_frame, payload_arg_deref.
Qed.

(** X11.  Frames sent back to back are decoded one after the other: fed the
    concatenation of any number of well-formed frames (payloads of at most
    59 bytes), the receiver runs the dispatch code once per frame, in the
    order of arrival, and ends waiting for a start byte; every one of these
    calls returns.  Whatever code stood in the place of the dispatch code
    ([on_frame]), it would be run once per frame, in that order, and be
    given each time the command, the payload and the payload length of
    that frame.  Frame by frame, when the receiver has taken the bytes up
    to the end of a frame, the command and the payload it holds are those
    of that frame, byte for byte.  No frame is lost or merged with its
    neighbour, also when a payload holds the start marker. *)
Theorem back_to_back_frames_are_dispatched_in_order
    (frames : list (Z * list Z)) (rx : rx_locals) (w : world) :
  wait_start rx ->
  Forall (fun cp => (length (snd cp) <= 59)%nat) frames ->
  total (dispatch_all frames)
  /\ (exists rx',
        uart_rx_bytes rx (wire frames) w = (dispatch_all frames;; ret rx') w
        /\ (forall on_frame,
              uart_rx_bytes_with on_frame rx (wire frames) w
              = (on_frames on_frame frames;; ret rx') w)
        /\ wait_start rx')
  /\ (forall before c p after,
        frames = before ++ (c, p) :: after ->
        exists rx_k,
          uart_rx_bytes rx (wire (before ++ [(c, p)])) w
          = (dispatch_all (before ++ [(c, p)]);; ret rx_k) w
          /\ decoded rx_k = (c, p)
          /\ wait_start rx_k).
Proof.
  intros Hrx Hall. split; [apply total_dispatch_all|]. split.
  - destruct (rx_valid_frames_with frames rx Hrx Hall) as (rx' & Hrx' & _ & E).
    exists rx'. split; [|split; [intros h; apply E | exact Hrx']].
    rewrite <- uart_rx_bytes_with_dispatch_frame, E, on_frames_dispatch_frame.
    reflexivity.
  - intros before c p after ->.
    assert (Hall' : Forall (fun cp => (length (snd cp) <= 59)%nat)
                      (before ++ [(c, p)])).
    { apply Forall_app in Hall as [H1 H2]. apply Forall_app. split; [exact H1|].
      apply Forall_cons_1 in H2 as [H2 _]. apply Forall_cons_2;
        [exact H2 | apply Forall_nil_2]. }
    destruct (rx_valid_frames_with _ rx Hrx Hall')
      as (rx_k & Hrx_k & Hlast & E).
    exists rx_k. split; [|split; [|exact Hrx_k]].
    + rewrite <- uart_rx_bytes_with_dispatch_frame, E,
        on_frames_dispatch_frame.
      reflexivity.
    + apply Hlast. apply last_snoc.
Qed.

Lemma back_to_back_frames_are_dispatched_in_order_witness :
  total (dispatch_all [(CMD_PING, [0xA5; 0x01]); (CMD_SET_MODE, [2]);
                       (RSP_ACK, [])])
  /\ (exists rx',
        uart_rx_bytes rx_init
          (wire [(CMD_PING, [0xA5; 0x01]); (CMD_SET_MODE, [2]); (RSP_ACK, [])])
          boot_world
        = (dispatch_all [(CMD_PING, [0xA5; 0x01]); (CMD_SET_MODE, [2]);
                         (RSP_ACK, [])];;
           ret rx') boot_world
        /\ (forall on_frame,
              uart_rx_bytes_with on_frame rx_init
                (wire [(CMD_PING, [0xA5; 0x01]); (CMD_SET_MODE, [2]);
                       (RSP_ACK, [])]) boot_world
              = (on_frames on_frame
                   [(CMD_PING, [0xA5; 0x01]); (CMD_SET_MODE, [2]);
                    (RSP_ACK, [])];;
                 ret rx') boot_world)
        /\ wait_start rx')
  /\ (forall before c p after,
        [(CMD_PING, [0xA5; 0x01]); (CMD_SET_MODE, [2]); (RSP_ACK, [])]
        = before ++ (c, p) :: after ->
        exists rx_k,
          uart_rx_bytes rx_init (wire (before ++ [(c, p)])) boot_world
          = (dispatch_all (before ++ [(c, p)]);; ret rx_k) boot_world
          /\ decoded rx_k = (c, p)
          /\ wait_start rx_k).
Proof.
  apply (back_to_back_frames_are_dispatched_in_order
           [(CMD_PING, [0xA5; 0x01]); (CMD_SET_MODE, [2]); (RSP_ACK, [])]
           rx_init boot_world).
  - repeat split.
  - repeat constructor; cbn; lia.
Defined.

(** ** What the receiver never does *)

Lemma rx_frame_same w w' :
  w_globals w' = w_globals w -> w_trace w' = w_trace w -> rx_frame w w'.
Proof.
  intros Hg Ht. unfold rx_frame. rewrite Hg, Ht.
  do 8 (split; [reflexivity|]). split; [left; reflexivity|].
  do 2 (split; [reflexivity|]). exists []. rewrite app_nil_r. auto.
Qed.

Lemma rx_frame_trans w1 w2 w3 :
  rx_frame w1 w2 -> rx_frame w2 w3 -> rx_frame w1 w3.
Proof.
  intros (a1 & a2 & a3 & a4 & a5 & a6 & a7 & a8 & a9 & a10 & a11
          & s1 & a12 & a13)
         (b1 & b2 & b3 & b4 & b5 & b6 & b7 & b8 & b9 & b10 & b11
          & s2 & b12 & b13).
  unfold rx_frame. do 8 (split; [congruence|]).
  split; [destruct b9 as [b9|b9]; [rewrite b9; exact a9 | right; exact b9]|].
  do 2 (split; [congruence|]).
  exists (s1 ++ s2). split; [rewrite b12, a12, app_assoc; reflexivity|].
  apply Forall_app. auto.
Qed.

Ltac rx_frame_done :=
  unfold rx_frame; unfold_vars; views;
  repeat match goal with
    | H : uart_tx _ = _ |- _ => rewrite H
    | H : reports _ = _ |- _ => rewrite H
    | H : pulse_actions _ = _ |- _ => rewrite H
    | H : w_globals _ = _ |- _ => rewrite H
    end;
  unfold_vars; views;
  do 8 (split; [reflexivity|]);
  (split; [first [left; reflexivity | right; lia]|]);
  do 2 (split; [reflexivity|]);
  eexists; (split; [first [reflexivity | symmetry; apply app_nil_r]|]);
  repeat (apply Forall_cons_2; [unfold rx_answers; cbn [In]; auto|]);
  apply Forall_nil_2.

Lemma wp_dispatch_frame_frame c payload len w :
  (1 <= len -> exists m, deref payload 0 = Some m /\ is_byte m) ->
  w_pending w = [] ->
  wp (dispatch_frame c payload len)
    (fun _ w' => rx_frame w w' /\ w_pending w' = []) w.
Proof.
  intros Hp Hq. destruct w as [g clk q tr]. cbn in Hq. subst q.
  unfold dispatch_frame.
  destruct (c >=? 128).
  { wp_run. split; [rx_frame_done | reflexivity]. }
  destruct (c =? CMD_HELLO).
  { unfold handle_cmd_hello, led_hello. wp_run.
    apply wp_led_blink_idle; [reflexivity|]. unfold_vars.
    intros w' Hg Hq' Htx Hr Hpa _ _. split; [rx_frame_done | exact Hq']. }
  destruct (c =? CMD_PING).
  { unfold handle_cmd_ping, led_ack. wp_run.
    apply wp_led_blink_idle; [reflexivity|]. unfold_vars.
    intros w' Hg Hq' Htx Hr Hpa _ _. split; [rx_frame_done | exact Hq']. }
  destruct (c =? CMD_TRIGGER).
  { unfold handle_cmd_trigger, led_command_sent. wp_run.
    destruct (g_pulse_active g).
    - wp_run. split; [rx_frame_done | reflexivity].
    - wp_run. apply wp_led_blink_idle; [reflexivity|]. unfold_vars.
      intros w' Hg Hq' Htx Hr Hpa _ _. wp_run.
      split; [rx_frame_done | exact Hq']. }
  destruct (c =? CMD_SET_MODE).
  { unfold handle_cmd_set_mode, led_error.
    destruct (Z.ltb_spec len 1) as [Hl | Hl].
    - wp_run. apply wp_led_blink_idle; [reflexivity|]. unfold_vars.
      intros w' Hg Hq' Htx Hr Hpa _ _. split; [rx_frame_done | exact Hq'].
    - destruct (Hp Hl) as (m & Em & Hm). unfold is_byte in Hm.
      wp_step. apply (wp_lift _ m); [exact Em|].
      destruct (m >? 3) eqn:E3.
      + wp_run. apply wp_led_blink_idle; [reflexivity|]. unfold_vars.
        intros w' Hg Hq' Htx Hr Hpa _ _. split; [rx_frame_done | exact Hq'].
      + rewrite Z.gtb_ltb in E3. apply Z.ltb_ge in E3.
        wp_run. apply wp_led_blink_idle; [reflexivity|]. unfold_vars.
        intros w' Hg Hq' Htx Hr Hpa _ _. split; [rx_frame_done | exact Hq']. }
  unfold led_error. wp_run.
  apply wp_led_blink_idle; [reflexivity|]. unfold_vars.
  intros w' Hg Hq' Htx Hr Hpa _ _. split; [rx_frame_done | exact Hq'].
Qed.

Lemma payload_ptr_deref_byte buf n :
  length buf = 64%nat -> Forall is_byte buf -> 1 <= n ->
  exists m, deref (payload_ptr buf n) 0 = Some m /\ is_byte m.
Proof.
  intros Hbuf Hall Hn.
  destruct (payload_ptr_deref buf n Hbuf Hn) as [m Em]. exists m.
  split; [exact Em|].
  unfold payload_ptr in Em.
  replace (n >? 0) with true in Em
    by (symmetry; rewrite Z.gtb_ltb; apply Z.ltb_lt; lia).
  cbn [deref mbind option_bind] in Em.
  apply lookup_take_Some in Em. destruct Em as [Em _].
  rewrite lookup_drop in Em.
  exact (proj1 (Forall_lookup _ _) Hall _ _ Em).
Qed.

Lemma wp_uart_rx_byte_frame rx b w :
  rx_inv rx -> Forall is_byte (frame_buf rx) -> is_byte b ->
  w_pending w = [] ->
  wp (uart_rx_byte rx b)
    (fun rx' w' =>
       Forall is_byte (frame_buf rx') /\ rx_frame w w' /\ w_pending w' = [])
    w.
Proof.
  intros [Hbuf Hst] Hall Hb Hq. destruct rx as [buf idx st fl btr c0].
  cbn [frame_buf buf_idx state frame_len bytes_to_read cmd] in *.
  pose proof Hb as Hb'. unfold is_byte in Hb'.
  assert (Hins : forall i, Forall is_byte (<[i:=b]> buf))
    by (intros i; apply Forall_insert; assumption).
  destruct Hst as [[-> ->] | [[-> ->] | [(-> & Hbtr & Hfl & ->) | (-> & Hfl & ->)]]];
    unfold uart_rx_byte;
    cbn [frame_buf buf_idx state frame_len bytes_to_read cmd].
  - change (0 =? 0) with true. cbv iota.
    destruct (b =? FRAME_START).
    + rewrite store_Some by lia. cbn [lift]. wp_run.
      split; [apply Hins|]. split; [apply rx_frame_same; reflexivity | exact Hq].
    + wp_run.
      split; [exact Hall|]. split; [apply rx_frame_same; reflexivity | exact Hq].
  - change (1 =? 0) with false. change (1 =? 1) with true. cbv iota.
    rewrite store_Some by lia. cbn [lift]. wp_step. wp_step.
    destruct ((b =? 0) || (b >? 60)).
    + wp_run. split; [apply Hins|].
      split; [|exact Hq]. destruct w as [g clk q tr]. rx_frame_done.
    + wp_run. split; [apply Hins|].
      split; [apply rx_frame_same; reflexivity | exact Hq].
  - change (2 =? 0) with false. change (2 =? 1) with false.
    change (2 =? 2) with true. cbv iota.
    rewrite store_Some by lia. cbn [lift]. wp_run.
    split; [apply Hins|].
    split; [apply rx_frame_same; reflexivity | exact Hq].
  - change (3 =? 0) with false. change (3 =? 1) with false.
    change (3 =? 2) with false. change (3 =? 3) with true. cbv iota.
    rewrite store_Some by lia. cbn [lift]. wp_step. wp_step. wp_step.
    rewrite (u8_small (fl - 1)) by lia.
    destruct (_ =? b).
    + eapply wp_conseq.
      * apply wp_dispatch_frame_frame; [|exact Hq].
        intros Hn. apply payload_ptr_deref_byte;
          [rewrite length_insert; exact Hbuf | apply Hins | exact Hn].
      * cbn beta. intros _ w1 [Hf Hq1]. wp_run. cbn [frame_buf].
        split; [apply Hins|]. split; assumption.
    + destruct w as [g clk q tr]. cbn in Hq. subst q.
      unfold led_error. wp_run.
      apply wp_led_blink_idle; [reflexivity|]. unfold_vars.
      intros w' Hg Hq' Htx Hr Hpa _ _. wp_run.
      split; [apply Hins|]. split; [rx_frame_done | exact Hq'].
Qed.

Lemma wp_uart_rx_bytes_frame data : forall rx w,
  rx_inv rx -> Forall is_byte (frame_buf rx) -> Forall is_byte data ->
  w_pending w = [] ->
  wp (uart_rx_bytes rx data)
    (fun rx' w' => rx_inv rx' /\ rx_frame w w' /\ w_pending w' = []) w.
Proof.
  induction data as [|b data IH]; intros rx w Hinv Hall Hd Hq.
  - cbn [uart_rx_bytes]. apply wp_ret.
    split; [exact Hinv|]. split; [apply rx_frame_same; reflexivity | exact Hq].
  - inversion Hd as [|? ? Hb Hd']; subst.
    cbn [uart_rx_bytes]. apply wp_bind.
    destruct (uart_rx_byte_inv rx b w Hinv Hb) as (rx1 & w1 & E1 & Hinv1).
    destruct (wp_uart_rx_byte_frame rx b w Hinv Hall Hb Hq)
      as (rx2 & w2 & E2 & Hall2 & Hf2 & Hq2).
    rewrite E1 in E2. injection E2 as <- <-.
    exists rx1, w1. split; [exact E1|].
    eapply wp_conseq; [apply (IH rx1 w1 Hinv1 Hall2 Hd' Hq2)|].
    cbn beta. intros rx' w' (Hinv' & Hf' & Hq').
    split; [exact Hinv'|]. split; [exact (rx_frame_trans _ _ _ Hf2 Hf')|exact Hq'].
Qed.

Lemma uart_rx_task_frame reads w :
  Forall (Forall is_byte) reads -> w_pending w = [] ->
  wp (uart_rx_task reads) (fun rx' w' => rx_inv rx' /\ rx_frame w w') w.
Proof.
  intros Hr Hq. unfold uart_rx_task. wp_step. wp_step.
  assert (Hd : Forall is_byte (concat reads)) by (apply Forall_concat, Hr).
  destruct (wp_uart_rx_bytes_frame (concat reads) rx_init
              (mkWorld (w_globals w) (w_clock w) (w_pending w)
                 (w_trace w ++ [(w_clock w, EvLog LogUartRxStarted)]))
              rx_init_inv) as (rx' & w' & E & Hinv & Hf & _);
    [apply Forall_replicate; unfold is_byte; lia | exact Hd | exact Hq |].
  exists rx', w'. split; [rewrite uart_rx_loop_concat; exact E|].
  split; [exact Hinv|].
  refine (rx_frame_trans _ _ _ _ Hf).
  destruct w as [g clk q tr]. rx_frame_done.
Qed.

(** X12.  Whatever bytes arrive, the receiver task and the handlers it calls
    leave the arbiter and the pulse alone: of the variables only
    [g_current_mode] can change (a valid SET_MODE sets it), and it then
    holds a mode; nothing is reported to the Matter data model, the signal
    pin is not driven and no timer is armed.  In particular a mode set over
    the UART is not made known to the controller.  (No attribute callback
    is taken to arrive meanwhile.) *)
Theorem receiver_leaves_arbiter_and_pulse_alone (reads : list (list Z))
    (w : world) :
  Forall (Forall is_byte) reads -> w_pending w = [] ->
  exists rx' w',
    uart_rx_task reads w = Some (rx', w')
    /\ g_switch_endpoint_id (w_globals w') = g_switch_endpoint_id (w_globals w)
    /\ g_mode_plugin_ids (w_globals w') = g_mode_plugin_ids (w_globals w)
    /\ g_pulse_active (w_globals w') = g_pulse_active (w_globals w)
    /\ g_target_mode (w_globals w') = g_target_mode (w_globals w)
    /\ g_last_tap_time (w_globals w') = g_last_tap_time (w_globals w)
    /\ g_last_execution_time (w_globals w')
       = g_last_execution_time (w_globals w)
    /\ g_syncing_modes (w_globals w') = g_syncing_modes (w_globals w)
    /\ cleanup_done (w_globals w') = cleanup_done (w_globals w)
    /\ (g_current_mode (w_globals w') = g_current_mode (w_globals w)
        \/ 0 <= g_current_mode (w_globals w') <= 3)
    /\ reports (w_trace w') = reports (w_trace w)
    /\ pulse_actions (w_trace w') = pulse_actions (w_trace w).
Proof.
  intros Hr Hq.
  destruct (uart_rx_task_frame reads w Hr Hq)
    as (rx' & w' & E & _ & a1 & a2 & a3 & a4 & a5 & a6 & a7 & a8 & a9 & a10
        & a11 & _).
  exists rx', w'. auto 15.
Qed.

Lemma receiver_leaves_arbiter_and_pulse_alone_witness :
  exists rx' w',
    uart_rx_task [[0xA5; 0x02; 0x02]; []; [0x03; 0x06; 0xA5; 0x01; 0x03; 0xA7]]
      boot_world = Some (rx', w')
    /\ g_switch_endpoint_id (w_globals w')
       = g_switch_endpoint_id (w_globals boot_world)
    /\ g_mode_plugin_ids (w_globals w')
       = g_mode_plugin_ids (w_globals boot_world)
    /\ g_pulse_active (w_globals w') = g_pulse_active (w_globals boot_world)
    /\ g_target_mode (w_globals w') = g_target_mode (w_globals boot_world)
    /\ g_last_tap_time (w_globals w') = g_last_tap_time (w_globals boot_world)
    /\ g_last_execution_time (w_globals w')
       = g_last_execution_time (w_globals boot_world)
    /\ g_syncing_modes (w_globals w') = g_syncing_modes (w_globals boot_world)
    /\ cleanup_done (w_globals w') = cleanup_done (w_globals boot_world)
    /\ (g_current_mode (w_globals w') = g_current_mode (w_globals boot_world)
        \/ 0 <= g_current_mode (w_globals w') <= 3)
    /\ reports (w_trace w') = reports (w_trace boot_world)
    /\ pulse_actions (w_trace w') = pulse_actions (w_trace boot_world).
Proof.
  apply (receiver_leaves_arbiter_and_pulse_alone
           [[0xA5; 0x02; 0x02]; []; [0x03; 0x06; 0xA5; 0x01; 0x03; 0xA7]]
           boot_world).
  - repeat constructor; unfold is_byte; lia.
  - reflexivity.
Defined.

(** X13.  Whatever bytes arrive, every frame the receiver task writes to the
    UART is one of the three answers ACK [A5 01 80 8E], ERR [A5 01 81 BF]
    and BUSY [A5 01 82 EC]: it never sends DONE, a payload or a command of
    its own. *)
Theorem receiver_sends_only_ACK_ERR_BUSY (reads : list (list Z))
    (w : world) :
  Forall (Forall is_byte) reads -> w_pending w = [] ->
  exists rx' w' sent,
    uart_rx_task reads w = Some (rx', w')
    /\ uart_tx (w_trace w') = uart_tx (w_trace w) ++ sent
    /\ Forall (fun f => f = [0xA5; 0x01; 0x80; 0x8E]
                        \/ f = [0xA5; 0x01; 0x81; 0xBF]
                        \/ f = [0xA5; 0x01; 0x82; 0xEC]) sent.
Proof.
  intros Hr Hq.
  destruct (uart_rx_task_frame reads w Hr Hq)
    as (rx' & w' & E & _ & _ & _ & _ & _ & _ & _ & _ & _ & _ & _ & _
        & sent & Htx & Hsent).
  exists rx', w', sent. split; [exact E|]. split; [exact Htx|].
  eapply Forall_impl; [exact Hsent|]. cbn beta. intros f Hf.
  unfold rx_answers in Hf.
  rewrite frame_of_RSP_ACK, frame_of_RSP_ERR, frame_of_RSP_BUSY in Hf.
  cbn [In] in Hf. intuition auto.
Qed.

Lemma receiver_sends_only_ACK_ERR_BUSY_witness :
  exists rx' w' sent,
    uart_rx_task [[0xA5; 0x02; 0x02]; []; [0x03; 0x06; 0xA5; 0x01; 0x03; 0xA7]]
      boot_world = Some (rx', w')
    /\ uart_tx (w_trace w') = uart_tx (w_trace boot_world) ++ sent
    /\ Forall (fun f => f = [0xA5; 0x01; 0x80; 0x8E]
                        \/ f = [0xA5; 0x01; 0x81; 0xBF]
                        \/ f = [0xA5; 0x01; 0x82; 0xEC]) sent.
Proof.
  apply (receiver_sends_only_ACK_ERR_BUSY
           [[0xA5; 0x02; 0x02]; []; [0x03; 0x06; 0xA5; 0x01; 0x03; 0xA7]]
           boot_world).
  - repeat constructor; unfold is_byte; lia.
  - reflexivity.
Defined.

(** ** The attribute callback *)

Lemma frame_of_CMD_TRIGGER : frame_of CMD_TRIGGER [] = [0xA5; 0x01; 0x03; 0xA7].
Proof. vm_compute. reflexivity. Qed.

(** X14.  A write to the OnOff attribute of any endpoint drives the pulse,
    not only one to the trigger switch: "on" starts a pulse unless one is
    running (signal pin high, 500 ms timer armed), "off" stops it (signal
    pin low); so a tap on a mode plug raises the signal pin as well.  The
    TRIGGER frame [A5 01 03 A7] goes to the peer when, and only when, the
    trigger switch is turned on, and then also while a pulse is running.
    The callback takes no time and returns [ESP_OK]. *)
Theorem on_off_writes_drive_the_pulse (ep : Z) (v : bool) (w : world) :
  wp (app_attribute_update_cb
        (mkAttrUpdate PRE_UPDATE ep OnOff_Id OnOff_Attributes_OnOff_Id v))
    (fun r w' =>
       r = ESP_OK
       /\ uart_tx (w_trace w')
          = uart_tx (w_trace w)
            ++ (if (ep =? g_switch_endpoint_id (w_globals w)) && v
                then [[0xA5; 0x01; 0x03; 0xA7]] else [])
       /\ g_pulse_active (w_globals w') = v
       /\ pulse_actions (w_trace w')
          = pulse_actions (w_trace w)
            ++ (if v
                then if g_pulse_active (w_globals w) then []
                     else [EvGpio SIGNAL_GPIO 1; EvTimerStartOnce 500000]
                else [EvGpio SIGNAL_GPIO 0])
       /\ w_clock w' = w_clock w
       /\ w_pending w' = w_pending w) w.
Proof.
  destruct w as [g clk q tr].
  unfold app_attribute_update_cb, start_pulse, stop_pulse.
  cbn [mode_plugin_scan plugin_id Z.eqb Pos.eqb cb_type cb_endpoint_id
       cb_cluster_id cb_attribute_id cb_val_b OnOff_Id
       OnOff_Attributes_OnOff_Id andb when].
  wp_auto; unfold_vars;
    repeat match goal with
      | H : _ = true |- _ => rewrite H
      | H : _ = false |- _ => rewrite H
      end;
    try rewrite andb_false_r;
    views; rewrite ?frame_of_CMD_TRIGGER, ?app_nil_r; auto 10.
Qed.

(** X15.  A callback records no tap while the arbiter is syncing
    ([g_syncing_modes] set: during a mode execution, a safety cleanup or
    the initialisation at boot), and none for a value of "off": the pending
    target and the time of the last tap keep their values, whatever the
    endpoint, cluster and attribute.  A tap that arrives during a sync is
    lost; it is not taken up later. *)
Theorem taps_are_dropped_while_syncing (a : attr_update) (w : world) :
  g_syncing_modes (w_globals w) = true \/ cb_val_b a = false ->
  wp (app_attribute_update_cb a)
    (fun _ w' =>
       g_target_mode (w_globals w') = g_target_mode (w_globals w)
       /\ g_last_tap_time (w_globals w') = g_last_tap_time (w_globals w)
       /\ g_current_mode (w_globals w') = g_current_mode (w_globals w)
       /\ g_syncing_modes (w_globals w') = g_syncing_modes (w_globals w)) w.
Proof.
  intros [Hs | Hv].
  - eapply wp_conseq; [apply wp_app_attribute_update_cb|]. cbn beta.
    intros _ w' (((v1 & v2 & v3 & v4 & v5 & v6 & v7 & v8) & _) & _).
    destruct (v8 Hs). auto.
  - destruct w as [g clk q tr]. destruct a as [ty ep cl at_ v].
    cbn in Hv. subst v.
    unfold app_attribute_update_cb, start_pulse, stop_pulse.
    cbn [mode_plugin_scan plugin_id Z.eqb Pos.eqb cb_type cb_endpoint_id
         cb_cluster_id cb_attribute_id cb_val_b andb when].
    wp_auto; unfold_vars; auto.
Qed.

Lemma taps_are_dropped_while_syncing_witness :
  wp (app_attribute_update_cb (tap (id2 sample_ids)))
    (fun _ w' =>
       g_target_mode (w_globals w')
       = g_target_mode (set_syncing_modes true boot_globals)
       /\ g_last_tap_time (w_globals w')
          = g_last_tap_time (set_syncing_modes true boot_globals)
       /\ g_current_mode (w_globals w')
          = g_current_mode (set_syncing_modes true boot_globals)
       /\ g_syncing_modes (w_globals w')
          = g_syncing_modes (set_syncing_modes true boot_globals))
    (mkWorld (set_syncing_modes true boot_globals) 7000 [] []).
Proof.
  apply (taps_are_dropped_while_syncing (tap (id2 sample_ids))
           (mkWorld (set_syncing_modes true boot_globals) 7000 [] [])).
  left. reflexivity.
Defined.

(** X16.  Outside a sync, an "on" written to the endpoint of mode [m] is
    recorded and nothing more: [m] becomes the pending target and the time
    of the call the time of the last tap (so that every tap restarts the
    200 ms debounce), while the current mode stays and nothing is sent or
    reported; the execution is left to the arbiter loop. *)
Theorem mode_tap_is_recorded_only (m id : Z) (w : world) :
  plugin_id (g_mode_plugin_ids (w_globals w)) m = Some id ->
  NoDup (ids_list (g_mode_plugin_ids (w_globals w))) ->
  g_syncing_modes (w_globals w) = false ->
  wp (app_attribute_update_cb (tap id))
    (fun _ w' =>
       g_target_mode (w_globals w') = m
       /\ g_last_tap_time (w_globals w') = w_clock w
       /\ g_current_mode (w_globals w') = g_current_mode (w_globals w)
       /\ g_last_execution_time (w_globals w')
          = g_last_execution_time (w_globals w)
       /\ reports (w_trace w') = reports (w_trace w)
       /\ executions (w_trace w') = executions (w_trace w)
       /\ w_clock w' = w_clock w) w.
Proof.
  intros Hid Hnd Hs.
  eapply wp_conseq; [apply (wp_tap m id w Hid Hnd Hs)|]. cbn beta.
  intros _ w' (((v1 & v2 & v3 & v4 & v5 & v6 & v7 & v8) & Hr & He & _)
               & Ht & Htap & Hc & _).
  auto 10.
Qed.

Lemma mode_tap_is_recorded_only_witness :
  wp (app_attribute_update_cb (tap 4))
    (fun _ w' =>
       g_target_mode (w_globals w') = 2
       /\ g_last_tap_time (w_globals w')
          = w_clock (mkWorld boot_globals 7000 [] [])
       /\ g_current_mode (w_globals w')
          = g_current_mode (w_globals (mkWorld boot_globals 7000 [] []))
       /\ g_last_execution_time (w_globals w')
          = g_last_execution_time
              (w_globals (mkWorld boot_globals 7000 [] []))
       /\ reports (w_trace w')
          = reports (w_trace (mkWorld boot_globals 7000 [] []))
       /\ executions (w_trace w')
          = executions (w_trace (mkWorld boot_globals 7000 [] []))
       /\ w_clock w' = w_clock (mkWorld boot_globals 7000 [] []))
    (mkWorld boot_globals 7000 [] []).
Proof.
  apply (mode_tap_is_recorded_only 2 4 (mkWorld boot_globals 7000 [] [])).
  - reflexivity.
  - apply NoDup_ListNoDup.
    repeat (constructor; [cbn; intuition discriminate|]); constructor.
  - reflexivity.
Defined.

(** X17.  The callback ignores everything but a pre-update of an OnOff
    attribute: for any other callback type, cluster or attribute it changes
    no variable, sends and reports nothing and takes no time; at most it
    logs the post-update of an OnOff attribute.  It returns [ESP_OK] in
    every case. *)
Theorem other_updates_are_ignored (a : attr_update) (w : world) :
  cb_type a <> PRE_UPDATE \/ cb_cluster_id a <> OnOff_Id
  \/ cb_attribute_id a <> OnOff_Attributes_OnOff_Id ->
  app_attribute_update_cb a w = Some (ESP_OK, w)
  \/ app_attribute_update_cb a w
     = Some (ESP_OK,
             mkWorld (w_globals w) (w_clock w) (w_pending w)
               (w_trace w
                ++ [(w_clock w, EvLog (LogPostUpdate (cb_val_b a)))])).
Proof.
  intros H. destruct w as [g clk q tr]. destruct a as [ty ep cl at_ v].
  cbn [cb_type cb_cluster_id cb_attribute_id cb_val_b w_globals w_clock
       w_pending w_trace] in *.
  destruct ty.
  - (* PRE_UPDATE of another attribute *)
    left.
    assert (E : (cl =? OnOff_Id) && (at_ =? OnOff_Attributes_OnOff_Id) = false).
    { apply andb_false_iff.
      destruct H as [H | [H | H]]; [congruence | left | right];
        apply Z.eqb_neq; exact H. }
    apply wp_eq.
    unfold app_attribute_update_cb.
    cbn [mode_plugin_scan plugin_id Z.eqb Pos.eqb cb_type cb_endpoint_id
         cb_cluster_id cb_attribute_id cb_val_b].
    rewrite E. cbn [when].
    assert (E' : forall x, (ep =? x) && (cl =? OnOff_Id)
                           && (at_ =? OnOff_Attributes_OnOff_Id) = false).
    { intros x. rewrite <- andb_assoc, E. apply andb_false_r. }
    wp_run. eapply wp_lift; [reflexivity|]. rewrite E'.
    wp_run. eapply wp_lift; [reflexivity|]. rewrite E'.
    wp_run. eapply wp_lift; [reflexivity|]. rewrite E'.
    wp_run. eapply wp_lift; [reflexivity|]. rewrite E'.
    wp_run. auto.
  - unfold app_attribute_update_cb. cbn [cb_type cb_cluster_id cb_attribute_id
      cb_val_b].
    destruct ((cl =? OnOff_Id) && (at_ =? OnOff_Attributes_OnOff_Id));
      [right | left]; reflexivity.
  - left. reflexivity.
  - left. reflexivity.
Qed.

Lemma other_updates_are_ignored_witness :
  app_attribute_update_cb (mkAttrUpdate PRE_UPDATE 3 0x0008 0x0000 true)
    boot_world = Some (ESP_OK, boot_world)
  \/ app_attribute_update_cb (mkAttrUpdate PRE_UPDATE 3 0x0008 0x0000 true)
       boot_world
     = Some (ESP_OK,
             mkWorld (w_globals boot_world) (w_clock boot_world)
               (w_pending boot_world)
               (w_trace boot_world
                ++ [(w_clock boot_world,
                     EvLog (LogPostUpdate
                              (cb_val_b (mkAttrUpdate PRE_UPDATE 3 0x0008
                                           0x0000 true))))])).
Proof.
  apply (other_updates_are_ignored
           (mkAttrUpdate PRE_UPDATE 3 0x0008 0x0000 true) boot_world).
  right. left. cbn. unfold OnOff_Id. lia.
Defined.

(** ** The pulse *)

(** X18.  [start_pulse] during a pulse does nothing but log a warning, and
    [stop_pulse] does not disarm the timer that [start_pulse] armed: after
    start, start, stop, start the signal pin has gone high, low and high
    again and two 500 ms timers have been armed, for the one pulse that is
    running. *)
Theorem stop_pulse_leaves_the_timer_armed (w : world) :
  g_pulse_active (w_globals w) = false ->
  wp (start_pulse;; start_pulse;; stop_pulse;; start_pulse)
    (fun _ w' =>
       pulse_actions (w_trace w')
       = pulse_actions (w_trace w)
         ++ [EvGpio SIGNAL_GPIO 1; EvTimerStartOnce 500000;
             EvGpio SIGNAL_GPIO 0;
             EvGpio SIGNAL_GPIO 1; EvTimerStartOnce 500000]
       /\ g_pulse_active (w_globals w') = true
       /\ w_clock w' = w_clock w) w.
Proof.
  intros Hidle. destruct w as [g clk q tr]. cbn in Hidle.
  unfold start_pulse, stop_pulse.
  wp_run. rewrite Hidle. wp_run. unfold_vars. wp_run. unfold_vars. wp_run.
  unfold_vars. views. auto.
Qed.

Lemma stop_pulse_leaves_the_timer_armed_witness :
  wp (start_pulse;; start_pulse;; stop_pulse;; start_pulse)
    (fun _ w' =>
       pulse_actions (w_trace w')
       = pulse_actions (w_trace boot_world)
         ++ [EvGpio SIGNAL_GPIO 1; EvTimerStartOnce 500000;
             EvGpio SIGNAL_GPIO 0;
             EvGpio SIGNAL_GPIO 1; EvTimerStartOnce 500000]
       /\ g_pulse_active (w_globals w') = true
       /\ w_clock w' = w_clock boot_world) boot_world.
Proof.
  apply (stop_pulse_leaves_the_timer_armed boot_world). reflexivity.
Defined.

Lemma wp_and {A} (m : M A) (Q1 Q2 : A -> world -> Prop) w :
  wp m Q1 w -> wp m Q2 w -> wp m (fun a w' => Q1 a w' /\ Q2 a w') w.
Proof.
  intros (a1 & w1 & E1 & H1) (a2 & w2 & E2 & H2).
  rewrite E1 in E2. injection E2 as <- <-. exists a1, w1. auto.
Qed.

Lemma wp_app_attribute_update_cb_extends a w :
  wp (app_attribute_update_cb a)
    (fun _ w' => exists mid, w_trace w' = w_trace w ++ mid) w.
Proof.
  destruct w as [g clk q tr].
  unfold app_attribute_update_cb, start_pulse, stop_pulse.
  cbn [mode_plugin_scan plugin_id Z.eqb Pos.eqb].
  wp_auto; cbn [w_globals w_clock w_pending w_trace];
    rewrite <- ?app_assoc;
    first [eexists; reflexivity | exists []; symmetry; apply app_nil_r].
Qed.

Lemma wp_deliver_extends until q : forall w,
  wp (deliver until q)
    (fun _ w' => exists mid, w_trace w' = w_trace w ++ mid) w.
Proof.
  induction q as [|[t a] q IH]; intros w; cbn [deliver].
  - eexists _, _. split; [reflexivity|]. exists []. cbn. symmetry.
    apply app_nil_r.
  - destruct (t <=? until).
    + apply wp_bind.
      eapply wp_conseq; [apply wp_app_attribute_update_cb_extends|].
      cbn beta. intros _ w1 [m1 E1].
      eapply wp_conseq; [apply IH|].
      cbn beta. intros _ w2 [m2 E2]. exists (m1 ++ m2).
      rewrite E2, E1. cbn. rewrite app_assoc. reflexivity.
    + eexists _, _. split; [reflexivity|]. exists []. cbn. symmetry.
      apply app_nil_r.
Qed.

Lemma wp_vTaskDelay_extends ms w :
  wp (vTaskDelay ms)
    (fun _ w' => exists mid, w_trace w' = w_trace w ++ mid) w.
Proof.
  unfold vTaskDelay. apply wp_bind.
  eapply wp_conseq; [apply wp_deliver_extends|]. cbn beta.
  intros _ w1 [mid E]. eexists _, _. split; [reflexivity|].
  exists mid. exact E.
Qed.

Lemma wp_pulse_timer_callback w :
  wp pulse_timer_callback
    (fun _ w' =>
       w_clock w' = w_clock w + 10000
       /\ exists mid,
            w_trace w'
            = w_trace w
              ++ [(w_clock w, EvGpio SIGNAL_GPIO 0);
                  (w_clock w, EvLog LogPulseEnded)]
              ++ mid
              ++ [(w_clock w + 10000,
                   EvUpdate (g_switch_endpoint_id (w_globals w)) false);
                  (w_clock w + 10000, EvLog LogAttrOffUpdated)]) w.
Proof.
  destruct w as [g clk q tr]. unfold pulse_timer_callback.
  wp_step. wp_step. wp_step. wp_step. wp_step. wp_step. wp_step.
  eapply wp_conseq.
  - apply wp_and; [apply wp_vTaskDelay_extends|].
    apply wp_vTaskDelay_frame with
      (Q := fun _ w1 =>
              w_clock w1 = clk + 10 * 1000
              /\ g_switch_endpoint_id (w_globals w1) = g_switch_endpoint_id g).
    unfold_vars.
    intros w1 ((v1 & v2 & _) & _) Hclk Hq. auto.
  - cbn beta. unfold_vars. intros _ w1 ([mid Etr] & Hclk & Hsw).
    wp_run. rewrite Hsw, Hclk.
    replace (clk + 10 * 1000) with (clk + 10000) by lia.
    split; [reflexivity|].
    exists mid. rewrite Etr, <- !app_assoc. reflexivity.
Qed.

(** X19.  The expiry of the pulse timer ends the pulse and, 10 ms later,
    writes "off" to the OnOff attribute of the trigger switch: always to
    the trigger switch, whichever endpoint started the pulse, and whatever
    callbacks arrive during those 10 ms.  With none arriving, the pulse is
    then over ([g_pulse_active] clear, signal pin low). *)
Theorem pulse_timer_expiry_ends_the_pulse (w : world) :
  wp pulse_timer_callback
    (fun _ w' =>
       w_clock w' = w_clock w + 10000
       /\ (exists mid,
             w_trace w'
             = w_trace w
               ++ [(w_clock w, EvGpio SIGNAL_GPIO 0);
                   (w_clock w, EvLog LogPulseEnded)]
               ++ mid
               ++ [(w_clock w + 10000,
                    EvUpdate (g_switch_endpoint_id (w_globals w)) false);
                   (w_clock w + 10000, EvLog LogAttrOffUpdated)])
       /\ (w_pending w = [] ->
           g_pulse_active (w_globals w') = false
           /\ pulse_actions (w_trace w')
              = pulse_actions (w_trace w) ++ [EvGpio SIGNAL_GPIO 0])) w.
Proof.
  destruct (w_pending w) as [|x q] eqn:Hq.
  - apply wp_and; [|apply wp_and]; try apply wp_pulse_timer_callback.
    + eapply wp_conseq; [apply wp_pulse_timer_callback|].
      cbn beta. intros _ w' [H _]. exact H.
    + eapply wp_conseq; [apply wp_pulse_timer_callback|].
      cbn beta. intros _ w' [_ H]. exact H.
    + destruct w as [g clk q tr]. cbn in Hq. subst q.
      unfold pulse_timer_callback. wp_run. intros _.
      unfold_vars. views. auto.
  - eapply wp_conseq; [apply wp_pulse_timer_callback|].
    cbn beta. intros _ w' [H1 H2]. split; [exact H1|].
    split; [exact H2 | discriminate].
Qed.

(** ** The arbiter loop over time *)

Lemma at_rest_quiet_turn cur T R E w :
  at_rest cur T false R E w -> T <= w_clock w < T + 5000000 ->
  wp mode_sync_iteration
    (fun _ w' => at_rest cur T false R E w'
                 /\ w_clock w' = w_clock w + 10000) w.
Proof.
  intros (Hq & Ht & Hcur & Hex & Htap & Hcd & Hr & He) Hc.
  apply wp_iteration_quiet.
  - unfold debounce_due. rewrite Ht. reflexivity.
  - unfold cleanup_due, time_since_exec_ms. rewrite Hex.
    rewrite (geb_false (Z.quot (w_clock w - T) 1000) 5000)
      by (apply quot_ms_lt; lia).
    reflexivity.
  - unfold flag_reset. rewrite Ht. cbn [Z.geb Z.compare andb].
    apply wp_vTaskDelay_idle; [exact Hq|].
    unfold at_rest. unfold_vars. split; [auto 10 | lia].
Qed.

Lemma at_rest_fire_turn cur T R E w :
  at_rest cur T false R E w -> 0 <= cur <= 3 -> T + 5000000 <= w_clock w ->
  wp mode_sync_iteration
    (fun _ w' => at_rest cur T true (R ++ [w_clock w]) E w') w.
Proof.
  intros (Hq & Ht & Hcur & Hex & Htap & Hcd & Hr & He) Hm Hc.
  apply wp_iteration_cleanup.
  - unfold debounce_due. rewrite Ht. reflexivity.
  - unfold cleanup_due, time_since_exec_ms, time_since_tap_ms.
    rewrite Hex, Hcd.
    rewrite (geb_true (Z.quot (w_clock w - T) 1000) 5000)
      by (apply quot_ms_ge; lia).
    rewrite (geb_true (Z.quot (w_clock w - g_last_tap_time (w_globals w)) 1000)
               5000) by (apply quot_ms_ge; lia).
    reflexivity.
  - lia.
  - intros w1 (e1 & e2 & e3 & e4 & e5 & e6 & e7 & e8 & _ & e10 & e11 & e12
               & e13).
    rewrite Ht. cbn [Z.geb Z.compare].
    apply wp_vTaskDelay_idle; [auto|].
    unfold at_rest. unfold_vars.
    repeat split; try congruence; auto; lia.
Qed.

Lemma at_rest_done_turn cur T R E w :
  at_rest cur T true R E w ->
  wp mode_sync_iteration (fun _ w' => at_rest cur T true R E w') w.
Proof.
  intros (Hq & Ht & Hcur & Hex & Htap & Hcd & Hr & He).
  apply wp_iteration_quiet.
  - unfold debounce_due. rewrite Ht. reflexivity.
  - unfold cleanup_due. rewrite Hcd. apply andb_false_r.
  - unfold flag_reset. rewrite Ht. cbn [Z.geb Z.compare andb].
    apply wp_vTaskDelay_idle; [exact Hq|].
    unfold at_rest. unfold_vars. auto 10.
Qed.

Lemma at_rest_task cur T R E (k : nat) : forall (n : nat) w,
  at_rest cur T false R E w -> 0 <= cur <= 3 -> T <= w_clock w ->
  (k = 0%nat \/ w_clock w + 10000 * (Z.of_nat k - 1) < T + 5000000) ->
  T + 5000000 <= w_clock w + 10000 * Z.of_nat k ->
  wp (mode_sync_task n)
    (fun _ w' =>
       at_rest cur T (k <? n)%nat
         (R ++ if (k <? n)%nat then [w_clock w + 10000 * Z.of_nat k] else [])
         E w') w.
Proof.
  induction k as [|k IH]; intros n w Hrest Hm Hc Hfirst Hdue.
  - destruct n as [|n].
    + cbn [mode_sync_task Nat.ltb Nat.leb]. apply wp_ret.
      rewrite app_nil_r. exact Hrest.
    + apply wp_mode_sync_task_S.
      eapply wp_conseq; [apply (at_rest_fire_turn cur T R E w Hrest Hm); lia|].
      cbn beta. intros _ w1 H1.
      change (0 <? S n)%nat with true. cbv iota.
      replace (w_clock w + 10000 * Z.of_nat 0) with (w_clock w) by lia.
      apply (wp_mode_sync_task_invariant
               (at_rest cur T true (R ++ [w_clock w]) E)); [|exact H1].
      intros w2 H2. apply at_rest_done_turn, H2.
  - destruct Hfirst as [Hk | Hfirst]; [discriminate|].
    destruct n as [|n].
    + cbn [mode_sync_task]. apply wp_ret.
      change (S k <? 0)%nat with false. cbv iota.
      rewrite app_nil_r. exact Hrest.
    + apply wp_mode_sync_task_S.
      eapply wp_conseq; [apply (at_rest_quiet_turn cur T R E w Hrest); lia|].
      cbn beta. intros _ w1 [H1 Hc1].
      eapply wp_conseq; [apply (IH n w1 H1 Hm); rewrite Hc1; lia|].
      cbn beta. intros _ w' H'.
      change (S k <? S n)%nat with (k <? n)%nat.
      replace (w_clock w + 10000 * Z.of_nat (S k))
        with (w_clock w1 + 10000 * Z.of_nat k) by (rewrite Hc1; lia).
      exact H'.
Qed.

(** X20.  The safety cleanup runs exactly once after an execution that no
    tap follows.  With no target pending, the flag clear and no callback to
    come, the first turn of the loop that starts 5000 ms or more after the
    execution re-asserts the current mode, and no turn before or after it
    does: if that turn is the [k]-th from now, then after [n] turns the
    record holds that one re-assertion, made at the start of that turn, if
    [k < n], and none otherwise.  Nothing is executed meanwhile. *)
Theorem cleanup_runs_exactly_once (w : world) (k n : nat) :
  w_pending w = [] ->
  g_target_mode (w_globals w) = -1 ->
  0 <= g_current_mode (w_globals w) <= 3 ->
  cleanup_done (w_globals w) = false ->
  g_last_tap_time (w_globals w) <= g_last_execution_time (w_globals w) ->
  g_last_execution_time (w_globals w) <= w_clock w ->
  (k = 0%nat
   \/ w_clock w + 10000 * (Z.of_nat k - 1)
      < g_last_execution_time (w_globals w) + 5000000) ->
  g_last_execution_time (w_globals w) + 5000000
  <= w_clock w + 10000 * Z.of_nat k ->
  wp (mode_sync_task n)
    (fun _ w' =>
       reassertions (w_trace w')
       = reassertions (w_trace w)
         ++ (if (k <? n)%nat then [w_clock w + 10000 * Z.of_nat k] else [])
       /\ executions (w_trace w') = executions (w_trace w)
       /\ g_current_mode (w_globals w') = g_current_mode (w_globals w)
       /\ cleanup_done (w_globals w') = (k <? n)%nat) w.
Proof.
  intros Hq Ht Hcur Hcd Htap Hex Hfirst Hdue.
  eapply wp_conseq.
  - apply (at_rest_task (g_current_mode (w_globals w))
             (g_last_execution_time (w_globals w))
             (reassertions (w_trace w)) (executions (w_trace w)) k n w);
      try assumption.
    unfold at_rest. auto 10.
  - cbn beta. intros _ w' (a1 & a2 & a3 & a4 & a5 & a6 & a7 & a8). auto.
Qed.

Lemma cleanup_runs_exactly_once_witness :
  wp (mode_sync_task 600)
    (fun _ w' =>
       reassertions (w_trace w')
       = reassertions (w_trace (mkWorld boot_globals 4000 [] []))
         ++ (if (500 <? 600)%nat
             then [w_clock (mkWorld boot_globals 4000 [] [])
                   + 10000 * Z.of_nat 500]
             else [])
       /\ executions (w_trace w')
          = executions (w_trace (mkWorld boot_globals 4000 [] []))
       /\ g_current_mode (w_globals w')
          = g_current_mode (w_globals (mkWorld boot_globals 4000 [] []))
       /\ cleanup_done (w_globals w') = (500 <? 600)%nat)
    (mkWorld boot_globals 4000 [] []).
Proof.
  apply (cleanup_runs_exactly_once (mkWorld boot_globals 4000 [] []) 500 600);
    cbn [w_pending w_globals w_clock boot_globals g_target_mode
         g_current_mode cleanup_done g_last_tap_time g_last_execution_time];
    try reflexivity; try lia.
Defined.







(** X22.  The arbiter loop never leaves its tables.  If the pending target
    is a mode or -1 and the current mode is a mode, then, whatever
    callbacks arrive and however long the loop runs, every access to
    [mode_names] and to [g_mode_plugin_ids] is within the four entries (no
    turn fails), the frame it sends fits its buffer, and the two variables
    still hold a mode, or -1 for the target, afterwards. *)
Theorem arbiter_indices_stay_in_range (n : nat) (w : world) :
  -1 <= g_target_mode (w_globals w) <= 3 ->
  0 <= g_current_mode (w_globals w) <= 3 ->
  wp (mode_sync_task n)
    (fun _ w' =>
       -1 <= g_target_mode (w_globals w') <= 3
       /\ 0 <= g_current_mode (w_globals w') <= 3) w.
Proof.
  intros Ht Hc. apply (mode_sync_task_in_range n w). split; assumption.
Qed.

Lemma arbiter_indices_stay_in_range_witness :
  wp (mode_sync_task 1000)
    (fun _ w' =>
       -1 <= g_target_mode (w_globals w') <= 3
       /\ 0 <= g_current_mode (w_globals w') <= 3)
    (mkWorld boot_globals 0
       [(120000, tap 5); (130000, tap 1); (150000, tap 2);
        (390000, mkAttrUpdate PRE_UPDATE 4 OnOff_Id OnOff_Attributes_OnOff_Id
                   false);
        (400000, tap 3)] []).
Proof.
  apply (arbiter_indices_stay_in_range 1000
           (mkWorld boot_globals 0
              [(120000, tap 5); (130000, tap 1); (150000, tap 2);
               (390000, mkAttrUpdate PRE_UPDATE 4 OnOff_Id
                          OnOff_Attributes_OnOff_Id false);
               (400000, tap 3)] []));
    cbn; lia.
Defined.

(** X23.  The debounce does not depend on the phase of the loop.  With the
    tap for mode 2 at 0 ms and the tap for mode 1 at 50 ms, and a loop
    whose turns start at [c0], [c0 + 10 ms], ... for any [c0] below 10 ms
    (time being counted from the first tap, the turn before went to sleep
    at [c0 - 10 ms]), the one execution is that of mode 1, made by the turn
    that starts at [250 ms + c0]; mode 2 is never executed. *)
Theorem debounce_collapse_at_any_phase (g : globals) (c0 : Z) (n : nat) :
  NoDup (ids_list (g_mode_plugin_ids g)) ->
  g_current_mode g <> 1 -> g_syncing_modes g = false ->
  0 <= c0 < 10000 ->
  wp (vTaskDelay 10;; mode_sync_task n)
    (fun _ w' =>
       executions (w_trace w')
       = if Z.of_nat n <? 26 then [] else [(c0 + 250000, 1)])
    (mkWorld g (c0 - 10000)
       [(0, tap (id2 (g_mode_plugin_ids g)));
        (50000, tap (id1 (g_mode_plugin_ids g)))] []).
Proof. apply debounce_collapse_any_phase. Qed.

Lemma debounce_collapse_at_any_phase_witness :
  wp (vTaskDelay 10;; mode_sync_task 40)
    (fun _ w' =>
       executions (w_trace w')
       = if Z.of_nat 40 <? 26 then [] else [(7000 + 250000, 1)])
    (mkWorld boot_globals (7000 - 10000)
       [(0, tap (id2 (g_mode_plugin_ids boot_globals)));
        (50000, tap (id1 (g_mode_plugin_ids boot_globals)))] []).
Proof.
  apply (debounce_collapse_at_any_phase boot_globals 7000 40).
  - apply NoDup_ListNoDup.
    repeat (constructor; [cbn; intuition discriminate|]); constructor.
  - cbn. lia.
  - reflexivity.
  - lia.
Defined.

(** ** Initialisation at boot *)

(** X24.  The initialisation of the modes at boot reports all four mode
    plugs off, mode 0 included, and 100 ms later mode 0 on; it leaves mode
    0 current and the sync flag clear.  Taps that arrive during those
    100 ms are dropped: whatever callbacks fall due meanwhile, the pending
    target and the tap time are the same afterwards, and the five reports
    are the only ones made. *)
Theorem boot_forces_mode_0 (w : world) :
  wp mode_init
    (fun _ w' =>
       reports (w_trace w')
       = reports (w_trace w)
         ++ [(id0 (g_mode_plugin_ids (w_globals w)), false);
             (id1 (g_mode_plugin_ids (w_globals w)), false);
             (id2 (g_mode_plugin_ids (w_globals w)), false);
             (id3 (g_mode_plugin_ids (w_globals w)), false);
             (id0 (g_mode_plugin_ids (w_globals w)), true)]
       /\ g_current_mode (w_globals w') = 0
       /\ g_syncing_modes (w_globals w') = false
       /\ g_target_mode (w_globals w') = g_target_mode (w_globals w)
       /\ g_last_tap_time (w_globals w') = g_last_tap_time (w_globals w)
       /\ w_clock w' = w_clock w + 100000) w.
Proof.
  destruct w as [g clk q tr]. unfold mode_init, mode_init_reports.
  cbn [plugin_id Z.eqb Pos.eqb].
  wp_auto. unfold_vars.
  apply wp_vTaskDelay_frame. unfold_vars.
  intros w1 ((v1 & v2 & v3 & v4 & v5 & v6 & v7 & v8) & Hr & He & Ha) Hclk _.
  destruct (v8 eq_refl) as [v9 v10]. unfold_vars.
  wp_auto. unfold_vars. views. rewrite Hr, v1. views.
  repeat split; try congruence; lia.
Qed.

(** ** More on the handlers and on taps for the current mode *)

Lemma blink_us_set_mode m :
  ((m + 1) * 200 + (m + 1 - 1) * 200) * 1000 = (2 * m + 1) * 200000.
Proof. lia. Qed.

(** X25.  A valid SET_MODE is acknowledged before the LED shows the mode:
    the mode is stored and the ACK frame [A5 01 80 8E] written at the time
    of the call, then the LED blinks [mode + 1] times (200 ms lit, 200 ms
    dark), so that the handler, and with it the receiver task, is busy for
    [(2 * mode + 1) * 200] ms: 200 ms for mode 0, 1400 ms for mode 3. *)
Theorem set_mode_is_acknowledged_before_blinking (m : Z) (rest : list Z)
    (len : Z) (w : world) :
  1 <= len -> 0 <= m <= 3 -> w_pending w = [] ->
  handle_cmd_set_mode (Some (m :: rest)) len w
  = Some (tt, mkWorld (set_current_mode m (w_globals w))
                (w_clock w + (2 * m + 1) * 200000) []
                (w_trace w
                 ++ [(w_clock w, EvLog (LogSetMode m));
                     (w_clock w, EvUartTx [0xA5; 0x01; 0x80; 0x8E]);
                     (w_clock w, EvLog (LogUartTx 4 RSP_ACK))]
                 ++ blink_events (Z.to_nat (m + 1)) (w_clock w) 200000
                      200000)).
Proof.
  intros Hlen Hm Hq. destruct w as [g clk q tr]. cbn in Hq. subst q.
  cbn [w_globals w_clock w_pending w_trace].
  apply wp_eq. unfold handle_cmd_set_mode.
  replace (len <? 1) with false by (symmetry; apply Z.ltb_ge; lia).
  wp_step. apply (wp_lift _ m); [reflexivity|].
  replace (m >? 3) with false
    by (symmetry; rewrite Z.gtb_ltb; apply Z.ltb_ge; lia).
  wp_run. apply wp_led_blink_exact; [lia | reflexivity |].
  cbn [w_globals w_clock w_pending w_trace].
  rewrite frame_of_RSP_ACK, <- !app_assoc, blink_us_set_mode. cbn [app].
  split; reflexivity.
Qed.

Lemma set_mode_is_acknowledged_before_blinking_witness :
  handle_cmd_set_mode (Some (3 :: [9])) 2 boot_world
  = Some (tt, mkWorld (set_current_mode 3 (w_globals boot_world))
                (w_clock boot_world + (2 * 3 + 1) * 200000) []
                (w_trace boot_world
                 ++ [(w_clock boot_world, EvLog (LogSetMode 3));
                     (w_clock boot_world, EvUartTx [0xA5; 0x01; 0x80; 0x8E]);
                     (w_clock boot_world, EvLog (LogUartTx 4 RSP_ACK))]
                 ++ blink_events (Z.to_nat (3 + 1)) (w_clock boot_world)
                      200000 200000)).
Proof.
  apply (set_mode_is_acknowledged_before_blinking 3 [9] 2 boot_world);
    [lia | lia | reflexivity].
Defined.




(** ** A length without a payload *)

Lemma opt_bind_Some {A B} (f : A -> option B) (x : A) : Some x ≫= f = f x.
Proof. reflexivity. Qed.

Lemma store_frame_0 v :
  store (replicate 64 0) 0 v = Some (v :: replicate 63 0).
Proof. reflexivity. Qed.

Lemma store_frame_1 a v :
  store (a :: replicate 63 0) (0 + 1) v = Some (a :: v :: replicate 62 0).
Proof. reflexivity. Qed.

Lemma store_frame_2 a b v :
  store (a :: b :: replicate 62 0) (0 + 1 + 1) v
  = Some (a :: b :: v :: replicate 61 0).
Proof. reflexivity. Qed.

Lemma store_frame_3 a b c v :
  store (a :: b :: c :: replicate 61 0) (0 + 1 + 1 + 1) v
  = Some (a :: b :: c :: v :: replicate 60 0).
Proof. reflexivity. Qed.

Lemma uart_frame_bytes_null_len cmd n :
  0 <= n <= 254 ->
  uart_frame_bytes cmd None n
  = Some [FRAME_START; 1 + n; cmd; crc8 [1 + n; cmd] 2].
Proof.
  intros Hn. unfold uart_frame_bytes. cbv zeta.
  rewrite (u8_small (1 + n)), (u8_small (0 + 1)), (u8_small (0 + 1 + 1)),
    (u8_small (0 + 1 + 1 + 1)) by lia.
  rewrite store_frame_0, opt_bind_Some. cbv beta.
  rewrite store_frame_1, opt_bind_Some. cbv beta.
  rewrite store_frame_2, opt_bind_Some. cbv beta.
  rewrite opt_bind_Some. cbv beta iota.
  rewrite store_frame_3, opt_bind_Some. cbv beta.
  rewrite (u8_small (0 + 1 + 1 + 1 + 1)) by lia.
  change (Z.to_nat (0 + 1 + 1 + 1 + 1)) with 4%nat.
  change (0 + 1 + 1 + 1 - 1) with 2.
  change (drop 1 (FRAME_START :: 1 + n :: cmd :: replicate 61 0))
    with ([1 + n; cmd] ++ replicate 61 0).
  rewrite (crc8_prefix [1 + n; cmd] (replicate 61 0) 2 eq_refl).
  reflexivity.
Qed.

(** X27.  The encoder trusts its [payload_len] also when the payload
    pointer is null: it then copies nothing but still announces the
    payload in the length byte.  The four bytes it sends for a null
    payload and a length of 1 to 59 are not a frame to the receiver, which
    takes them as the beginning of a longer one: it dispatches nothing and
    is left in the middle of a frame, [payload_len - 1] body bytes short of
    the CRC. *)
Theorem null_payload_with_a_length_is_no_frame (cmd n : Z) (rx : rx_locals)
    (w : world) :
  1 <= n <= 59 -> wait_start rx ->
  exists crc rx',
    uart_frame_bytes cmd None n = Some [FRAME_START; 1 + n; cmd; crc]
    /\ uart_rx_bytes rx [FRAME_START; 1 + n; cmd; crc] w = Some (rx', w)
    /\ state rx' = (if n =? 1 then 3 else 2)
    /\ bytes_to_read rx' = n - 1.
Proof.
  intros Hn (Hs & Hi & Hbuf). destruct rx as [buf idx st fl btr c0].
  cbn [state buf_idx frame_buf] in *. subst st idx.
  destruct buf as [|x0 [|x1 [|x2 [|x3 buf4]]]]; try (cbn in Hbuf; lia).
  exists (crc8 [1 + n; cmd] 2),
    (mkRx ([FRAME_START; 1 + n; cmd; crc8 [1 + n; cmd] 2] ++ buf4) 4
       (if n =? 1 then 3 else 2) (1 + n) (n - 1) cmd).
  split; [apply uart_frame_bytes_null_len; lia|].
  split; [|split; reflexivity].
  cbn [uart_rx_bytes]. unfold bind at 1.
  rewrite (rx_byte_start _ _ _ _ [] x0 (x1 :: x2 :: x3 :: buf4))
    by reflexivity.
  unfold bind at 1.
  rewrite (rx_byte_length [FRAME_START] x1 (x2 :: x3 :: buf4))
    by (cbn [length]; lia).
  unfold bind at 1.
  rewrite (rx_byte_body [FRAME_START; 1 + n] x2 (x3 :: buf4))
    by (cbn [length]; lia).
  replace (1 + n =? 1) with false by (symmetry; apply Z.eqb_neq; lia).
  unfold bind at 1.
  rewrite (rx_byte_body [FRAME_START; 1 + n; cmd] x3 buf4 (1 + 1 + 1))
    by (cbn [length]; lia).
  unfold ret. change (1 + 1 + 1 =? 2) with false.
  change (1 + 1 =? 2) with true. cbv iota.
  replace (1 + n - 1) with n by lia.
  replace (1 + n - 1 - 1) with (n - 1) by lia.
  reflexivity.
Qed.

Lemma null_payload_with_a_length_is_no_frame_witness :
  exists crc rx',
    uart_frame_bytes CMD_SET_MODE None 1
    = Some [FRAME_START; 1 + 1; CMD_SET_MODE; crc]
    /\ uart_rx_bytes rx_init [FRAME_START; 1 + 1; CMD_SET_MODE; crc]
         boot_world = Some (rx', boot_world)
    /\ state rx' = (if 1 =? 1 then 3 else 2)
    /\ bytes_to_read rx' = 1 - 1.
Proof.
  apply (null_payload_with_a_length_is_no_frame CMD_SET_MODE 1 rx_init
           boot_world).
  - lia.
  - repeat split.
Defined.

(** ** After a refused length byte *)

(** X28.  A start marker followed by a length byte that the receiver
    refuses (0, or above 60, the marker value 0xA5 included) costs those
    two bytes only: the receiver logs the length and is back waiting for a
    start byte at once, so that a well-formed frame that follows
    immediately is decoded and dispatched like any other. *)
Theorem frame_after_a_refused_length_is_decoded (bad c : Z) (p : list Z)
    (rx : rx_locals) (w : world) :
  bad = 0 \/ 60 < bad -> (length p <= 59)%nat -> wait_start rx ->
  exists rx',
    uart_rx_bytes rx ([FRAME_START; bad] ++ frame_of c p) w
    = (log (LogInvalidLength bad);;
       dispatch_frame c (payload_arg p) (Z.of_nat (length p));;
       ret rx') w
    /\ wait_start rx'.
Proof.
  intros Hbad Hlen (Hs & Hi & Hbuf).
  destruct rx as [buf idx st fl btr c0].
  cbn [state buf_idx frame_buf] in *. subst st idx.
  destruct buf as [|x0 [|x1 buf2]]; try (cbn in Hbuf; lia).
  set (rx1 := mkRx ([FRAME_START; bad] ++ buf2) 0 0 bad btr c0).
  assert (Hrx1 : wait_start rx1).
  { repeat split. cbn [frame_buf rx1 app length] in *. lia. }
  set (w1 := mkWorld (w_globals w) (w_clock w) (w_pending w)
               (w_trace w ++ [(w_clock w, EvLog (LogInvalidLength bad))])).
  destruct (rx_valid_frame rx1 c p w1 Hrx1 Hlen) as (rx' & E & Hrx').
  exists rx'. split; [|exact Hrx'].
  cbn [app uart_rx_bytes]. unfold bind at 1.
  rewrite (rx_byte_start _ _ _ _ [] x0 (x1 :: buf2)) by reflexivity.
  unfold bind at 1.
  rewrite (rx_byte_length_bad [FRAME_START] x1 buf2) by (cbn [length]; lia).
  unfold bind at 1 3, log, emit, ret. fold rx1. fold w1. exact E.
Qed.

Lemma frame_after_a_refused_length_is_decoded_witness :
  exists rx',
    uart_rx_bytes rx_init ([FRAME_START; 0xA5] ++ frame_of CMD_PING [])
      boot_world
    = (log (LogInvalidLength 0xA5);;
       dispatch_frame CMD_PING (payload_arg []) (Z.of_nat (length (@nil Z)));;
       ret rx') boot_world
    /\ wait_start rx'.
Proof.
  apply (frame_after_a_refused_length_is_decoded 0xA5 CMD_PING [] rx_init
           boot_world).
  - right. lia.
  - cbn. lia.
  - repeat split.
Defined.

(** ** From a tap to its re-assertion *)






